(** * Time-series feature construction: a model of [prepareData]

    The notebook code builds a supervised-learning table from a time series
    with pandas: lag columns ([shift]), calendar columns, optional
    target-encoded group means ([code_mean]), [dropna], and a positional
    train/test split ([timeseries_train_test_split]).  The second notebook
    contributes [moving_average].

    Modelling conventions.
    - The value in a cell is an exact rational; [None] stands for NaN /
      missing.  Cells are moved, compared and grouped as they are.
    - The split boundary [int(len(X) * (1 - test_size))] decides which rows
      go where, and it does so through the rounding of binary64: it is
      computed here as Python computes it, with [test_size] a Python float,
      the subtraction and the product rounded to nearest-even, and [int]
      raising on NaN and on an infinity.
    - The means of the libraries ([np.average], the grouped [.mean()],
      [np.mean]) and the arithmetic of the metric and of the plot bounds are
      taken at their mathematical value: the order in which a library sums,
      and the rounding of each step, are not modelled.
    - A timestamp is a count of nanoseconds since 1970-01-01 00:00, the
      representation of a [DatetimeIndex].
    - A [DataFrame] is an index together with named columns, in column
      order.  A pandas [Series] is the list of its (index, value) pairs. *)

From Stdlib Require Import ZArith QArith Qround Qabs Qpower Lqa.
From Stdlib Require Import String Ascii List Sorted Lia.
From Stdlib Require Import DecimalString DecimalPos DecimalZ DecimalFacts.
From stdpp Require Import base list gmap strings sorting.

Local Open Scope string_scope.
Local Open Scope list_scope.
Local Open Scope Z_scope.

(** ** Data *)

Abbreviation cell := (option Q).

Definition Series := list (Z * cell).

Record DataFrame := mkDataFrame {
  index : list Z;
  columns : list (string * list cell)
}.

Definition nrows (df : DataFrame) : nat := length (index df).

Definition int_cell (z : Z) : cell := Some (inject_Z z).

Definition notna (c : cell) : bool :=
  match c with Some _ => true | None => false end.

(** ** Exceptions

    How a call can end without returning.  [KeyError] and [ValueError] are
    what pandas raises for an absent column and for a length mismatch;
    [int] raises [ValueError] on NaN and [OverflowError] on an infinity.
    The other three are the conditions the documentation names; no
    statement of the source raises them. *)
Inductive exn :=
  | InvalidWindow | InvalidFraction | InsufficientData
  | KeyError | ValueError | OverflowError.

Inductive result (A : Type) :=
  | Ok (a : A)
  | Raise (e : exn).
Arguments Ok {A} a.
Arguments Raise {A} e.

Definition result_bind {A B} (r : result A) (k : A -> result B) : result B :=
  match r with
  | Ok a => k a
  | Raise e => Raise e
  end.

Notation "'let?' x ':=' r 'in' k" := (result_bind r (fun x => k))
  (at level 10, x name, r at level 100, k at level 200, only parsing).

(** ** Python floats

    A float is a number, one of the two infinities, or NaN.  [Num q] is
    written for any rational [q]; as a Python float it stands for the
    binary64 number nearest to [q] ([to_binary64]), the float that Python
    reads from the literal [q].  Zero has no sign here: no operation below
    tells [-0.0] from [0.0]. *)
Inductive ext :=
  | Num (q : Q)
  | PosInf
  | NegInf
  | NaN.

Definition pow2 (e : Z) : Q := (2 ^ e)%Q.

(** [floor(log2 q)] for [q > 0]. *)
Definition ilog2 (q : Q) : Z :=
  let e := Z.log2 (Qnum q) - Z.log2 (Zpos (Qden q)) in
  if Qle_bool (pow2 e) q then e else e - 1.

(** The nearest integer, a tie going to the even one. *)
Definition round_half_even (q : Q) : Z :=
  let f := Qfloor q in
  match (q - inject_Z f ?= 1 # 2)%Q with
  | Lt => f
  | Gt => f + 1
  | Eq => if Z.even f then f else f + 1
  end.

(** The exponent of the last place of a binary64 number of the size of
    [q]: 53 significant bits, and never below the subnormal spacing
    [2^-1074]. *)
Definition ulp_exponent (q : Q) : Z := Z.max (ilog2 (Qabs q) - 52) (-1074).

(** Round to nearest, ties to even, the exponent unbounded above. *)
Definition round_binary64 (q : Q) : Q :=
  if Qeq_bool q 0 then 0%Q
  else Qred (inject_Z (round_half_even (q / pow2 (ulp_exponent q)))
             * pow2 (ulp_exponent q)).

(** The binary64 result of an exact value: a rounded value of [2^1024] or
    more in size overflows to an infinity. *)
Definition fl (q : Q) : ext :=
  let r := round_binary64 q in
  if Qle_bool (pow2 1024) (Qabs r)
  then (if Qle_bool 0 r then PosInf else NegInf)
  else Num r.

Definition to_binary64 (x : ext) : ext :=
  match x with Num q => fl q | _ => x end.

(** [x - y] and [x * y] on binary64 operands. *)
Definition float_sub (x y : ext) : ext :=
  match x, y with
  | NaN, _ | _, NaN => NaN
  | Num a, Num b => fl (a - b)
  | PosInf, PosInf | NegInf, NegInf => NaN
  | PosInf, _ | _, NegInf => PosInf
  | NegInf, _ | _, PosInf => NegInf
  end.

Definition float_mul (x y : ext) : ext :=
  match x, y with
  | NaN, _ | _, NaN => NaN
  | Num a, Num b => fl (a * b)
  | Num a, PosInf | PosInf, Num a =>
      if Qeq_bool a 0 then NaN else if Qle_bool 0 a then PosInf else NegInf
  | Num a, NegInf | NegInf, Num a =>
      if Qeq_bool a 0 then NaN else if Qle_bool 0 a then NegInf else PosInf
  | PosInf, PosInf | NegInf, NegInf => PosInf
  | PosInf, NegInf | NegInf, PosInf => NegInf
  end.

(** An [int] turned into a float, as [n * x] does with its left operand:
    the nearest binary64 number, [OverflowError] when there is none. *)
Definition float_of_int (z : Z) : result ext :=
  match fl (inject_Z z) with
  | Num q => Ok (Num q)
  | _ => Raise OverflowError
  end.

(** ** Python and pandas primitives *)

(** [int(x)] on a float: truncation toward zero; NaN and the infinities
    have no integer. *)
Definition py_int (x : ext) : result Z :=
  match x with
  | Num q => Ok (Z.quot (Qnum q) (Zpos (Qden q)))
  | NaN => Raise ValueError
  | PosInf | NegInf => Raise OverflowError
  end.

(** [range(a, b)]. *)
Definition py_range (a b : Z) : list Z :=
  map (fun i : nat => a + Z.of_nat i) (seq 0 (Z.to_nat (b - a))).

(** A slice bound [k] on a sequence of length [n]: a negative bound counts
    from the end, and bounds are clamped to the sequence. *)
Definition slice_bound (n : nat) (k : Z) : nat :=
  if k <? 0 then Z.to_nat (Z.of_nat n + k) else Z.to_nat k.

(** [l[:k]] and [l[k:]]. *)
Definition slice_to {A} (k : Z) (l : list A) : list A :=
  firstn (slice_bound (length l) k) l.

Definition slice_from {A} (k : Z) (l : list A) : list A :=
  skipn (slice_bound (length l) k) l.

(** ["lag_{}".format(i)]. *)
Definition lag_name (i : Z) : string :=
  String.append "lag_" (NilZero.string_of_int (Z.to_int i)).

(** [col.shift(periods)]: position [p] receives the value at position
    [p - periods], NaN when that position is outside the column. *)
Definition shift (periods : Z) (col : list cell) : list cell :=
  map (fun p : nat =>
         let q := Z.of_nat p - periods in
         if 0 <=? q then default None (col !! Z.to_nat q) else None)
      (seq 0 (length col)).

(** Keep the entries of [l] whose mask bit is set. *)
Fixpoint mask_filter {A} (m : list bool) (l : list A) : list A :=
  match m, l with
  | b :: m', x :: l' => if b then x :: mask_filter m' l' else mask_filter m' l'
  | _, _ => []
  end.

(** [df.name] / [df[name]]. *)
Definition get_column (name : string) (df : DataFrame) : list cell :=
  match List.find (fun c => String.eqb (fst c) name) (columns df) with
  | Some c => snd c
  | None => []
  end.

Definition has_column (name : string) (df : DataFrame) : bool :=
  existsb (fun c => String.eqb (fst c) name) (columns df).

(** [df[name]], raising for an absent column. *)
Definition getitem (name : string) (df : DataFrame) : result (list cell) :=
  if has_column name df then Ok (get_column name df) else Raise KeyError.

(** [df[name] = col]: an existing column is replaced in place, a new one
    is appended after the others. *)
Fixpoint assign (name : string) (col : list cell)
    (cs : list (string * list cell)) : list (string * list cell) :=
  match cs with
  | [] => [(name, col)]
  | c :: cs' =>
      if String.eqb (fst c) name then (name, col) :: cs'
      else c :: assign name col cs'
  end.

Definition set_column (name : string) (col : list cell) (df : DataFrame)
    : DataFrame :=
  mkDataFrame (index df) (assign name col (columns df)).

(** [df.drop(names, axis=1)]. *)
Definition drop_columns (names : list string) (df : DataFrame) : DataFrame :=
  mkDataFrame (index df)
    (List.filter (fun c => negb (existsb (String.eqb (fst c)) names))
                 (columns df)).

(** Row [p] has no NaN in any column. *)
Definition row_notna (df : DataFrame) (p : nat) : bool :=
  forallb (fun c => match snd c !! p with
                    | Some v => notna v
                    | None => false
                    end) (columns df).

Definition dropna_mask (df : DataFrame) : list bool :=
  map (row_notna df) (seq 0 (nrows df)).

(** [df.dropna()]. *)
Definition dropna (df : DataFrame) : DataFrame :=
  let m := dropna_mask df in
  mkDataFrame (mask_filter m (index df))
              (map (fun c => (fst c, mask_filter m (snd c))) (columns df)).

(** [df[:k]] and [df.iloc[:k]]; [df.iloc[k:]]. *)
Definition frame_slice_to (k : Z) (df : DataFrame) : DataFrame :=
  mkDataFrame (slice_to k (index df))
              (map (fun c => (fst c, slice_to k (snd c))) (columns df)).

Definition frame_slice_from (k : Z) (df : DataFrame) : DataFrame :=
  mkDataFrame (slice_from k (index df))
              (map (fun c => (fst c, slice_from k (snd c))) (columns df)).

(** [df.name] as a Series: the column together with the index. *)
Definition column_series (name : string) (df : DataFrame) : Series :=
  combine (index df) (get_column name df).

(** ** Calendar fields of a timestamp *)

Definition ns_per_hour : Z := 3600000000000.
Definition ns_per_day : Z := 86400000000000.

(** [index.hour]. *)
Definition hour_of (t : Z) : Z := (t / ns_per_hour) mod 24.

(** [index.weekday], Monday = 0; 1970-01-01 was a Thursday. *)
Definition weekday_of (t : Z) : Z := (t / ns_per_day + 3) mod 7.

(** [weekday.isin([5, 6]) * 1]. *)
Definition isin_5_6 (c : cell) : cell :=
  int_cell match c with
           | Some q => if Qeq_bool q 5 || Qeq_bool q 6 then 1 else 0
           | None => 0
           end.

(** ** Means *)

Definition Qsum (l : list Q) : Q := fold_right Qplus 0%Q l.

(** The mean of a non-empty list of numbers, at its mathematical value and
    in lowest terms.  numpy and pandas sum and divide in binary64, and
    their result can differ from this one in the last place: three values
    0.1 average to 0.10000000000000002 there and to 1/10 here. *)
Definition Qmean (l : list Q) : Q :=
  Qred (Qsum l / inject_Z (Z.of_nat (length l))).

(** A grouped [.mean()] skips NaN; a group with no number left gives NaN. *)
Definition nanmean (vals : list cell) : cell :=
  match omap id vals with
  | [] => None
  | q :: qs => Some (Qmean (q :: qs))
  end.

Definition key_matches (k : Q) (c : cell) : bool :=
  match c with Some q => Qeq_bool q k | None => false end.

(** The distinct numbers of a key column, in order of first appearance. *)
Fixpoint unique_keys (keys : list cell) : list Q :=
  match keys with
  | [] => []
  | None :: r => unique_keys r
  | Some k :: r =>
      k :: List.filter (fun k' => negb (Qeq_bool k' k)) (unique_keys r)
  end.

(** [dict(keyed.groupby(level).mean())] on a key column and a value
    column: one entry per distinct key. *)
Definition groupby_mean (keys vals : list cell) : list (Q * cell) :=
  map (fun k => (k, nanmean (mask_filter (map (key_matches k) keys) vals)))
      (unique_keys keys).

(** [d.get]: Python's [None] for an absent key; written into a column it
    is a missing value like NaN. *)
Definition dict_get (d : list (Q * cell)) (k : cell) : cell :=
  match k with
  | None => None
  | Some q =>
      match List.find (fun e => Qeq_bool (fst e) q) d with
      | Some e => snd e
      | None => None
      end
  end.

(** ** The notebook's functions *)

(** [dict(data.groupby(cat_feature)[real_feature].mean())]; an absent
    column raises [KeyError]. *)
Definition code_mean (data : DataFrame) (cat_feature real_feature : string)
    : result (list (Q * cell)) :=
  let? keys := getitem cat_feature data in
  let? vals := getitem real_feature data in
  Ok (groupby_mean keys vals).

(** [int(len(X) * (1 - test_size))] for a table of [n] rows.  [test_size]
    is a Python float; [1 - test_size] and the product are binary64
    operations, the length entering the product as a float. *)
Definition test_index_of (n : nat) (test_size : ext) : result Z :=
  let rest := float_sub (Num 1) (to_binary64 test_size) in
  let? len := float_of_int (Z.of_nat n) in
  py_int (float_mul len rest).

Definition Dataset : Type := DataFrame * DataFrame * Series * Series.

Definition X_train (d : Dataset) : DataFrame := d.1.1.1.
Definition X_test (d : Dataset) : DataFrame := d.1.1.2.
Definition y_train (d : Dataset) : Series := d.1.2.
Definition y_test (d : Dataset) : Series := d.2.

Definition timeseries_train_test_split (X : DataFrame) (y : Series)
    (test_size : ext) : result Dataset :=
  let? test_index := test_index_of (nrows X) test_size in
  let X_train := frame_slice_to test_index X in
  let y_train := slice_to test_index y in
  let X_test := frame_slice_from test_index X in
  let y_test := slice_from test_index y in
  Ok (X_train, X_test, y_train, y_test).

(** The loop [for i in range(lag_start, lag_end): data["lag_i"] = data.y.shift(i)]. *)
Definition add_lags (lag_start lag_end : Z) (data : DataFrame) : DataFrame :=
  fold_left (fun d i => set_column (lag_name i) (shift i (get_column "y" d)) d)
            (py_range lag_start lag_end) data.

(** The three calendar columns. *)
Definition add_calendar (data : DataFrame) : DataFrame :=
  let data := set_column "hour" (map (fun t => int_cell (hour_of t)) (index data)) data in
  let data := set_column "weekday" (map (fun t => int_cell (weekday_of t)) (index data)) data in
  set_column "is_weekend" (map isin_5_6 (get_column "weekday" data)) data.

(** [pd.DataFrame(series.copy())] followed by [data.columns = ["y"]]. *)
Definition frame_of_series (series : Series) : DataFrame :=
  mkDataFrame (map fst series) [("y", map snd series)].

(** The frame [data] when the [if target_encoding:] test is reached. *)
Definition calendar_frame (series : Series) (lag_start lag_end : Z)
    : DataFrame :=
  add_calendar (add_lags lag_start lag_end (frame_of_series series)).

(** [int(len(data.dropna()) * (1 - test_size))] inside the block. *)
Definition encoding_index (test_size : ext) (data : DataFrame) : result Z :=
  test_index_of (nrows (dropna data)) test_size.

(** The [if target_encoding:] block. *)
Definition add_target_encoding (test_size : ext) (data : DataFrame)
    : result DataFrame :=
  let? test_index := encoding_index test_size data in
  let? weekday_means :=
    code_mean (frame_slice_to test_index data) "weekday" "y" in
  let data := set_column "weekday_average"
      (map (dict_get weekday_means) (get_column "weekday" data)) data in
  let? hour_means := code_mean (frame_slice_to test_index data) "hour" "y" in
  let data := set_column "hour_average"
      (map (dict_get hour_means) (get_column "hour" data)) data in
  Ok (drop_columns ["hour"; "weekday"] data).

(** The frame [data] as it stands when the train-test split is reached. *)
Definition feature_frame (series : Series) (lag_start lag_end : Z)
    (test_size : ext) (target_encoding : bool) : result DataFrame :=
  let data := calendar_frame series lag_start lag_end in
  if target_encoding then add_target_encoding test_size data else Ok data.

Definition prepareData (series : Series) (lag_start lag_end : Z)
    (test_size : ext) (target_encoding : bool) : result Dataset :=
  let? data :=
    feature_frame series lag_start lag_end test_size target_encoding in
  let y := column_series "y" (dropna data) in
  let X := drop_columns ["y"] (dropna data) in
  timeseries_train_test_split X y test_size.

(** [np.average] of a column: NaN propagates, and the empty average is NaN. *)
Definition np_average (vals : list cell) : cell :=
  match vals with
  | [] => None
  | _ => if forallb notna vals then Some (Qmean (omap id vals)) else None
  end.

(** [np.average(series[-n:])]. *)
Definition moving_average (series : list cell) (n : Z) : cell :=
  np_average (slice_from (- n) series).

(** ** The store: [prepareData] as the notebook runs it

    DataFrames are mutable objects.  [prepareData] copies its argument and
    then updates the copy in place ([data[name] = ...],
    [drop(..., inplace=True)]).  The model below keeps the frames that are
    updated in a store; frames that are only read once created ([dropna],
    slices) are passed as values.  Every pandas call that can raise is
    fallible here, also the column accesses that [prepareData] above takes
    for granted, so that "the call returns" is a statement to prove.  Lemma
    [prepareData_st_ok] relates a run in the store to the function
    [prepareData] above. *)

Definition loc := positive.

(** A computation on the store ends with a value or an exception, and with
    the store as it then stands. *)
Definition M (A : Type) : Type :=
  gmap loc DataFrame -> result A * gmap loc DataFrame.

Definition ret {A} (a : A) : M A := fun h => (Ok a, h).

Definition bind {A B} (m : M A) (k : A -> M B) : M B :=
  fun h => match m h with
           | (Ok a, h') => k a h'
           | (Raise e, h') => (Raise e, h')
           end.

Notation "'let!' x ':=' m 'in' k" := (bind m (fun x => k))
  (at level 10, x name, m at level 100, k at level 200, only parsing).
Notation "'exec' m 'in' k" := (bind m (fun _ => k))
  (at level 10, m at level 100, k at level 200, only parsing).

Definition lift {A} (r : result A) : M A :=
  fun h => (r, h).

(** Reading the object behind a reference. *)
Definition load (l : loc) : M DataFrame :=
  fun h => match h !! l with
           | Some df => (Ok df, h)
           | None => (Raise KeyError, h)
           end.

(** A new object. *)
Definition alloc (df : DataFrame) : M loc :=
  fun h => let l := fresh (dom h) in (Ok l, <[l := df]> h).

(** An update in place of the object behind [l]. *)
Definition update (l : loc) (f : DataFrame -> result DataFrame) : M unit :=
  fun h => match h !! l with
           | Some df =>
               match f df with
               | Ok df' => (Ok tt, <[l := df']> h)
               | Raise e => (Raise e, h)
               end
           | None => (Raise KeyError, h)
           end.

Fixpoint for_each {A} (l : list A) (body : A -> M unit) : M unit :=
  match l with
  | [] => ret tt
  | x :: l' => exec body x in for_each l' body
  end.

(** [df[name] = col], raising when the length differs from the index. *)
Definition setitem (name : string) (col : list cell) (df : DataFrame)
    : result DataFrame :=
  if Nat.eqb (length col) (nrows df) then Ok (set_column name col df)
  else Raise ValueError.

(** [df.columns = names]. *)
Definition set_names (names : list string) (df : DataFrame)
    : result DataFrame :=
  if Nat.eqb (length names) (length (columns df))
  then Ok (mkDataFrame (index df) (combine names (map snd (columns df))))
  else Raise ValueError.

(** [df.drop(names, axis=1)], raising for an absent label. *)
Definition drop_labels (names : list string) (df : DataFrame)
    : result DataFrame :=
  if forallb (fun n => has_column n df) names then Ok (drop_columns names df)
  else Raise KeyError.

(** [data[name] = f(data)] on the object behind [data]. *)
Definition assign_from (data : loc) (name : string)
    (f : DataFrame -> result (list cell)) : M unit :=
  let! df := load data in
  let! col := lift (f df) in
  update data (setitem name col).

(** [list(map(code_mean(data[:test_index], cat, "y").get, data[cat]))]. *)
Definition encoded_column (test_index : Z) (cat_feature : string)
    (df : DataFrame) : result (list cell) :=
  let? d := code_mean (frame_slice_to test_index df) cat_feature "y" in
  let? c := getitem cat_feature df in
  Ok (map (dict_get d) c).

Definition target_encoding_st (data : loc) (test_size : ext) : M unit :=
  let! df := load data in
  let! test_index := lift (test_index_of (nrows (dropna df)) test_size) in
  exec assign_from data "weekday_average" (encoded_column test_index "weekday") in
  exec assign_from data "hour_average" (encoded_column test_index "hour") in
  update data (drop_labels ["hour"; "weekday"]).

Definition prepareData_st (series : loc) (lag_start lag_end : Z)
    (test_size : ext) (target_encoding : bool) : M Dataset :=
  let! s := load series in
  let! data := alloc s in
  exec update data (set_names ["y"]) in
  exec for_each (py_range lag_start lag_end) (fun i =>
    assign_from data (lag_name i) (fun df =>
      match getitem "y" df with
      | Ok y => Ok (shift i y)
      | Raise e => Raise e
      end)) in
  exec assign_from data "hour"
    (fun df => Ok (map (fun t => int_cell (hour_of t)) (index df))) in
  exec assign_from data "weekday"
    (fun df => Ok (map (fun t => int_cell (weekday_of t)) (index df))) in
  exec assign_from data "is_weekend" (fun df =>
    match getitem "weekday" df with
    | Ok w => Ok (map isin_5_6 w)
    | Raise e => Raise e
    end) in
  exec (if target_encoding then target_encoding_st data test_size else ret tt) in
  let! df := load data in
  let! y := lift (getitem "y" (dropna df)) in
  let! X := lift (drop_labels ["y"] (dropna df)) in
  lift (timeseries_train_test_split X (combine (index (dropna df)) y) test_size).

(** ** Sample series *)

(** A series with one point every [step] nanoseconds from [t0]. *)
Definition regular_ts (t0 step : Z) (i : nat) : Z := t0 + Z.of_nat i * step.

Definition regular (t0 step : Z) (vals : list Q) : Series :=
  map (fun iv => (regular_ts t0 step (fst iv), Some (snd iv)))
      (combine (seq 0 (length vals)) vals).

Definition hourly (t0 : Z) (vals : list Q) : Series :=
  regular t0 ns_per_hour vals.

(** 100 hourly points with [v[i] = i]. *)
Definition series100 (t0 : Z) : Series :=
  hourly t0 (map (fun i : nat => inject_Z (Z.of_nat i)) (seq 0 100)).

Definition one_column (name : string) (s : Series) : DataFrame :=
  mkDataFrame (map fst s) [(name, map snd s)].

(** Seven hourly points from midnight, 1970-01-01. *)
Definition seven_hours : Series := hourly 0 [10; 20; 30; 40; 50; 60; 70]%Q.

(** The same points with the value at position 2 changed. *)
Definition seven_hours' : Series := hourly 0 [10; 20; 35; 40; 50; 60; 70]%Q.

(** Four points one week apart: one weekday and one hour throughout. *)
Definition four_weeks : Series := regular 0 (7 * ns_per_day) [10; 20; 30; 40]%Q.

(** A store holding [seven_hours] as a one-column frame. *)
Definition sample_store : gmap loc DataFrame :=
  {[ 1%positive := one_column "count" seven_hours ]}.

(** A frame with two columns. *)
Definition two_columns : DataFrame :=
  mkDataFrame [0; ns_per_hour]
    [("count", [Some 1%Q; Some 2%Q]); ("price", [Some 3%Q; Some 4%Q])].

Definition two_column_store : gmap loc DataFrame :=
  {[ 1%positive := two_columns ]}.

(** The rows the documentation names for the group means: the lag-complete
    rows before the boundary.  (The code slices [data] itself, see
    [add_target_encoding].) *)
Definition documented_encoding_rows (test_size : ext) (data : DataFrame)
    : result DataFrame :=
  let? test_index := encoding_index test_size data in
  Ok (frame_slice_to test_index (dropna data)).

(** 92 hourly points from midnight, 1970-01-01, with [v[i] = i]. *)
Definition ninety_two_hours : Series :=
  hourly 0 (map (fun i : nat => inject_Z (Z.of_nat i)) (seq 0 92)).

(** ** The arithmetic of the metric and of the plots

    The error metric divides, and a division by zero does not raise in
    numpy: it gives an infinity, or NaN for [0/0].  The metric and the plot
    helpers are therefore modelled on floats, arrays of dtype float64.
    Here a number is taken at its mathematical value, kept in lowest
    terms: the operations below do not round and do not overflow.  Zero has
    no sign, so [x / 0] takes the sign of [x]; the metric takes the
    absolute value of every quotient. *)

Definition num (q : Q) : ext := Num (Qred q).

Definition of_cell (c : cell) : ext :=
  match c with Some q => num q | None => NaN end.

Definition inf_of_sign (s : Z) : ext :=
  match s with
  | Z0 => NaN
  | Zpos _ => PosInf
  | Zneg _ => NegInf
  end.

Definition ext_sgn (x : ext) : Z :=
  match x with
  | Num q => Z.sgn (Qnum q)
  | PosInf => 1
  | NegInf => -1
  | NaN => 0
  end.

Definition ext_neg (x : ext) : ext :=
  match x with
  | Num q => num (- q)
  | PosInf => NegInf
  | NegInf => PosInf
  | NaN => NaN
  end.

Definition ext_add (x y : ext) : ext :=
  match x, y with
  | NaN, _ | _, NaN => NaN
  | Num a, Num b => num (a + b)
  | PosInf, NegInf | NegInf, PosInf => NaN
  | PosInf, _ | _, PosInf => PosInf
  | NegInf, _ | _, NegInf => NegInf
  end.

Definition ext_sub (x y : ext) : ext := ext_add x (ext_neg y).

Definition ext_mul (x y : ext) : ext :=
  match x, y with
  | NaN, _ | _, NaN => NaN
  | Num a, Num b => num (a * b)
  | _, _ => inf_of_sign (ext_sgn x * ext_sgn y)
  end.

Definition ext_div (x y : ext) : ext :=
  match x, y with
  | NaN, _ | _, NaN => NaN
  | Num a, Num b =>
      if Qeq_bool b 0 then inf_of_sign (Z.sgn (Qnum a)) else num (a / b)
  | Num _, _ => num 0
  | _, Num b =>
      inf_of_sign (ext_sgn x * (if Qeq_bool b 0 then 1 else Z.sgn (Qnum b)))
  | _, _ => NaN
  end.

Definition ext_abs (x : ext) : ext :=
  match x with
  | Num q => num (Qabs q)
  | PosInf | NegInf => PosInf
  | NaN => NaN
  end.


(** [np.mean] of an array: NaN for the empty array. *)
Definition np_mean (l : list ext) : ext :=
  match l with
  | [] => NaN
  | _ => ext_div (fold_right ext_add (Num 0) l)
                 (Num (inject_Z (Z.of_nat (length l))))
  end.

(** ** The metric and the plot helpers

    Arrays are combined position by position.  Both arguments of the metric
    have one entry per test row wherever the notebooks call it; what numpy
    or pandas do with arrays of different lengths is not modelled, and the
    theorems assume equal lengths. *)

(** What holds the values decides what [np.mean] does.  On an array NaN
    propagates.  On a pandas Series [np.mean] hands over to the Series' own
    [mean], which skips NaN; the arithmetic of an array with a Series gives
    a Series. *)
Inductive container := Ndarray | PdSeries.

Definition is_nan (x : ext) : bool :=
  match x with NaN => true | _ => false end.

Definition np_mean_of (c : container) (l : list ext) : ext :=
  match c with
  | Ndarray => np_mean l
  | PdSeries => np_mean (List.filter (fun x => negb (is_nan x)) l)
  end.

(** [np.mean(np.abs((y_true - y_pred) / y_true)) * 100], where [c] is what
    the quotients are held in. *)
Definition mean_absolute_percentage_error (c : container)
    (y_true y_pred : list ext) : ext :=
  ext_mul
    (np_mean_of c
       (map ext_abs
          (zip_with ext_div (zip_with ext_sub y_true y_pred) y_true)))
    (Num 100).




(** The order of [sort_values(by="abs", ascending=False)]: larger absolute
    value first, NaN last. *)
Definition abs_ge (a b : string * cell) : Prop :=
  match a.2, b.2 with
  | Some x, Some y => (Qabs y <= Qabs x)%Q
  | _, None => True
  | None, Some _ => False
  end.

#[global] Instance abs_ge_dec (a b : string * cell) : Decision (abs_ge a b).
Proof.
  unfold abs_ge. destruct a.2 as [x|], b.2 as [y|]; try (left; exact I).
  - destruct (Qlt_le_dec (Qabs x) (Qabs y)) as [Hlt|Hle].
    + right. intros Hle. exact (Qlt_not_le _ _ Hlt Hle).
    + left. exact Hle.
  - right. intros [].
Defined.

(** The bars of [plotCoefficients], in the order drawn: the coefficients
    with their column names, sorted by absolute value.  A frame cannot be
    built from a coefficient vector and an index of different lengths.
    Among coefficients of equal absolute value pandas fixes no order; a
    merge sort stands for its sort. *)
Definition plotCoefficients (coef_ : list cell) (X_columns : list string)
    : result (list (string * cell)) :=
  if Nat.eqb (length coef_) (length X_columns)
  then Ok (merge_sort abs_ge (combine X_columns coef_))
  else Raise ValueError.

(** ** Auxiliary notions for the proofs *)

(** One turn of the lag loop. *)
Definition lag_step (d : DataFrame) (i : Z) : DataFrame :=
  set_column (lag_name i) (shift i (get_column "y" d)) d.

(** A column name that is no lag name. *)
Definition plain_name (n : string) : Prop := forall i, lag_name i <> n.

(** Every column is as long as the index. *)
Definition well_formed (df : DataFrame) : Prop :=
  Forall (fun c => length c.2 = nrows df) (columns df).

(** The dictionary of [code_mean] on a frame that has the two columns. *)
Definition group_means (data : DataFrame) (cat_feature real_feature : string)
    : list (Q * cell) :=
  groupby_mean (get_column cat_feature data) (get_column real_feature data).

(** The [if target_encoding:] block at the boundary [test_index]. *)
Definition encoded_at (test_index : Z) (data : DataFrame) : DataFrame :=
  let data := set_column "weekday_average"
      (map (dict_get (group_means (frame_slice_to test_index data) "weekday" "y"))
           (get_column "weekday" data)) data in
  let data := set_column "hour_average"
      (map (dict_get (group_means (frame_slice_to test_index data) "hour" "y"))
           (get_column "hour" data)) data in
  drop_columns ["hour"; "weekday"] data.

(** The frame [data] at the train-test split, the encoding boundary being
    [test_index]. *)
Definition features_at (series : Series) (lag_start lag_end : Z)
    (test_index : Z) (target_encoding : bool) : DataFrame :=
  let data := calendar_frame series lag_start lag_end in
  if target_encoding then encoded_at test_index data else data.

(** The split at the boundary [test_index]. *)
Definition split_at (test_index : Z) (X : DataFrame) (y : Series) : Dataset :=
  (frame_slice_to test_index X, frame_slice_from test_index X,
   slice_to test_index y, slice_from test_index y).

(** The four tables made from [data] at the boundary [test_index]. *)
Definition dataset_at (test_index : Z) (data : DataFrame) : Dataset :=
  split_at test_index (drop_columns ["y"] (dropna data))
           (column_series "y" (dropna data)).

(** A computation that changes no object of the store but the one behind
    [l], whether it returns or raises. *)
Definition touches_only (l : loc) {A} (m : M A) : Prop :=
  forall (h : gmap loc DataFrame) (l0 : loc),
    l0 <> l -> (m h).2 !! l0 = h !! l0.

(** The lag columns in the order the loop creates them. *)
Definition lag_columns (ys : list cell) (lags : list Z)
    : list (string * list cell) :=
  map (fun k => (lag_name k, shift k ys)) lags.

(** The names of the columns that follow the lags in a feature table. *)
Definition calendar_names (target_encoding : bool) : list string :=
  if target_encoding then ["is_weekend"; "weekday_average"; "hour_average"]
  else ["hour"; "weekday"; "is_weekend"].

(** The targets of the rows of [rows] that fall in the calendar group of
    [t]: the same weekday, or the same hour. *)
Definition group_targets (f : Z -> Z) (t : Z) (rows : Series) : list cell :=
  map snd (List.filter (fun pt : Z * cell => f pt.1 =? f t) rows).

(** Numbers among the floating-point values. *)
Definition is_num (x : ext) : Prop :=
  match x with Num _ => True | _ => False end.

(** One term of the metric on numbers. *)
Definition ape (y p : Q) : Q := (Qabs (y - p) / Qabs y)%Q.

(** ** Lists: masks and slices *)

Section Lists.
Context {A : Type}.
Implicit Types (m : list bool) (l : list A).

Lemma mask_filter_nil_r m : mask_filter m (@nil A) = [].
Proof. by destruct m. Qed.

Lemma mask_filter_lookup m l j x :
  mask_filter m l !! j = Some x ->
  exists p, l !! p = Some x /\ m !! p = Some true.
Proof.
  revert l j. induction m as [|b m IH]; intros [|y l] j H; try done.
  destruct b; simpl in H.
  - destruct j as [|j]; simpl in H.
    + exists 0%nat. by simplify_eq.
    + destruct (IH _ _ H) as (p & ? & ?). by exists (S p).
  - destruct (IH _ _ H) as (p & ? & ?). by exists (S p).
Qed.

Lemma mask_filter_elem_of m l x :
  x ∈ mask_filter m l ->
  exists p, l !! p = Some x /\ m !! p = Some true.
Proof.
  intros [j Hj]%list_elem_of_lookup. eauto using mask_filter_lookup.
Qed.

Lemma mask_filter_sorted (R : A -> A -> Prop) m l :
  StronglySorted R l -> StronglySorted R (mask_filter m l).
Proof.
  revert l. induction m as [|b m IH]; intros [|y l] H; simpl;
    try constructor.
  inversion H as [|? ? Hl Hy]; subst.
  destruct b; [constructor|]; auto.
  apply Forall_forall. intros x Hx.
  apply mask_filter_elem_of in Hx as (p & Hp & _).
  rewrite Forall_forall in Hy.
  apply Hy. by eapply list_elem_of_lookup_2.
Qed.

Lemma slice_to_from (k : Z) l : slice_to k l ++ slice_from k l = l.
Proof. apply take_drop. Qed.

Lemma slice_bound_nonneg (n : nat) (k : Z) :
  0 <= k -> slice_bound n k = Z.to_nat k.
Proof. unfold slice_bound. intros. destruct (Z.ltb_spec k 0); lia. Qed.

Lemma slice_to_all (k : Z) l :
  Z.of_nat (length l) <= k -> slice_to k l = l /\ slice_from k l = [].
Proof.
  intros Hk. unfold slice_to, slice_from.
  rewrite slice_bound_nonneg by lia.
  split; [apply take_ge | apply drop_ge]; lia.
Qed.

End Lists.

Lemma mask_filter_pair {A B} (m : list bool) (l1 : list A) (l2 : list B) j x :
  length l1 = length l2 ->
  mask_filter m l1 !! j = Some x ->
  exists p, l1 !! p = Some x /\ m !! p = Some true /\
            mask_filter m l2 !! j = l2 !! p.
Proof.
  revert l1 l2 j. induction m as [|b m IH]; intros [|y1 l1] [|y2 l2] j Hl H;
    try done.
  simpl in Hl. injection Hl as Hl.
  destruct b; simpl in H |- *.
  - destruct j as [|j]; simpl in H |- *.
    + exists 0%nat. by simplify_eq.
    + destruct (IH _ _ _ Hl H) as (p & ? & ? & ?). by exists (S p).
  - destruct (IH _ _ _ Hl H) as (p & ? & ? & ?). by exists (S p).
Qed.

Lemma mask_filter_length {A B} (m : list bool) (l1 : list A) (l2 : list B) :
  length l1 = length l2 ->
  length (mask_filter m l1) = length (mask_filter m l2).
Proof.
  revert l1 l2. induction m as [|b m IH]; intros [|y1 l1] [|y2 l2] Hl;
    try done.
  simpl in Hl. injection Hl as Hl. destruct b; simpl; auto.
Qed.

(** ** Columns of a frame *)

Lemma get_set_eq n c d : get_column n (set_column n c d) = c.
Proof.
  unfold get_column, set_column; simpl.
  induction (columns d) as [|a cs IH]; simpl.
  - by rewrite String.eqb_refl.
  - destruct (String.eqb a.1 n) eqn:E; simpl.
    + by rewrite String.eqb_refl.
    + by rewrite E.
Qed.

Lemma get_set_ne n n' c d :
  n <> n' -> get_column n' (set_column n c d) = get_column n' d.
Proof.
  intros Hn. apply String.eqb_neq in Hn.
  unfold get_column, set_column; simpl.
  induction (columns d) as [|a cs IH]; simpl.
  - by rewrite Hn.
  - destruct (String.eqb a.1 n) eqn:E; simpl.
    + apply String.eqb_eq in E. rewrite E, Hn. done.
    + destruct (String.eqb a.1 n'); done.
Qed.

Lemma has_set n n' c d :
  has_column n' (set_column n c d) = String.eqb n n' || has_column n' d.
Proof.
  unfold has_column, set_column; simpl.
  induction (columns d) as [|a cs IH]; simpl.
  - by rewrite orb_false_r.
  - destruct (String.eqb a.1 n) eqn:E; simpl.
    + apply String.eqb_eq in E. rewrite E.
      by destruct (String.eqb n n').
    + rewrite IH. by destruct (String.eqb a.1 n'), (String.eqb n n').
Qed.

Lemma get_column_map (f : list cell -> list cell) i i' cs n :
  f [] = [] ->
  get_column n (mkDataFrame i (map (fun c => (c.1, f c.2)) cs))
  = f (get_column n (mkDataFrame i' cs)).
Proof.
  intros Hf. unfold get_column; simpl.
  induction cs as [|a cs IH]; simpl; [done|].
  by destruct (String.eqb a.1 n).
Qed.

Lemma get_column_dropna n d :
  get_column n (dropna d) = mask_filter (dropna_mask d) (get_column n d).
Proof.
  destruct d as [i cs]. unfold dropna. simpl columns.
  apply (get_column_map (mask_filter _)), mask_filter_nil_r.
Qed.

Lemma get_column_slice_to n k d :
  get_column n (frame_slice_to k d) = slice_to k (get_column n d).
Proof.
  destruct d as [i cs]. unfold frame_slice_to. simpl columns.
  apply (get_column_map (slice_to k)). apply take_nil.
Qed.

Lemma get_column_slice_from n k d :
  get_column n (frame_slice_from k d) = slice_from k (get_column n d).
Proof.
  destruct d as [i cs]. unfold frame_slice_from. simpl columns.
  apply (get_column_map (slice_from k)). apply drop_nil.
Qed.

Lemma get_column_drop n names d :
  existsb (String.eqb n) names = false ->
  get_column n (drop_columns names d) = get_column n d.
Proof.
  intros Hn. unfold get_column, drop_columns; simpl.
  induction (columns d) as [|a cs IH]; simpl; [done|].
  destruct (String.eqb a.1 n) eqn:E.
  - assert (existsb (String.eqb a.1) names = false) as ->.
    { pose proof (proj1 (String.eqb_eq _ _) E) as E'. by rewrite E'. }
    simpl. by rewrite E.
  - destruct (negb _); simpl; [by rewrite E|done].
Qed.

Lemma get_column_elem_of n d p v :
  get_column n d !! p = Some v ->
  exists c, c ∈ columns d /\ c.2 !! p = Some v.
Proof.
  unfold get_column.
  destruct (List.find _ _) as [c|] eqn:E; [|done].
  intros H. exists c. split; [|done].
  apply List.find_some in E as [E _]. by apply list_elem_of_In.
Qed.

Lemma row_notna_column d p n v :
  row_notna d p = true -> get_column n d !! p = Some v -> notna v = true.
Proof.
  intros Hr (c & Hc & Hv)%get_column_elem_of.
  unfold row_notna in Hr. rewrite forallb_forall in Hr.
  apply list_elem_of_In, Hr in Hc. by rewrite Hv in Hc.
Qed.

Lemma dropna_mask_lookup d p b :
  dropna_mask d !! p = Some b -> b = row_notna d p /\ (p < nrows d)%nat.
Proof.
  unfold dropna_mask. rewrite list_lookup_fmap.
  destruct (seq 0 (nrows d) !! p) as [q|] eqn:E; [|done].
  apply lookup_seq in E as [-> ?]. simpl. intros [= <-]. done.
Qed.

(** ** Column names of the lags *)

Lemma to_int_proper z : Z.to_int z <> Decimal.Pos Decimal.Nil /\
                        Z.to_int z <> Decimal.Neg Decimal.Nil.
Proof.
  destruct z as [|p|p]; simpl; split; try done;
    intros [= E]; by apply DecimalPos.Unsigned.to_uint_nonnil in E.
Qed.

Lemma lag_name_inj i j : lag_name i = lag_name j -> i = j.
Proof.
  unfold lag_name.
  change (String.append "lag_" ?s) with (String "l" (String "a" (String "g" (String "_" s)))).
  intros [= E].
  apply (f_equal NilZero.int_of_string) in E.
  destruct (to_int_proper i), (to_int_proper j).
  rewrite !NilZero.isi in E by done.
  injection E as E. apply (f_equal Z.of_int) in E.
  by rewrite !DecimalZ.of_to in E.
Qed.

Lemma lag_name_lead i : exists s, lag_name i = String "l" s.
Proof. unfold lag_name. eexists. reflexivity. Qed.

Lemma plain_name_not_l n :
  match n with String "l" _ => False | _ => True end -> plain_name n.
Proof.
  intros Hn i E. destruct (lag_name_lead i) as [s Hs].
  rewrite Hs in E. subst n. done.
Qed.

Ltac plain := apply plain_name_not_l; exact I.

Lemma py_range_elem_of a b k : k ∈ py_range a b <-> a <= k < b.
Proof.
  unfold py_range. rewrite list_elem_of_fmap. split.
  - intros (i & -> & Hi). apply list_elem_of_lookup in Hi as [j Hj].
    apply lookup_seq in Hj. lia.
  - intros Hk. exists (Z.to_nat (k - a)). split; [lia|].
    apply list_elem_of_lookup. exists (Z.to_nat (k - a)).
    apply lookup_seq. lia.
Qed.

Lemma py_range_empty a b : b <= a -> py_range a b = [].
Proof. intros. unfold py_range. by replace (Z.to_nat (b - a)) with 0%nat by lia. Qed.

(** ** The frame after each stage of [prepareData] *)

Lemma shift_length i col : length (shift i col) = length col.
Proof. unfold shift. by rewrite length_map, length_seq. Qed.

Lemma shift_lookup i col p :
  (p < length col)%nat ->
  shift i col !! p =
    Some (if 0 <=? Z.of_nat p - i
          then default None (col !! Z.to_nat (Z.of_nat p - i)) else None).
Proof.
  intros Hp. unfold shift. rewrite list_lookup_fmap.
  by rewrite (proj2 (lookup_seq 0 (length col) p p)).
Qed.

Lemma shift_0 col : shift 0 col = col.
Proof.
  apply list_eq. intros p.
  destruct (decide (p < length col)%nat) as [Hp|Hp].
  - rewrite shift_lookup by done.
    replace (0 <=? Z.of_nat p - 0) with true by (symmetry; apply Z.leb_le; lia).
    replace (Z.to_nat (Z.of_nat p - 0)) with p by lia.
    destruct (lookup_lt_is_Some_2 col p Hp) as [v Hv]. by rewrite Hv.
  - rewrite !lookup_ge_None_2; [done|lia|rewrite shift_length; lia].
Qed.

Lemma fold_lags_index l d : index (fold_left lag_step l d) = index d.
Proof.
  revert d. induction l as [|x l IH]; intros d; [done|].
  simpl. by rewrite IH.
Qed.

Lemma fold_lags_plain l d n :
  plain_name n ->
  get_column n (fold_left lag_step l d) = get_column n d.
Proof.
  intros Hn. revert d. induction l as [|x l IH]; intros d; simpl; [done|].
  rewrite IH. by apply get_set_ne.
Qed.

Lemma fold_lags_notin l d k :
  k ∉ l ->
  get_column (lag_name k) (fold_left lag_step l d) = get_column (lag_name k) d.
Proof.
  revert d. induction l as [|x l IH]; intros d Hk; simpl; [done|].
  apply not_elem_of_cons in Hk as [Hx Hl].
  rewrite IH by done. apply get_set_ne. intros E. by apply lag_name_inj in E.
Qed.

Lemma fold_lags_in l d k :
  k ∈ l ->
  get_column (lag_name k) (fold_left lag_step l d) = shift k (get_column "y" d).
Proof.
  revert d. induction l as [|x l IH]; intros d Hk; simpl.
  - by apply not_elem_of_nil in Hk.
  - destruct (decide (k ∈ l)) as [Hl|Hl].
    + rewrite IH by done. unfold lag_step at 1.
      rewrite get_set_ne; [done|]. by apply (plain_name_not_l "y").
    + apply elem_of_cons in Hk as [->|Hk]; [|done].
      rewrite fold_lags_notin by done. apply get_set_eq.
Qed.

Lemma add_lags_fold a b d : add_lags a b d = fold_left lag_step (py_range a b) d.
Proof. done. Qed.

Lemma add_calendar_index d : index (add_calendar d) = index d.
Proof. done. Qed.

Lemma add_calendar_other n d :
  n <> "hour" -> n <> "weekday" -> n <> "is_weekend" ->
  get_column n (add_calendar d) = get_column n d.
Proof.
  intros. unfold add_calendar. rewrite !get_set_ne; done.
Qed.

Lemma add_calendar_hour d :
  get_column "hour" (add_calendar d)
  = map (fun t => int_cell (hour_of t)) (index d).
Proof.
  unfold add_calendar. rewrite !get_set_ne by done. apply get_set_eq.
Qed.

Lemma add_calendar_weekday d :
  get_column "weekday" (add_calendar d)
  = map (fun t => int_cell (weekday_of t)) (index d).
Proof.
  unfold add_calendar. rewrite !get_set_ne by done. apply get_set_eq.
Qed.

Section Stages.
Variables (series : Series) (lag_start lag_end : Z).

Lemma calendar_frame_index :
  index (calendar_frame series lag_start lag_end) = map fst series.
Proof.
  unfold calendar_frame. rewrite add_calendar_index, add_lags_fold.
  by rewrite fold_lags_index.
Qed.

Lemma calendar_frame_y :
  get_column "y" (calendar_frame series lag_start lag_end) = map snd series.
Proof.
  unfold calendar_frame. rewrite add_calendar_other by done.
  rewrite add_lags_fold, fold_lags_plain; [done|plain].
Qed.

Lemma calendar_frame_lag k :
  lag_start <= k < lag_end ->
  get_column (lag_name k) (calendar_frame series lag_start lag_end)
  = shift k (map snd series).
Proof.
  intros Hk. unfold calendar_frame.
  rewrite add_calendar_other;
    [|apply (plain_name_not_l "hour" I)|apply (plain_name_not_l "weekday" I)
     |apply (plain_name_not_l "is_weekend" I)].
  rewrite add_lags_fold, fold_lags_in; [done|]. by apply py_range_elem_of.
Qed.

Lemma calendar_frame_hour :
  get_column "hour" (calendar_frame series lag_start lag_end)
  = map (fun t => int_cell (hour_of t)) (map fst series).
Proof.
  unfold calendar_frame. rewrite add_calendar_hour, add_lags_fold.
  by rewrite fold_lags_index.
Qed.

Lemma calendar_frame_weekday :
  get_column "weekday" (calendar_frame series lag_start lag_end)
  = map (fun t => int_cell (weekday_of t)) (map fst series).
Proof.
  unfold calendar_frame. rewrite add_calendar_weekday, add_lags_fold.
  by rewrite fold_lags_index.
Qed.

End Stages.

Lemma slice_to_row_of n (k : Z) (X : DataFrame) j t :
  length (get_column n X) = nrows X ->
  index (frame_slice_to k X) !! j = Some t ->
  exists j', index X !! j' = Some t /\
             get_column n (frame_slice_to k X) !! j = get_column n X !! j'.
Proof.
  intros Hlen Hj. exists j. rewrite get_column_slice_to.
  simpl in Hj. unfold slice_to in *. rewrite Hlen. fold (nrows X) in Hj.
  apply lookup_take_Some in Hj as [Hj Hlt]. split; [done|].
  by apply lookup_take_lt.
Qed.

Lemma slice_from_row_of n (k : Z) (X : DataFrame) j t :
  length (get_column n X) = nrows X ->
  index (frame_slice_from k X) !! j = Some t ->
  exists j', index X !! j' = Some t /\
             get_column n (frame_slice_from k X) !! j = get_column n X !! j'.
Proof.
  intros Hlen Hj. exists (slice_bound (nrows X) k + j)%nat.
  rewrite get_column_slice_from.
  simpl in Hj. unfold slice_from in *. rewrite Hlen. fold (nrows X) in Hj.
  rewrite lookup_drop in Hj. split; [done|]. apply lookup_drop.
Qed.

(** A row kept by [dropna] comes from a row of the frame without NaN, and
    carries that row's cells. *)
Lemma dropna_row_of n d j t :
  length (get_column n d) = nrows d ->
  index (dropna d) !! j = Some t ->
  exists p, index d !! p = Some t /\ row_notna d p = true /\
            get_column n (dropna d) !! j = get_column n d !! p.
Proof.
  intros Hlen Hj. simpl in Hj.
  destruct (mask_filter_pair _ _ (get_column n d) _ _ (eq_sym Hlen) Hj)
    as (p & Hp & Hm & Hc).
  exists p. rewrite get_column_dropna.
  apply dropna_mask_lookup in Hm as [Hm _]. done.
Qed.

Lemma encoded_at_index tf d : index (encoded_at tf d) = index d.
Proof. done. Qed.

Lemma encoded_at_other n tf d :
  n <> "hour" -> n <> "weekday" ->
  n <> "weekday_average" -> n <> "hour_average" ->
  get_column n (encoded_at tf d) = get_column n d.
Proof.
  intros Hh Hw Hwa Hha. unfold encoded_at.
  rewrite get_column_drop.
  - rewrite !get_set_ne; done.
  - simpl. apply String.eqb_neq in Hh, Hw. by rewrite Hh, Hw.
Qed.

Lemma code_mean_slice_set k n c d cat :
  n <> cat -> n <> "y" ->
  group_means (frame_slice_to k (set_column n c d)) cat "y"
  = group_means (frame_slice_to k d) cat "y".
Proof.
  intros. unfold group_means. by rewrite !get_column_slice_to, !get_set_ne.
Qed.

Lemma encoded_at_weekday tf d :
  get_column "weekday_average" (encoded_at tf d)
  = map (dict_get (group_means (frame_slice_to tf d) "weekday" "y"))
        (get_column "weekday" d).
Proof.
  unfold encoded_at. rewrite get_column_drop by done.
  rewrite get_set_ne by done. apply get_set_eq.
Qed.

Lemma encoded_at_hour tf d :
  get_column "hour_average" (encoded_at tf d)
  = map (dict_get (group_means (frame_slice_to tf d) "hour" "y"))
        (get_column "hour" d).
Proof.
  unfold encoded_at. rewrite get_column_drop by done.
  rewrite get_set_eq, code_mean_slice_set by done.
  by rewrite get_set_ne.
Qed.

Section Features.
Variables (series : Series) (lag_start lag_end : Z) (ke : Z).
Variable target_encoding : bool.

Let data := features_at series lag_start lag_end ke target_encoding.

Lemma features_at_index : index data = map fst series.
Proof.
  subst data. unfold features_at.
  destruct target_encoding; [rewrite encoded_at_index|];
    apply calendar_frame_index.
Qed.

Lemma features_at_nrows : nrows data = length series.
Proof. unfold nrows. by rewrite features_at_index, length_map. Qed.

Lemma features_at_y : get_column "y" data = map snd series.
Proof.
  subst data. unfold features_at.
  destruct target_encoding; [rewrite encoded_at_other by done|];
    apply calendar_frame_y.
Qed.

Lemma features_at_lag k :
  lag_start <= k < lag_end ->
  get_column (lag_name k) data = shift k (map snd series).
Proof.
  intros Hk. subst data. unfold features_at.
  destruct target_encoding; [|by apply calendar_frame_lag].
  rewrite encoded_at_other; [by apply calendar_frame_lag|..].
  - apply (plain_name_not_l "hour" I).
  - apply (plain_name_not_l "weekday" I).
  - apply (plain_name_not_l "weekday_average" I).
  - apply (plain_name_not_l "hour_average" I).
Qed.

(** Every row that survives [dropna] is a row [p] of the series, and its
    [lag_k] cell is the series value [k] positions earlier. *)
Lemma cleaned_lag k j t :
  lag_start <= k < lag_end ->
  index (drop_columns ["y"] (dropna data)) !! j = Some t ->
  exists (p : nat) (v : Q),
    map fst series !! p = Some t /\
    0 <= Z.of_nat p - k /\
    map snd series !! Z.to_nat (Z.of_nat p - k) = Some (Some v) /\
    get_column (lag_name k) (drop_columns ["y"] (dropna data)) !! j
      = Some (Some v).
Proof.
  intros Hk Hj.
  assert (length (get_column (lag_name k) data) = nrows data) as Hlen.
  { rewrite features_at_lag, shift_length, features_at_nrows by done.
    apply length_map. }
  destruct (dropna_row_of (lag_name k) data j t Hlen Hj)
    as (p & Hp & Hrow & Hc).
  rewrite features_at_index in Hp.
  assert (p < length (map snd series))%nat as Hlt.
  { apply lookup_lt_Some in Hp. by rewrite length_map in *. }
  rewrite get_column_drop.
  2:{ destruct (lag_name_lead k) as [s ->]. done. }
  rewrite Hc. rewrite features_at_lag in * by done.
  pose proof (shift_lookup k _ p Hlt) as Hs.
  pose proof (fun v => row_notna_column data p (lag_name k) v Hrow) as Hn.
  rewrite features_at_lag in Hn by done. specialize (Hn _ Hs).
  destruct (Z.leb_spec 0 (Z.of_nat p - k)) as [Hle|]; [|done].
  destruct (map snd series !! Z.to_nat (Z.of_nat p - k)) as [[v|]|] eqn:E;
    try done.
  exists p, v. by rewrite Hs.
Qed.

End Features.

(** ** Rounding to binary64 *)

Lemma pow2_pos (e : Z) : (0 < pow2 e)%Q.
Proof. by apply Qpower_0_lt. Qed.

Lemma pow2_plus (a b : Z) : (pow2 (a + b) == pow2 a * pow2 b)%Q.
Proof. by apply Qpower_plus. Qed.

Lemma pow2_le (a b : Z) : a <= b -> (pow2 a <= pow2 b)%Q.
Proof. intros. by apply Qpower_le_compat_l. Qed.

Lemma pow2_lt_inv (a b : Z) : (pow2 a < pow2 b)%Q -> a < b.
Proof. intros. by apply (Qpower_lt_compat_l_inv 2). Qed.

Lemma pow2_inject (n : Z) : 0 <= n -> (pow2 n == inject_Z (2 ^ n))%Q.
Proof. intros. unfold pow2. by rewrite (Zpower_Qpower 2 n). Qed.

Lemma Qmake_mult_den (q : Q) :
  (q * inject_Z (Zpos (Qden q)) == inject_Z (Qnum q))%Q.
Proof. destruct q as [a b]. unfold Qeq, Qmult, inject_Z. simpl. lia. Qed.

Lemma ilog2_spec (q : Q) :
  (0 < q)%Q -> (pow2 (ilog2 q) <= q /\ q < pow2 (ilog2 q + 1))%Q.
Proof.
  intros Hq.
  assert (0 < Qnum q) as Ha by (unfold Qlt in Hq; simpl in Hq; lia).
  pose proof (Z.log2_spec (Qnum q) Ha) as [Ha1 Ha2].
  pose proof (Z.log2_spec (Zpos (Qden q)) eq_refl) as [Hb1 Hb2].
  pose proof (Z.log2_nonneg (Qnum q)) as Hla.
  pose proof (Z.log2_nonneg (Zpos (Qden q))) as Hlb.
  set (la := Z.log2 (Qnum q)) in *. set (lb := Z.log2 (Zpos (Qden q))) in *.
  pose proof (Qmake_mult_den q) as Hq'.
  unfold ilog2. fold la lb.
  destruct (Qle_bool (pow2 (la - lb)) q) eqn:E.
  - apply Qle_bool_iff in E. split; [done|].
    replace (la - lb + 1) with ((la + 1) + - lb) by lia.
    rewrite pow2_plus. unfold pow2 at 2. rewrite Qpower_opp. fold (pow2 lb).
    apply Qlt_shift_div_l; [apply pow2_pos|].
    rewrite !pow2_inject by lia.
    apply Qle_lt_trans with (q * inject_Z (Zpos (Qden q)))%Q.
    + apply Qmult_le_l; [done|]. rewrite <- Zle_Qle. done.
    + rewrite Hq'. rewrite <- Zlt_Qlt. rewrite <- Z.add_1_r in Ha2. done.
  - assert (q < pow2 (la - lb))%Q as E'.
    { apply Qnot_le_lt. intros H. apply Qle_bool_iff in H. congruence. }
    split; [|by replace (la - lb - 1 + 1) with (la - lb) by lia].
    replace (la - lb - 1) with (la + - (lb + 1)) by lia.
    rewrite pow2_plus. unfold pow2 at 2. rewrite Qpower_opp. fold (pow2 (lb + 1)).
    apply Qle_shift_div_r; [apply pow2_pos|].
    rewrite !pow2_inject by lia.
    apply Qle_trans with (q * inject_Z (Zpos (Qden q)))%Q.
    + rewrite Hq'. by rewrite <- Zle_Qle.
    + apply Qmult_le_l; [done|]. rewrite <- Zle_Qle.
      rewrite <- Z.add_1_r in Hb2. lia.
Qed.

Lemma ilog2_mono (q1 q2 : Q) :
  (0 < q1)%Q -> (q1 <= q2)%Q -> ilog2 q1 <= ilog2 q2.
Proof.
  intros H1 H12.
  destruct (ilog2_spec q1 H1) as [Hlo _].
  destruct (ilog2_spec q2 (Qlt_le_trans _ _ _ H1 H12)) as [_ Hhi].
  enough (ilog2 q1 < ilog2 q2 + 1) by lia.
  apply pow2_lt_inv.
  eapply Qle_lt_trans; [exact Hlo|]. eapply Qle_lt_trans; [exact H12|exact Hhi].
Qed.

Lemma round_half_even_cases (q : Q) :
  (round_half_even q = Qfloor q /\ (q - inject_Z (Qfloor q) <= 1 # 2)%Q) \/
  (round_half_even q = Qfloor q + 1 /\ (1 # 2 <= q - inject_Z (Qfloor q))%Q).
Proof.
  unfold round_half_even.
  destruct (Qcompare_spec (q - inject_Z (Qfloor q)) (1 # 2)) as [E|E|E].
  - destruct (Z.even (Qfloor q)); [left|right]; split; try done; lra.
  - left. split; [done|]. lra.
  - right. split; [done|]. lra.
Qed.

Lemma round_half_even_mono (x y : Q) :
  (x <= y)%Q -> round_half_even x <= round_half_even y.
Proof.
  intros Hxy. pose proof (Qfloor_resp_le x y Hxy) as Hf.
  destruct (Z.eq_dec (Qfloor x) (Qfloor y)) as [E|Hne].
  - unfold round_half_even. rewrite <- E.
    destruct (Qcompare_spec (x - inject_Z (Qfloor x)) (1 # 2)) as [Ex|Ex|Ex];
      destruct (Qcompare_spec (y - inject_Z (Qfloor x)) (1 # 2)) as [Ey|Ey|Ey];
      try (destruct (Z.even (Qfloor x))); try lia; exfalso; lra.
  - destruct (round_half_even_cases x) as [[-> _]|[-> _]];
      destruct (round_half_even_cases y) as [[-> _]|[-> _]]; lia.
Qed.

Lemma round_half_even_Z (z : Z) : round_half_even (inject_Z z) = z.
Proof.
  unfold round_half_even. rewrite Qfloor_Z.
  destruct (Qcompare_spec (inject_Z z - inject_Z z) (1 # 2)) as [E|E|E];
    [exfalso; lra|done|exfalso; lra].
Qed.

Lemma round_half_even_eq (x : Q) (z : Z) :
  (x == inject_Z z)%Q -> round_half_even x = z.
Proof.
  intros E. apply Z.le_antisymm.
  - transitivity (round_half_even (inject_Z z));
      [apply round_half_even_mono; lra|by rewrite round_half_even_Z].
  - transitivity (round_half_even (inject_Z z));
      [by rewrite round_half_even_Z|apply round_half_even_mono; lra].
Qed.

Lemma Qred_inject_Z (z : Z) : Qred (inject_Z z) = inject_Z z.
Proof.
  unfold Qred, inject_Z.
  pose proof (Z.ggcd_gcd z 1) as Hg.
  pose proof (Z.ggcd_correct_divisors z 1) as Hd.
  destruct (Z.ggcd z 1) as [g [aa bb]]. simpl in *.
  rewrite Z.gcd_1_r in Hg. subst g. destruct Hd as [Ha Hb].
  assert (aa = z) as -> by lia. assert (bb = 1) as -> by lia. done.
Qed.

Lemma Qeq_bool_neq_false (a b : Q) : ~ (a == b)%Q -> Qeq_bool a b = false.
Proof.
  intros Hne. destruct (Qeq_bool a b) eqn:E; [|done].
  by apply Qeq_bool_iff in E.
Qed.

Lemma round_binary64_value (q : Q) :
  ~ (q == 0)%Q ->
  (round_binary64 q
   == inject_Z (round_half_even (q / pow2 (ulp_exponent q)))
      * pow2 (ulp_exponent q))%Q.
Proof.
  intros Hq. unfold round_binary64.
  rewrite (Qeq_bool_neq_false _ _ Hq). apply Qred_correct.
Qed.

Lemma round_binary64_zero (q : Q) : (q == 0)%Q -> round_binary64 q = 0%Q.
Proof.
  intros Hq. unfold round_binary64.
  by rewrite (proj2 (Qeq_bool_iff q 0) Hq).
Qed.

Lemma round_binary64_nonneg (q : Q) : (0 <= q)%Q -> (0 <= round_binary64 q)%Q.
Proof.
  intros Hq. destruct (Qeq_dec q 0) as [E|Hne].
  - by rewrite round_binary64_zero.
  - rewrite round_binary64_value by done.
    pose proof (pow2_pos (ulp_exponent q)) as Hp.
    apply Qmult_le_0_compat; [|lra].
    change 0%Q with (inject_Z 0). rewrite <- Zle_Qle.
    transitivity (round_half_even (inject_Z 0));
      [by rewrite round_half_even_Z|apply round_half_even_mono].
    change (inject_Z 0) with 0%Q.
    apply Qle_shift_div_l; [done|]. lra.
Qed.

Lemma round_binary64_nonpos (q : Q) : (q <= 0)%Q -> (round_binary64 q <= 0)%Q.
Proof.
  intros Hq. destruct (Qeq_dec q 0) as [E|Hne].
  - by rewrite round_binary64_zero.
  - rewrite round_binary64_value by done.
    pose proof (pow2_pos (ulp_exponent q)) as Hp.
    assert (inject_Z (round_half_even (q / pow2 (ulp_exponent q))) <= 0)%Q
      as Hm.
    { change 0%Q with (inject_Z 0). rewrite <- Zle_Qle.
      transitivity (round_half_even (inject_Z 0));
        [apply round_half_even_mono|by rewrite round_half_even_Z].
      change (inject_Z 0) with 0%Q.
      apply Qle_shift_div_r; [done|]. lra. }
    setoid_replace 0%Q with (0 * pow2 (ulp_exponent q))%Q
      using relation Qeq by ring.
    apply Qmult_le_compat_r; lra.
Qed.

Lemma ulp_exponent_pos (q : Q) :
  (0 < q)%Q -> ulp_exponent q = Z.max (ilog2 q - 52) (-1074).
Proof.
  intros Hq. unfold ulp_exponent. f_equal. f_equal.
  apply Z.le_antisymm; apply ilog2_mono; try done.
  - by apply Qabs_case; intros; lra.
  - rewrite Qabs_pos; lra.
  - rewrite Qabs_pos; lra.
Qed.

Lemma round_binary64_mono_pos (q1 q2 : Q) :
  (0 < q1)%Q -> (q1 <= q2)%Q -> (round_binary64 q1 <= round_binary64 q2)%Q.
Proof.
  intros H1 H12.
  assert (0 < q2)%Q as H2 by lra.
  rewrite !round_binary64_value by lra.
  rewrite !ulp_exponent_pos by done.
  pose proof (ilog2_mono q1 q2 H1 H12) as He.
  destruct (ilog2_spec q1 H1) as [_ Hhi1].
  destruct (ilog2_spec q2 H2) as [Hlo2 _].
  set (e1 := ilog2 q1) in *. set (e2 := ilog2 q2) in *.
  set (u1 := Z.max (e1 - 52) (-1074)). set (u2 := Z.max (e2 - 52) (-1074)).
  pose proof (pow2_pos u1) as Hp1. pose proof (pow2_pos u2) as Hp2.
  destruct (Z.eq_dec u1 u2) as [E|Hne].
  - rewrite <- E. apply Qmult_le_compat_r; [|lra].
    rewrite <- Zle_Qle. apply round_half_even_mono.
    apply Qmult_le_compat_r; [done|]. apply Qlt_le_weak, Qinv_lt_0_compat. done.
  - assert (u1 + 1 <= u2 /\ u2 = e2 - 52 /\ e1 + 1 <= u1 + 53) as (Hu & Hu2 & Hu1)
      by (unfold u1, u2 in *; lia).
    apply Qle_trans with (pow2 (u2 + 52)).
    + apply Qle_trans with (pow2 (u1 + 53)); [|apply pow2_le; lia].
      rewrite pow2_plus, (Qmult_comm (pow2 u1)).
      apply Qmult_le_compat_r; [|lra].
      rewrite (pow2_inject 53) by lia. rewrite <- Zle_Qle.
      transitivity (round_half_even (inject_Z (2 ^ 53)));
        [apply round_half_even_mono|by rewrite round_half_even_Z].
      apply Qle_shift_div_r; [done|].
      rewrite <- (pow2_inject 53) by lia. rewrite <- pow2_plus.
      apply Qlt_le_weak. eapply Qlt_le_trans; [exact Hhi1|].
      apply pow2_le. lia.
    + rewrite pow2_plus, (Qmult_comm (pow2 u2)).
      apply Qmult_le_compat_r; [|lra].
      rewrite (pow2_inject 52) by lia. rewrite <- Zle_Qle.
      transitivity (round_half_even (inject_Z (2 ^ 52)));
        [by rewrite round_half_even_Z|apply round_half_even_mono].
      apply Qle_shift_div_l; [done|].
      rewrite <- (pow2_inject 52) by lia. rewrite <- pow2_plus.
      eapply Qle_trans; [|exact Hlo2]. apply pow2_le. lia.
Qed.

Lemma round_binary64_mono_nonneg (q1 q2 : Q) :
  (0 <= q1)%Q -> (q1 <= q2)%Q -> (round_binary64 q1 <= round_binary64 q2)%Q.
Proof.
  intros H1 H12. destruct (Qeq_dec q1 0) as [E|Hne].
  - rewrite (round_binary64_zero q1 E). apply round_binary64_nonneg. lra.
  - apply round_binary64_mono_pos; [|done].
    destruct (Qlt_le_dec 0 q1) as [Hlt|Hle]; [done|].
    exfalso. apply Hne. lra.
Qed.

(** Every integer up to [2^53] is a binary64 number. *)
Lemma round_binary64_Z (z : Z) :
  0 <= z <= 2 ^ 53 -> round_binary64 (inject_Z z) = inject_Z z.
Proof.
  intros Hz. destruct (Z.eq_dec z 0) as [->|Hz0]; [done|].
  destruct (Z.eq_dec z (2 ^ 53)) as [->|Hz53]; [by vm_compute|].
  assert (0 < inject_Z z)%Q as Hpos
    by (change 0%Q with (inject_Z 0); rewrite <- Zlt_Qlt; lia).
  unfold round_binary64. rewrite Qeq_bool_neq_false by lra.
  transitivity (Qred (inject_Z z)); [apply Qred_complete|apply Qred_inject_Z].
  rewrite ulp_exponent_pos by done.
  destruct (ilog2_spec _ Hpos) as [Hlo Hhi].
  set (e := ilog2 (inject_Z z)) in *.
  assert (0 <= e) as He0.
  { enough (0 < e + 1) by lia. apply pow2_lt_inv.
    eapply Qle_lt_trans; [|exact Hhi].
    change (pow2 0) with (inject_Z 1). rewrite <- Zle_Qle. lia. }
  assert (e < 53) as He53.
  { apply pow2_lt_inv. eapply Qle_lt_trans; [exact Hlo|].
    rewrite (pow2_inject 53) by lia. rewrite <- Zlt_Qlt. lia. }
  replace (Z.max (e - 52) (-1074)) with (- (52 - e)) by lia.
  assert (pow2 (- (52 - e)) == / inject_Z (2 ^ (52 - e)))%Q as Hp.
  { unfold pow2. rewrite Qpower_opp. fold (pow2 (52 - e)).
    by rewrite pow2_inject by lia. }
  assert (0 < inject_Z (2 ^ (52 - e)))%Q as Hpp.
  { change 0%Q with (inject_Z 0). rewrite <- Zlt_Qlt.
    apply Z.pow_pos_nonneg; lia. }
  rewrite (round_half_even_eq _ (z * 2 ^ (52 - e))).
  - rewrite Hp, inject_Z_mult. field. lra.
  - rewrite Hp, inject_Z_mult. field. lra.
Qed.

Lemma Qred_canonical (a b x y : Q) :
  a = Qred x -> b = Qred y -> (a == b)%Q -> a = b.
Proof.
  intros -> -> E. rewrite !Qred_correct in E. by apply Qred_complete.
Qed.

Lemma round_binary64_comp (q q' : Q) :
  (0 <= q)%Q -> (q == q')%Q -> round_binary64 q = round_binary64 q'.
Proof.
  intros Hq E.
  assert (round_binary64 q == round_binary64 q')%Q as Er.
  { apply Qle_antisym; apply round_binary64_mono_nonneg; lra. }
  assert (forall x, exists y, round_binary64 x = Qred y) as Hc.
  { intros x. unfold round_binary64. destruct (Qeq_bool x 0); [by exists 0%Q|].
    by eexists. }
  destruct (Hc q) as [y Hy]. destruct (Hc q') as [y' Hy'].
  by eapply Qred_canonical.
Qed.

(** ** The split boundary *)

Lemma trunc_nonneg (q : Q) :
  (0 <= q)%Q -> Z.quot (Qnum q) (Zpos (Qden q)) = Qfloor q.
Proof.
  destruct q as [a b]. unfold Qle. simpl. intros Ha.
  apply Z.quot_div_nonneg; lia.
Qed.

Lemma fl_cases (q : Q) :
  fl q = Num (round_binary64 q) \/ fl q = PosInf \/ fl q = NegInf.
Proof.
  unfold fl. destruct (Qle_bool _ _); [|by left].
  destruct (Qle_bool _ _); auto.
Qed.

Lemma fl_nonneg_cases (q : Q) :
  (0 <= q)%Q -> fl q = Num (round_binary64 q) \/ fl q = PosInf.
Proof.
  intros Hq. unfold fl. destruct (Qle_bool _ _); [|by left].
  right. by rewrite (proj2 (Qle_bool_iff _ _) (round_binary64_nonneg q Hq)).
Qed.

(** No overflow below [2^53]. *)
Lemma fl_bounded (q : Q) (z : Z) :
  (0 <= q)%Q -> (q <= inject_Z z)%Q -> z <= 2 ^ 53 ->
  fl q = Num (round_binary64 q) /\
  (0 <= round_binary64 q)%Q /\ (round_binary64 q <= inject_Z z)%Q.
Proof.
  intros H0 Hq Hz.
  assert (0 <= z) as Hz0.
  { rewrite Zle_Qle. change (inject_Z 0) with 0%Q. lra. }
  pose proof (round_binary64_nonneg q H0) as Hr0.
  pose proof (round_binary64_mono_nonneg q (inject_Z z) H0 Hq) as Hr.
  rewrite round_binary64_Z in Hr by lia.
  split; [|done]. unfold fl.
  destruct (Qle_bool (pow2 1024) (Qabs (round_binary64 q))) eqn:E; [|done].
  exfalso. apply Qle_bool_iff in E. rewrite Qabs_pos in E by done.
  assert (pow2 1024 <= pow2 53)%Q as Hp.
  { rewrite (pow2_inject 53) by lia. eapply Qle_trans; [exact E|].
    eapply Qle_trans; [exact Hr|]. by rewrite <- Zle_Qle. }
  apply (Qpower_le_compat_l_inv 2) in Hp; [lia|done].
Qed.

Lemma float_of_int_small (z : Z) :
  0 <= z <= 2 ^ 53 -> float_of_int z = Ok (Num (inject_Z z)).
Proof.
  intros Hz. unfold float_of_int.
  destruct (fl_bounded (inject_Z z) z) as (-> & _); try lia.
  - change 0%Q with (inject_Z 0). rewrite <- Zle_Qle. lia.
  - apply Qle_refl.
  - by rewrite round_binary64_Z.
Qed.

(** For a fraction in [0,1] and a table of at most [2^53] rows the boundary
    is computed, and it lies within the table. *)
Lemma test_index_unit (n : nat) (t : Q) :
  Z.of_nat n <= 2 ^ 53 -> (0 <= t)%Q -> (t <= 1)%Q ->
  exists b, test_index_of n (Num t) = Ok b /\ 0 <= b <= Z.of_nat n.
Proof.
  intros Hn H0 H1. unfold test_index_of, to_binary64.
  destruct (fl_bounded t 1) as (-> & Ht0 & Ht1); [done|done|lia|].
  set (t' := round_binary64 t) in *. change (inject_Z 1) with 1%Q in Ht1.
  cbn [float_sub].
  destruct (fl_bounded (1 - t') 1) as (-> & Hx0 & Hx1);
    [lra|change (inject_Z 1) with 1%Q; lra|lia|].
  set (x := round_binary64 (1 - t')) in *. change (inject_Z 1) with 1%Q in Hx1.
  rewrite float_of_int_small by lia. cbn [result_bind float_mul].
  assert (0 <= inject_Z (Z.of_nat n))%Q as Hn0.
  { change 0%Q with (inject_Z 0). rewrite <- Zle_Qle. lia. }
  destruct (fl_bounded (inject_Z (Z.of_nat n) * x) (Z.of_nat n))
    as (-> & Hp0 & Hp1); [nra|nra|lia|].
  cbn [py_int]. eexists. split; [done|].
  rewrite trunc_nonneg by done. split.
  - change 0 with (Qfloor 0). by apply Qfloor_resp_le.
  - rewrite <- (Qfloor_Z (Z.of_nat n)) at 2. by apply Qfloor_resp_le.
Qed.

(** A fraction that is not positive puts no row after the boundary. *)
Lemma test_index_nonpos (n : nat) (t : Q) (b : Z) :
  Z.of_nat n <= 2 ^ 53 -> (t <= 0)%Q ->
  test_index_of n (Num t) = Ok b -> Z.of_nat n <= b.
Proof.
  intros Hn Ht. unfold test_index_of, to_binary64.
  rewrite float_of_int_small by lia. cbn [result_bind].
  assert (0 <= inject_Z (Z.of_nat n))%Q as Hn0.
  { change 0%Q with (inject_Z 0). rewrite <- Zle_Qle. lia. }
  pose proof (round_binary64_nonpos t Ht) as Ht'.
  destruct (fl_cases t) as [-> | [-> | ->]]; cbn [float_sub float_mul].
  - assert (1 <= 1 - round_binary64 t)%Q as Hx by lra.
    assert (1 <= round_binary64 (1 - round_binary64 t))%Q as Hx'.
    { rewrite <- (round_binary64_Z 1) at 1 by lia.
      apply round_binary64_mono_nonneg; [done|exact Hx]. }
    destruct (fl_nonneg_cases (1 - round_binary64 t)) as [-> | ->]; [lra| |].
    + cbn [float_mul].
      set (x := round_binary64 (1 - round_binary64 t)) in *.
      assert (inject_Z (Z.of_nat n) <= inject_Z (Z.of_nat n) * x)%Q as Hp by nra.
      assert (inject_Z (Z.of_nat n)
              <= round_binary64 (inject_Z (Z.of_nat n) * x))%Q as Hp'.
      { rewrite <- (round_binary64_Z (Z.of_nat n)) at 1 by lia.
        by apply round_binary64_mono_nonneg. }
      destruct (fl_nonneg_cases (inject_Z (Z.of_nat n) * x)) as [-> | ->];
        [lra| |done].
      cbn [py_int]. intros [= <-]. rewrite trunc_nonneg by lra.
      rewrite <- (Qfloor_Z (Z.of_nat n)) at 1. by apply Qfloor_resp_le.
    + cbn [float_mul]. destruct (Qeq_bool _ _); [done|].
      by destruct (Qle_bool _ _).
  - destruct (Qeq_bool _ _); [done|]. by destruct (Qle_bool _ _).
  - destruct (Qeq_bool _ _); [done|]. by destruct (Qle_bool _ _).
Qed.

Lemma test_index_one (n : nat) (t : Q) :
  Z.of_nat n <= 2 ^ 53 -> (t == 1)%Q -> test_index_of n (Num t) = Ok 0.
Proof.
  intros Hn Ht. unfold test_index_of, to_binary64.
  rewrite float_of_int_small by lia. cbn [result_bind].
  assert (fl t = Num 1) as ->.
  { unfold fl. rewrite (round_binary64_comp t 1) by lra. done. }
  change (float_sub (Num 1) (Num 1)) with (Num 0). cbn [float_mul].
  unfold fl. rewrite round_binary64_zero by ring. done.
Qed.

(** The boundary fails as [int] fails, and in no other way. *)
Lemma test_index_raises (n : nat) (x : ext) (e : exn) :
  test_index_of n x = Raise e -> e = ValueError \/ e = OverflowError.
Proof.
  unfold test_index_of, float_of_int.
  destruct (fl (inject_Z (Z.of_nat n))); cbn [result_bind];
    try (intros [= <-]; by right).
  destruct (float_mul _ _); cbn [py_int]; intros [= <-]; auto.
Qed.

Lemma test_index_nan (n : nat) :
  Z.of_nat n <= 2 ^ 53 -> test_index_of n NaN = Raise ValueError.
Proof.
  intros Hn. unfold test_index_of. by rewrite float_of_int_small by lia.
Qed.

Lemma test_index_inf (n : nat) (x : ext) :
  (0 < n)%nat -> Z.of_nat n <= 2 ^ 53 -> x = PosInf \/ x = NegInf ->
  test_index_of n x = Raise OverflowError.
Proof.
  intros H0 Hn Hx. unfold test_index_of. rewrite float_of_int_small by lia.
  assert (Qeq_bool (inject_Z (Z.of_nat n)) 0 = false) as E.
  { apply Qeq_bool_neq_false. unfold Qeq. simpl. lia. }
  destruct Hx as [-> | ->]; cbn [to_binary64 float_sub result_bind float_mul];
    rewrite E; by destruct (Qle_bool _ _).
Qed.

Lemma sorted_app_lt (l1 l2 : list Z) x y :
  StronglySorted Z.lt (l1 ++ l2) -> x ∈ l1 -> y ∈ l2 -> x < y.
Proof.
  induction l1 as [|a l1 IH]; intros Hs Hx Hy.
  - by apply not_elem_of_nil in Hx.
  - simpl in Hs. inversion Hs as [|? ? Hs' Ha]; subst.
    apply elem_of_cons in Hx as [->|Hx]; [|by apply IH].
    rewrite Forall_forall in Ha. apply Ha. apply elem_of_app. by right.
Qed.

(** ** Well-formed frames *)

Lemma wf_set_column n col d :
  length col = nrows d -> well_formed d -> well_formed (set_column n col d).
Proof.
  unfold well_formed, set_column, nrows; simpl. intros Hc.
  induction 1 as [|a cs Ha Hcs IH]; simpl.
  - by constructor.
  - destruct (String.eqb a.1 n); constructor; done.
Qed.

Lemma wf_drop_columns names d :
  well_formed d -> well_formed (drop_columns names d).
Proof.
  unfold well_formed, drop_columns, nrows; simpl.
  rewrite !Forall_forall. intros H c Hc.
  apply list_elem_of_In, filter_In in Hc as [Hc _].
  by apply H, list_elem_of_In.
Qed.

Lemma wf_dropna d : well_formed d -> well_formed (dropna d).
Proof.
  unfold well_formed, dropna, nrows; simpl. intros H.
  apply Forall_fmap. eapply Forall_impl; [exact H|].
  intros c Hc. simpl. by apply mask_filter_length.
Qed.

Lemma wf_get_column n d :
  well_formed d -> has_column n d = true ->
  length (get_column n d) = nrows d.
Proof.
  unfold well_formed, has_column, get_column.
  induction 1 as [|a cs Ha Hcs IH]; simpl; [done|].
  destruct (String.eqb a.1 n); simpl; auto.
Qed.

Lemma has_column_map (f : list cell -> list cell) i i' cs n :
  has_column n (mkDataFrame i (map (fun c => (c.1, f c.2)) cs))
  = has_column n (mkDataFrame i' cs).
Proof.
  unfold has_column; simpl. induction cs as [|a cs IH]; simpl; [done|].
  by rewrite IH.
Qed.

Lemma has_column_dropna n d : has_column n (dropna d) = has_column n d.
Proof. destruct d. apply (has_column_map (mask_filter _)). Qed.

Lemma has_column_slice_to n k d :
  has_column n (frame_slice_to k d) = has_column n d.
Proof. destruct d. apply (has_column_map (slice_to k)). Qed.

Lemma has_drop n names d :
  has_column n (drop_columns names d)
  = has_column n d && negb (existsb (String.eqb n) names).
Proof.
  unfold has_column, drop_columns; simpl.
  induction (columns d) as [|c cs IH]; simpl; [done|].
  destruct (String.eqb c.1 n) eqn:E; simpl.
  - assert (existsb (String.eqb c.1) names = existsb (String.eqb n) names) as ->.
    { pose proof (proj1 (String.eqb_eq _ _) E) as E'. by rewrite E'. }
    destruct (existsb (String.eqb n) names); simpl.
    + rewrite IH. simpl. apply andb_false_r.
    + by rewrite E.
  - destruct (existsb (String.eqb c.1) names); simpl; by rewrite ?E, IH.
Qed.

Lemma has_fold_lags l d n :
  has_column n d = true -> has_column n (fold_left lag_step l d) = true.
Proof.
  revert d. induction l as [|x l IH]; intros d Hd; simpl; [done|].
  apply IH. unfold lag_step. rewrite has_set, Hd. apply orb_true_r.
Qed.

Lemma wf_fold_lags l d :
  well_formed d -> has_column "y" d = true ->
  well_formed (fold_left lag_step l d).
Proof.
  revert d. induction l as [|x l IH]; intros d Hwf Hy; simpl; [done|].
  apply IH.
  - apply wf_set_column; [|done]. rewrite shift_length. by apply wf_get_column.
  - unfold lag_step. rewrite has_set, Hy. apply orb_true_r.
Qed.

Lemma wf_add_calendar d : well_formed d -> well_formed (add_calendar d).
Proof.
  intros Hwf. unfold add_calendar.
  apply wf_set_column; [|apply wf_set_column; [|apply wf_set_column]];
    try done; try apply length_map.
  rewrite length_map, get_set_eq. apply length_map.
Qed.

Lemma has_add_calendar n d :
  has_column n (add_calendar d)
  = String.eqb "is_weekend" n || (String.eqb "weekday" n
      || (String.eqb "hour" n || has_column n d)).
Proof. unfold add_calendar. by rewrite !has_set. Qed.

Lemma wf_frame_of_series s : well_formed (frame_of_series s).
Proof.
  unfold well_formed, frame_of_series, nrows; simpl.
  constructor; [|done]. simpl. by rewrite !length_map.
Qed.

Lemma wf_calendar_frame s a b : well_formed (calendar_frame s a b).
Proof.
  unfold calendar_frame. apply wf_add_calendar.
  rewrite add_lags_fold. apply wf_fold_lags; [apply wf_frame_of_series|done].
Qed.

Lemma has_calendar_frame s a b n :
  n = "y" \/ n = "hour" \/ n = "weekday" ->
  has_column n (calendar_frame s a b) = true.
Proof.
  unfold calendar_frame. rewrite has_add_calendar.
  intros [-> | [-> | ->]]; try done.
  rewrite add_lags_fold, has_fold_lags; done.
Qed.

Lemma encoded_length d (dict : list (Q * cell)) n :
  well_formed d -> has_column n d = true ->
  length (map (dict_get dict) (get_column n d)) = nrows d.
Proof. intros. rewrite length_map. by apply wf_get_column. Qed.

Lemma wf_encoded_at tf d :
  well_formed d -> has_column "weekday" d = true -> has_column "hour" d = true ->
  well_formed (encoded_at tf d).
Proof.
  intros Hwf Hw Hh. unfold encoded_at.
  apply wf_drop_columns. apply wf_set_column.
  - rewrite length_map, get_set_ne by done.
    by apply (wf_get_column "hour" d).
  - apply wf_set_column; [|done]. by apply encoded_length.
Qed.

Lemma wf_features_at s a b tf te : well_formed (features_at s a b tf te).
Proof.
  unfold features_at. destruct te; [|apply wf_calendar_frame].
  apply wf_encoded_at;
    [apply wf_calendar_frame|apply has_calendar_frame..]; auto.
Qed.

Lemma wf_cleaned s a b tf te :
  well_formed (drop_columns ["y"] (dropna (features_at s a b tf te))).
Proof. apply wf_drop_columns, wf_dropna, wf_features_at. Qed.

(** The frame has a column for every lag of the window. *)
Lemma has_feature_lag series lag_start lag_end ke target_encoding k :
  lag_start <= k < lag_end ->
  has_column (lag_name k)
    (features_at series lag_start lag_end ke target_encoding) = true.
Proof.
  intros Hk. destruct (lag_name_lead k) as [s Hs].
  unfold features_at, calendar_frame.
  assert (has_column (lag_name k)
            (add_lags lag_start lag_end (frame_of_series series)) = true) as Hl.
  { rewrite add_lags_fold.
    assert (k ∈ py_range lag_start lag_end) as Hin by by apply py_range_elem_of.
    revert Hin. generalize (frame_of_series series).
    induction (py_range lag_start lag_end) as [|x l IH]; intros d0 Hin.
    - by apply not_elem_of_nil in Hin.
    - simpl. apply elem_of_cons in Hin as [->|Hin]; [|by apply IH].
      apply has_fold_lags. unfold lag_step.
      by rewrite has_set, String.eqb_refl. }
  destruct target_encoding.
  - unfold encoded_at.
    rewrite has_drop, !has_set, has_add_calendar, Hl, Hs. simpl.
    by rewrite ?orb_true_r.
  - rewrite has_add_calendar, Hl. by rewrite !orb_true_r.
Qed.

(** On a well-formed frame a slice that covers the table is the table. *)
Lemma frame_slice_all (k : Z) (d : DataFrame) :
  well_formed d -> Z.of_nat (nrows d) <= k ->
  frame_slice_to k d = d /\
  index (frame_slice_from k d) = [] /\
  Forall (fun c => c.2 = []) (columns (frame_slice_from k d)).
Proof.
  intros Hwf Hk. destruct d as [i cs]. unfold well_formed, nrows in *.
  simpl in *. unfold frame_slice_to, frame_slice_from. simpl. repeat split.
  - f_equal; [by apply slice_to_all|].
    induction Hwf as [|[n c] cs Hc Hcs IH]; simpl; [done|].
    rewrite IH. simpl in Hc. f_equal. f_equal. apply slice_to_all. lia.
  - by apply slice_to_all.
  - apply Forall_fmap. eapply Forall_impl; [exact Hwf|].
    intros c Hc. simpl in *. apply slice_to_all. lia.
Qed.

(** ** The functions at a given boundary *)

Lemma getitem_ok n d :
  has_column n d = true -> getitem n d = Ok (get_column n d).
Proof. intros H. unfold getitem. by rewrite H. Qed.

Lemma code_mean_ok d cat_feature real_feature :
  has_column cat_feature d = true -> has_column real_feature d = true ->
  code_mean d cat_feature real_feature
  = Ok (group_means d cat_feature real_feature).
Proof. intros Hc Hr. unfold code_mean. by rewrite !getitem_ok. Qed.

Lemma code_mean_absent d cat_feature real_feature :
  has_column cat_feature d = false \/ has_column real_feature d = false ->
  code_mean d cat_feature real_feature = Raise KeyError.
Proof.
  unfold code_mean, getitem. intros [H|H]; rewrite H; [done|].
  by destruct (has_column cat_feature d).
Qed.

Lemma add_target_encoding_at ts d k :
  has_column "y" d = true -> has_column "weekday" d = true ->
  has_column "hour" d = true ->
  encoding_index ts d = Ok k ->
  add_target_encoding ts d = Ok (encoded_at k d).
Proof.
  intros Hy Hw Hh Hk. unfold add_target_encoding. rewrite Hk.
  cbn [result_bind].
  rewrite code_mean_ok by (by rewrite has_column_slice_to).
  cbn [result_bind].
  rewrite code_mean_ok by (by rewrite has_column_slice_to, has_set, ?Hh, ?Hy).
  done.
Qed.

Lemma feature_frame_at s a b ts te ke :
  (te = true -> encoding_index ts (calendar_frame s a b) = Ok ke) ->
  feature_frame s a b ts te = Ok (features_at s a b ke te).
Proof.
  intros Hk. unfold feature_frame, features_at. destruct te; [|done].
  apply add_target_encoding_at; [apply has_calendar_frame; auto..|auto].
Qed.

Lemma feature_frame_raise s a b ts e :
  encoding_index ts (calendar_frame s a b) = Raise e ->
  feature_frame s a b ts true = Raise e.
Proof.
  intros Hk. unfold feature_frame, add_target_encoding. by rewrite Hk.
Qed.

Lemma split_at_ok X y ts k :
  test_index_of (nrows X) ts = Ok k ->
  timeseries_train_test_split X y ts = Ok (split_at k X y).
Proof. intros Hk. unfold timeseries_train_test_split. by rewrite Hk. Qed.

Lemma prepareData_at s a b ts te ke k :
  (te = true -> encoding_index ts (calendar_frame s a b) = Ok ke) ->
  test_index_of (nrows (dropna (features_at s a b ke te))) ts = Ok k ->
  prepareData s a b ts te = Ok (dataset_at k (features_at s a b ke te)).
Proof.
  intros Hke Hk. unfold prepareData.
  rewrite (feature_frame_at _ _ _ _ _ ke Hke). cbn [result_bind].
  by apply split_at_ok.
Qed.

(** A returned dataset is the split, at the boundary computed on the final
    rows, of the frame built at the encoding boundary. *)
Lemma prepareData_inv s a b ts te d :
  prepareData s a b ts te = Ok d ->
  exists ke k,
    (te = true -> encoding_index ts (calendar_frame s a b) = Ok ke) /\
    test_index_of (nrows (dropna (features_at s a b ke te))) ts = Ok k /\
    d = dataset_at k (features_at s a b ke te).
Proof.
  intros Hd.
  assert (exists ke, te = true ->
                     encoding_index ts (calendar_frame s a b) = Ok ke)
    as [ke Hke].
  { destruct te; [|by exists 0].
    destruct (encoding_index ts (calendar_frame s a b)) as [ke|e] eqn:E.
    - by exists ke.
    - unfold prepareData in Hd. by rewrite (feature_frame_raise _ _ _ _ _ E) in Hd. }
  exists ke. unfold prepareData in Hd.
  rewrite (feature_frame_at _ _ _ _ _ ke Hke) in Hd. cbn [result_bind] in Hd.
  unfold timeseries_train_test_split in Hd.
  destruct (test_index_of _ ts) as [k|e] eqn:E; [|done].
  exists k. cbn [result_bind] in Hd. injection Hd as <-. done.
Qed.

(** The call fails as the computation of a boundary fails, and in no other
    way. *)
(** A call that raises does so in one of the two [int] calls. *)
Lemma prepareData_raises_at s a b ts te e :
  prepareData s a b ts te = Raise e ->
  exists n : nat, test_index_of n ts = Raise e.
Proof.
  unfold prepareData, feature_frame. destruct te.
  - destruct (encoding_index ts (calendar_frame s a b)) as [ke|e'] eqn:E.
    + rewrite (add_target_encoding_at _ _ ke) by
        (try apply has_calendar_frame; auto).
      cbn [result_bind]. unfold timeseries_train_test_split.
      destruct (test_index_of _ ts) as [k|e''] eqn:E'; [done|].
      intros [= <-]. by eexists.
    + unfold add_target_encoding. rewrite E. intros [= <-]. by eexists.
  - cbn [result_bind]. unfold timeseries_train_test_split.
    destruct (test_index_of _ ts) as [k|e''] eqn:E'; [done|].
    intros [= <-]. by eexists.
Qed.

Lemma prepareData_raises s a b ts te e :
  prepareData s a b ts te = Raise e -> e = ValueError \/ e = OverflowError.
Proof.
  intros E. apply prepareData_raises_at in E as [n E].
  by eapply test_index_raises.
Qed.

(** ** The run in the store agrees with the frame-level functions *)

Section Store.
Implicit Types (h : gmap loc DataFrame) (d : DataFrame).

Lemma update_ok h l d f d' :
  f d = Ok d' -> update l f (<[l:=d]> h) = (Ok tt, <[l:=d']> h).
Proof.
  intros Hf. unfold update.
  by rewrite lookup_insert_eq, Hf, insert_insert_eq.
Qed.

Lemma assign_from_ok h l d n f col :
  f d = Ok col -> length col = nrows d ->
  assign_from l n f (<[l:=d]> h) = (Ok tt, <[l:=set_column n col d]> h).
Proof.
  intros Hf Hlen. unfold assign_from, bind, load, lift.
  rewrite lookup_insert_eq, Hf. apply update_ok.
  unfold setitem. by rewrite Hlen, Nat.eqb_refl.
Qed.

Lemma for_each_lags_ok h l d (lags : list Z) :
  well_formed d -> has_column "y" d = true ->
  for_each lags (fun i =>
    assign_from l (lag_name i) (fun df =>
      match getitem "y" df with
      | Ok y => Ok (shift i y)
      | Raise e => Raise e
      end)) (<[l:=d]> h)
  = (Ok tt, <[l:=fold_left lag_step lags d]> h).
Proof.
  revert d. induction lags as [|i lags IH]; intros d Hwf Hy; simpl; [done|].
  unfold bind at 1.
  rewrite (assign_from_ok h l d _ _ (shift i (get_column "y" d))).
  - apply IH; unfold lag_step.
    + apply wf_set_column; [|done].
      rewrite shift_length. by apply wf_get_column.
    + rewrite has_set, Hy. apply orb_true_r.
  - by rewrite getitem_ok.
  - rewrite shift_length. by apply wf_get_column.
Qed.

Lemma encoded_column_ok k cat d :
  has_column cat d = true -> has_column "y" d = true ->
  encoded_column k cat d
  = Ok (map (dict_get (group_means (frame_slice_to k d) cat "y"))
            (get_column cat d)).
Proof.
  intros Hc Hy. unfold encoded_column.
  rewrite code_mean_ok by (by rewrite has_column_slice_to).
  cbn [result_bind]. by rewrite getitem_ok.
Qed.

Lemma target_encoding_st_ok h l d tf k :
  well_formed d ->
  has_column "y" d = true -> has_column "weekday" d = true ->
  has_column "hour" d = true ->
  encoding_index tf d = Ok k ->
  target_encoding_st l tf (<[l:=d]> h)
  = (Ok tt, <[l:=encoded_at k d]> h).
Proof.
  intros Hwf Hy Hw Hh Hk. unfold target_encoding_st.
  unfold bind at 1. unfold load at 1. rewrite lookup_insert_eq.
  unfold bind at 1. unfold lift at 1. unfold encoding_index in Hk. rewrite Hk.
  unfold bind at 1.
  erewrite assign_from_ok;
    [|by apply encoded_column_ok|by apply encoded_length].
  unfold bind at 1.
  erewrite assign_from_ok.
  - apply update_ok. unfold drop_labels. simpl.
    by rewrite !has_set, Hw, Hh.
  - apply encoded_column_ok; by rewrite has_set, ?Hh, ?Hy.
  - rewrite length_map, get_set_ne by done.
    by apply (wf_get_column "hour" d).
Qed.

Lemma target_encoding_st_raise h l d tf e :
  encoding_index tf d = Raise e ->
  target_encoding_st l tf (<[l:=d]> h) = (Raise e, <[l:=d]> h).
Proof.
  intros Hk. unfold target_encoding_st.
  unfold bind at 1. unfold load at 1. rewrite lookup_insert_eq.
  unfold bind at 1. unfold lift at 1. unfold encoding_index in Hk.
  by rewrite Hk.
Qed.

Lemma bind_ok {A B} (m : M A) (k : A -> M B) h a h' :
  m h = (Ok a, h') -> bind m k h = k a h'.
Proof. intros Hm. unfold bind. by rewrite Hm. Qed.

Lemma bind_raise {A B} (m : M A) (k : A -> M B) h e h' :
  m h = (Raise e, h') -> bind m k h = (Raise e, h').
Proof. intros Hm. unfold bind. by rewrite Hm. Qed.

Lemma calendar_st_ok {B} h l d (k : M B) :
  well_formed d ->
  (exec assign_from l "hour"
     (fun df => Ok (map (fun t => int_cell (hour_of t)) (index df))) in
   exec assign_from l "weekday"
     (fun df => Ok (map (fun t => int_cell (weekday_of t)) (index df))) in
   exec assign_from l "is_weekend" (fun df =>
     match getitem "weekday" df with
     | Ok w => Ok (map isin_5_6 w)
     | Raise e => Raise e
     end) in k) (<[l:=d]> h)
  = k (<[l:=add_calendar d]> h).
Proof.
  intros Hwf.
  erewrite bind_ok; [|by apply assign_from_ok; [|apply length_map]].
  erewrite bind_ok; [|by apply assign_from_ok; [|apply length_map]].
  erewrite bind_ok; [done|]. apply assign_from_ok.
  - rewrite getitem_ok; [done|]. by rewrite has_set.
  - rewrite length_map, get_set_eq. apply length_map.
Qed.

Lemma has_features_y s a b ke te :
  has_column "y" (features_at s a b ke te) = true.
Proof.
  unfold features_at. destruct te; [|by apply has_calendar_frame; auto].
  unfold encoded_at. rewrite has_drop, !has_set.
  rewrite has_calendar_frame; auto.
Qed.

(** The tail of the run, once the frame [data] is complete. *)
Lemma split_st_ok h l data ts :
  has_column "y" data = true ->
  (let! df := load l in
   let! y := lift (getitem "y" (dropna df)) in
   let! X := lift (drop_labels ["y"] (dropna df)) in
   lift (timeseries_train_test_split X (combine (index (dropna df)) y) ts))
    (<[l:=data]> h)
  = (timeseries_train_test_split (drop_columns ["y"] (dropna data))
       (column_series "y" (dropna data)) ts,
     <[l:=data]> h).
Proof.
  intros Hy.
  erewrite bind_ok; [|by unfold load; rewrite lookup_insert_eq].
  erewrite bind_ok;
    [|by unfold lift; rewrite getitem_ok by (by rewrite has_column_dropna)].
  erewrite bind_ok; [done|].
  unfold lift, drop_labels. simpl forallb.
  by rewrite has_column_dropna, Hy.
Qed.

(** A call on a one-column frame ends as [prepareData] ends on the series
    of that frame, with the tables or with the exception. *)
Lemma prepareData_st_ok h series name s a b tf te :
  h !! series = Some (one_column name s) ->
  exists h', prepareData_st series a b tf te h
             = (prepareData s a b tf te, h').
Proof.
  intros Hs. unfold prepareData_st.
  erewrite bind_ok; [|by unfold load; rewrite Hs].
  erewrite bind_ok; [|done].
  erewrite (bind_ok _ _ _ tt); [|by apply (update_ok _ _ _ _ (frame_of_series s))].
  erewrite bind_ok;
    [|by apply for_each_lags_ok; [apply wf_frame_of_series|]].
  rewrite <- add_lags_fold.
  rewrite calendar_st_ok.
  2:{ rewrite add_lags_fold. by apply wf_fold_lags; [apply wf_frame_of_series|]. }
  fold (calendar_frame s a b).
  destruct te.
  - destruct (encoding_index tf (calendar_frame s a b)) as [ke|e] eqn:E.
    + erewrite bind_ok.
      2:{ apply target_encoding_st_ok;
            [apply wf_calendar_frame|apply has_calendar_frame..|exact E]; auto. }
      eexists. rewrite split_st_ok.
      * unfold prepareData.
        rewrite (feature_frame_at _ _ _ _ _ ke (fun _ => E)). done.
      * apply (has_features_y s a b ke true).
    + erewrite bind_raise; [|by apply target_encoding_st_raise].
      eexists. unfold prepareData.
      by rewrite (feature_frame_raise _ _ _ _ _ E).
  - erewrite bind_ok; [|done].
    eexists. rewrite split_st_ok; [done|].
    apply (has_features_y s a b 0 false).
Qed.

Lemma touches_only_ret l {A} (a : A) : touches_only l (ret a).
Proof. by intros h l0 Hl. Qed.

Lemma touches_only_lift l {A} (r : result A) : touches_only l (lift r).
Proof. by intros h l0 Hl. Qed.

Lemma touches_only_load l l' : touches_only l (load l').
Proof. intros h l0 Hl. unfold load. by destruct (h !! l'). Qed.

Lemma touches_only_update l f : touches_only l (update l f).
Proof.
  intros h l0 Hl. unfold update. destruct (h !! l) as [df|]; [|done].
  destruct (f df); [|done]. simpl. by rewrite lookup_insert_ne.
Qed.

Lemma touches_only_bind l {A B} (m : M A) (k : A -> M B) :
  touches_only l m -> (forall a, touches_only l (k a)) ->
  touches_only l (bind m k).
Proof.
  intros Hm Hk h l0 Hl. unfold bind. specialize (Hm h l0 Hl).
  destruct (m h) as [[a|e] h1]; simpl in *; [|done].
  by rewrite Hk.
Qed.

Lemma touches_only_assign_from l n f : touches_only l (assign_from l n f).
Proof.
  unfold assign_from.
  apply touches_only_bind; [apply touches_only_load|]. intros df.
  apply touches_only_bind; [apply touches_only_lift|]. intros col.
  apply touches_only_update.
Qed.

Lemma touches_only_for_each l {A} (xs : list A) (body : A -> M unit) :
  (forall x, touches_only l (body x)) -> touches_only l (for_each xs body).
Proof.
  intros Hbody. induction xs as [|x xs IH]; simpl.
  - apply touches_only_ret.
  - by apply touches_only_bind.
Qed.

Lemma touches_only_target_encoding_st l tf :
  touches_only l (target_encoding_st l tf).
Proof.
  unfold target_encoding_st.
  apply touches_only_bind; [apply touches_only_load|]. intros df.
  apply touches_only_bind; [apply touches_only_lift|]. intros test_index.
  apply touches_only_bind; [apply touches_only_assign_from|]. intros _.
  apply touches_only_bind; [apply touches_only_assign_from|]. intros _.
  apply touches_only_update.
Qed.

(** Whatever the store holds behind [series], and whether the call returns
    or raises, every object the store held before the call is unchanged:
    all updates go to the object the call creates. *)
Lemma prepareData_st_frame h series a b tf te l0 df :
  h !! l0 = Some df ->
  (prepareData_st series a b tf te h).2 !! l0 = Some df.
Proof.
  intros Hl0. unfold prepareData_st.
  destruct (h !! series) as [s|] eqn:Hs.
  2:{ unfold bind, load. by rewrite Hs. }
  erewrite bind_ok; [|by unfold load; rewrite Hs].
  erewrite bind_ok; [|done].
  assert (l0 <> fresh (dom h)) as Hne.
  { intros ->. apply (is_fresh (dom h)). apply elem_of_dom. by eexists. }
  lazymatch goal with
  | |- (?body ?h1).2 !! _ = _ =>
      assert (touches_only (fresh (dom h)) body) as Hrest
  end.
  { apply touches_only_bind; [apply touches_only_update|]. intros _.
    apply touches_only_bind.
    { apply touches_only_for_each. intros i. apply touches_only_assign_from. }
    intros _.
    do 3 (apply touches_only_bind; [apply touches_only_assign_from|]; intros _).
    apply touches_only_bind.
    { destruct te; [apply touches_only_target_encoding_st|apply touches_only_ret]. }
    intros _.
    apply touches_only_bind; [apply touches_only_load|]. intros d.
    apply touches_only_bind; [apply touches_only_lift|]. intros y.
    apply touches_only_bind; [apply touches_only_lift|]. intros X.
    apply touches_only_lift. }
  rewrite (Hrest _ _ Hne). by rewrite lookup_insert_ne.
Qed.

End Store.

(** ** Group means and their lookup *)

Lemma unique_keys_elem k keys : k ∈ unique_keys keys -> Some k ∈ keys.
Proof.
  induction keys as [|[q|] keys IH]; simpl; intros Hk.
  - by apply not_elem_of_nil in Hk.
  - apply elem_of_cons in Hk as [->|Hk]; [left|right].
    apply IH. apply list_elem_of_In, filter_In in Hk as [Hk _].
    by apply list_elem_of_In.
  - right. by apply IH.
Qed.

Lemma find_none_all {A} (f : A -> bool) (l : list A) :
  (forall x, x ∈ l -> f x = false) -> List.find f l = None.
Proof.
  induction l as [|a l IH]; intros H; simpl; [done|].
  rewrite (H a) by left. apply IH. intros x Hx. apply H. by right.
Qed.

(** A key that matches no entry of the key column has no entry in the
    dictionary: [get] answers with the missing value. *)
Lemma dict_get_unseen keys vals q :
  (forall k, Some k ∈ keys -> Qeq_bool k q = false) ->
  dict_get (groupby_mean keys vals) (Some q) = None.
Proof.
  intros H. unfold dict_get, groupby_mean. rewrite find_none_all; [done|].
  intros [k v] Hk. simpl.
  apply list_elem_of_fmap in Hk as (k' & Hkv & Hk').
  injection Hkv as -> _. by apply H, unique_keys_elem.
Qed.

Lemma Qeq_bool_inject_ne a b : a <> b -> Qeq_bool (inject_Z a) (inject_Z b) = false.
Proof.
  intros Hab. destruct (Qeq_bool _ _) eqn:E; [|done].
  apply Qeq_bool_eq in E. by apply (proj1 (inject_Z_injective a b)) in E.
Qed.

Lemma slice_to_map {A B} (f : A -> B) k (l : list A) :
  slice_to k (map f l) = map f (slice_to k l).
Proof. unfold slice_to. by rewrite length_map, fmap_take. Qed.

Lemma calendar_key_unseen (f : Z -> Z) (idx : list Z) (k t : Z) vals :
  f t ∉ map f (slice_to k idx) ->
  dict_get (groupby_mean (slice_to k (map (fun t => int_cell (f t)) idx)) vals)
           (int_cell (f t)) = None.
Proof.
  intros Ht. apply dict_get_unseen. intros q Hq.
  rewrite slice_to_map in Hq.
  apply list_elem_of_fmap in Hq as (t' & Hq & Ht').
  injection Hq as ->. apply Qeq_bool_inject_ne. intros E. apply Ht. rewrite <- E.
  by apply list_elem_of_fmap_2.
Qed.

Section Encoded.
Variables (series : Series) (lag_start lag_end : Z) (ke : Z).

Let base := calendar_frame series lag_start lag_end.
Let data := features_at series lag_start lag_end ke true.
Let train_side := slice_to ke (map fst series).

Lemma weekday_average_unseen p t :
  map fst series !! p = Some t ->
  weekday_of t ∉ map weekday_of train_side ->
  get_column "weekday_average" data !! p = Some None.
Proof.
  intros Hp Ht. subst data. unfold features_at.
  rewrite encoded_at_weekday. unfold group_means.
  rewrite !get_column_slice_to, calendar_frame_weekday.
  do 2 rewrite list_lookup_fmap. rewrite Hp. simpl. f_equal.
  by apply (calendar_key_unseen weekday_of).
Qed.

Lemma hour_average_unseen p t :
  map fst series !! p = Some t ->
  hour_of t ∉ map hour_of train_side ->
  get_column "hour_average" data !! p = Some None.
Proof.
  intros Hp Ht. subst data. unfold features_at.
  rewrite encoded_at_hour. unfold group_means.
  rewrite !get_column_slice_to, calendar_frame_hour.
  do 2 rewrite list_lookup_fmap. rewrite Hp. simpl. f_equal.
  by apply (calendar_key_unseen hour_of).
Qed.

Lemma unseen_not_cleaned t :
  weekday_of t ∉ map weekday_of train_side \/
  hour_of t ∉ map hour_of train_side ->
  t ∉ index (dropna data).
Proof.
  intros Hun Hin.
  change (index (dropna data))
    with (mask_filter (dropna_mask data) (index data)) in Hin.
  apply mask_filter_elem_of in Hin as (p & Hp & Hm).
  apply dropna_mask_lookup in Hm as [Hm _]. symmetry in Hm.
  unfold data in Hp. rewrite features_at_index in Hp.
  destruct Hun as [Hw|Hh].
  - pose proof (weekday_average_unseen p t Hp Hw) as Hc.
    by pose proof (row_notna_column _ _ _ _ Hm Hc).
  - pose proof (hour_average_unseen p t Hp Hh) as Hc.
    by pose proof (row_notna_column _ _ _ _ Hm Hc).
Qed.

End Encoded.

(** What the encoded features depend on: the timestamps, the boundary, and
    the targets of the rows of [data] before the boundary.  Two series with
    the same timestamps and the same targets before the boundary get, at
    that boundary, the same encoded columns. *)
Lemma encoded_features_from_head (s1 s2 : Series) (lag_start lag_end : Z)
    (ke : Z) :
  map fst s1 = map fst s2 ->
  slice_to ke (map snd s1) = slice_to ke (map snd s2) ->
  get_column "weekday_average" (features_at s1 lag_start lag_end ke true)
  = get_column "weekday_average" (features_at s2 lag_start lag_end ke true) /\
  get_column "hour_average" (features_at s1 lag_start lag_end ke true)
  = get_column "hour_average" (features_at s2 lag_start lag_end ke true).
Proof.
  intros Hidx Hhead. unfold features_at.
  rewrite !encoded_at_weekday, !encoded_at_hour.
  unfold group_means. rewrite !get_column_slice_to.
  rewrite !calendar_frame_weekday, !calendar_frame_hour, !calendar_frame_y.
  by rewrite Hidx, Hhead.
Qed.

(** ** The four returned tables *)

Section Returned.
Variables (series : Series) (lag_start lag_end : Z) (ke : Z).
Variable target_encoding : bool.

Let final := dropna (features_at series lag_start lag_end ke target_encoding).
Let X := drop_columns ["y"] final.
Let y := column_series "y" final.

Lemma final_y_length : length y = nrows final.
Proof.
  unfold y, final, column_series. rewrite length_combine.
  rewrite wf_get_column; [apply Nat.min_id|..].
  - apply wf_dropna, wf_features_at.
  - rewrite has_column_dropna. unfold features_at.
    destruct target_encoding; [|by apply has_calendar_frame; auto].
    unfold encoded_at. rewrite has_drop, !has_set.
    rewrite has_calendar_frame; auto.
Qed.

Lemma final_y_index : map fst y = index final.
Proof.
  pose proof final_y_length as Hlen. unfold y, column_series, nrows in *.
  rewrite length_combine in Hlen.
  revert Hlen. generalize (get_column "y" final). generalize (index final).
  induction l as [|a l IH]; intros [|c cs]; simpl; intros H; try done; try lia.
  f_equal. apply IH. lia.
Qed.

Variable k : Z.
Let d := dataset_at k (features_at series lag_start lag_end ke target_encoding).

Lemma returned_X_train : X_train d = frame_slice_to k X.
Proof. done. Qed.

Lemma returned_X_test : X_test d = frame_slice_from k X.
Proof. done. Qed.

Lemma returned_y_train : y_train d = slice_to k y.
Proof. done. Qed.

Lemma returned_y_test : y_test d = slice_from k y.
Proof. done. Qed.

Lemma returned_index : index (X_train d) ++ index (X_test d) = index final.
Proof. apply slice_to_from. Qed.

Lemma returned_y : y_train d ++ y_test d = y.
Proof. apply slice_to_from. Qed.

End Returned.

Lemma frame_slice_from_zero (d : DataFrame) : frame_slice_from 0 d = d.
Proof.
  destruct d as [i cs]. unfold frame_slice_from. simpl. f_equal.
  induction cs as [|[n c] cs IH]; simpl; [done|]. by rewrite IH.
Qed.

Lemma sample_store_lookup :
  sample_store !! 1%positive = Some (one_column "count" seven_hours).
Proof. apply lookup_singleton_eq. Qed.

(** ** When the call returns *)

Lemma mask_filter_length_le {A} (m : list bool) (l : list A) :
  (length (mask_filter m l) <= length l)%nat.
Proof.
  revert l. induction m as [|b m IH]; intros [|x l]; simpl; try lia.
  specialize (IH l). destruct b; simpl; lia.
Qed.

Lemma nrows_dropna_le (d : DataFrame) : (nrows (dropna d) <= nrows d)%nat.
Proof. apply mask_filter_length_le. Qed.

Lemma calendar_frame_nrows (s : Series) (a b : Z) :
  nrows (calendar_frame s a b) = length s.
Proof. unfold nrows. by rewrite calendar_frame_index, length_map. Qed.

(** For a fraction in [0,1] both boundaries are computed, and the call
    returns. *)
Lemma prepareData_returns (s : Series) (a b : Z) (t : Q) (te : bool) :
  Z.of_nat (length s) <= 2 ^ 53 -> (0 <= t)%Q -> (t <= 1)%Q ->
  exists ke k,
    (te = true -> encoding_index (Num t) (calendar_frame s a b) = Ok ke) /\
    test_index_of (nrows (dropna (features_at s a b ke te))) (Num t) = Ok k /\
    0 <= k <= Z.of_nat (nrows (dropna (features_at s a b ke te))) /\
    prepareData s a b (Num t) te = Ok (dataset_at k (features_at s a b ke te)).
Proof.
  intros Hlen H0 H1.
  pose proof (nrows_dropna_le (calendar_frame s a b)) as Hn.
  rewrite calendar_frame_nrows in Hn.
  destruct (test_index_unit (nrows (dropna (calendar_frame s a b))) t)
    as (ke & Hke & _); [lia|done|done|].
  pose proof (nrows_dropna_le (features_at s a b ke te)) as Hn'.
  rewrite features_at_nrows in Hn'.
  destruct (test_index_unit (nrows (dropna (features_at s a b ke te))) t)
    as (k & Hk & Hrange); [lia|done|done|].
  exists ke, k. split; [done|]. split; [done|]. split; [done|].
  by apply prepareData_at.
Qed.

(** * The claims *)

(** C1 does not hold of the code.  Two runs on seven hourly points that
    differ only in the target of position 2: in both runs the row of
    position 2 is the test partition, and yet the encoded features differ,
    both the [hour_average] of that test row and the [weekday_average] of
    the train row.  The rows after position 2 have hours unseen by the means,
    [dropna] removes them, and the final boundary, recomputed on the two rows
    left, puts inside the test partition a row the means were taken over. *)
Theorem test_row_value_changes_means :
  exists d d' : Dataset,
    prepareData seven_hours 1 2 (Num (1 # 2)) true = Ok d /\
    prepareData seven_hours' 1 2 (Num (1 # 2)) true = Ok d' /\
    map fst seven_hours = map fst seven_hours' /\
    take 2 seven_hours = take 2 seven_hours' /\
    drop 3 seven_hours = drop 3 seven_hours' /\
    index (X_train d) = [ns_per_hour] /\
    index (X_train d') = [ns_per_hour] /\
    index (X_test d) = [2 * ns_per_hour] /\
    index (X_test d') = [2 * ns_per_hour] /\
    get_column "hour_average" (X_test d) = [Some 30%Q] /\
    get_column "hour_average" (X_test d') = [Some 35%Q] /\
    get_column "weekday_average" (X_train d) = [Some 20%Q] /\
    get_column "weekday_average" (X_train d') = [Some (65 # 3)%Q].
Proof.
  eexists _, _. split; [vm_compute; reflexivity|].
  split; [vm_compute; reflexivity|].
  repeat split; vm_compute; reflexivity.
Qed.

(** C2 does not hold of the code.  On four weekly points with one lag and
    half of the rows for testing, the boundary is 1 and the slice
    [data[:1]] is the row of position 0, which is lag-incomplete; the group
    means are that row's value 10, and the returned features carry it.  The
    lag-complete rows before the boundary are the row of position 1, whose
    mean would be 20. *)
Theorem lag_incomplete_row_in_means :
  exists (d : Dataset) (documented : DataFrame),
    prepareData four_weeks 1 2 (Num (1 # 2)) true = Ok d /\
    documented_encoding_rows (Num (1 # 2)) (calendar_frame four_weeks 1 2)
      = Ok documented /\
    encoding_index (Num (1 # 2)) (calendar_frame four_weeks 1 2) = Ok 1 /\
    index (frame_slice_to 1 (calendar_frame four_weeks 1 2)) = [0] /\
    get_column "lag_1" (calendar_frame four_weeks 1 2) !! 0%nat = Some None /\
    dropna_mask (calendar_frame four_weeks 1 2) !! 0%nat = Some false /\
    code_mean (frame_slice_to 1 (calendar_frame four_weeks 1 2)) "weekday" "y"
      = Ok [(3%Q, Some 10%Q)] /\
    code_mean (frame_slice_to 1 (calendar_frame four_weeks 1 2)) "hour" "y"
      = Ok [(0%Q, Some 10%Q)] /\
    index documented = [7 * ns_per_day] /\
    code_mean documented "weekday" "y" = Ok [(3%Q, Some 20%Q)] /\
    get_column "weekday_average" (X_train d) = [Some 10%Q] /\
    get_column "hour_average" (X_test d) = [Some 10%Q; Some 10%Q].
Proof.
  eexists _, _. split; [vm_compute; reflexivity|].
  split; [vm_compute; reflexivity|].
  repeat split; vm_compute; reflexivity.
Qed.

(** C3, as stated, fails: with [lag_end <= lag_start] (3 and 1), and with
    [lag_start < 1] (0 and 2), the call returns tables; it does not end
    with [InvalidWindow]. *)
Lemma window_3_1_returns :
  (3 < 1 \/ 1 <= 3) /\
  fst (prepareData_st 1%positive 3 1 (Num (1 # 5)) false sample_store)
    <> Raise InvalidWindow /\
  (exists d, fst (prepareData_st 1%positive 3 1 (Num (1 # 5)) false sample_store)
             = Ok d) /\
  (0 < 1 \/ 2 <= 0) /\
  fst (prepareData_st 1%positive 0 2 (Num (1 # 5)) false sample_store)
    <> Raise InvalidWindow /\
  (exists d, fst (prepareData_st 1%positive 0 2 (Num (1 # 5)) false sample_store)
             = Ok d).
Proof.
  destruct (prepareData_st_ok sample_store 1%positive "count" seven_hours
              3 1 (Num (1 # 5)) false sample_store_lookup) as [h1 ->].
  destruct (prepareData_st_ok sample_store 1%positive "count" seven_hours
              0 2 (Num (1 # 5)) false sample_store_lookup) as [h2 ->].
  cbn [fst].
  repeat split; try lia; try (vm_compute; discriminate);
    eexists; vm_compute; reflexivity.
Qed.

(** C3, amended.  [prepareData] does not check the lag window: whatever
    [lag_start] and [lag_end], the call never ends with [InvalidWindow],
    and for a test fraction in [0,1] it returns tables and raises nothing.
    With [lag_end <= lag_start] no lag column is made, so the feature tables
    hold the calendar columns only (with target encoding: the weekend flag
    and the two encoded columns).  With [lag_start <= 0 < lag_end] the
    column [lag_0] is the target column itself. *)
Theorem window_not_validated (h : gmap loc DataFrame) (series : loc)
    (name : string) (s : Series) (lag_start lag_end : Z) (test_size : ext)
    (target_encoding : bool) :
  h !! series = Some (one_column name s) ->
  (exists h', prepareData_st series lag_start lag_end test_size
                target_encoding h
              = (prepareData s lag_start lag_end test_size target_encoding,
                 h')) /\
  prepareData s lag_start lag_end test_size target_encoding
    <> Raise InvalidWindow /\
  (forall t : Q,
     test_size = Num t -> (0 <= t)%Q -> (t <= 1)%Q ->
     Z.of_nat (length s) <= 2 ^ 53 ->
     exists d, prepareData s lag_start lag_end test_size target_encoding
               = Ok d) /\
  (forall d,
     prepareData s lag_start lag_end test_size target_encoding = Ok d ->
     lag_end <= lag_start ->
     let names := if target_encoding
                  then ["is_weekend"; "weekday_average"; "hour_average"]
                  else ["hour"; "weekday"; "is_weekend"] in
     map fst (columns (X_train d)) = names /\
     map fst (columns (X_test d)) = names) /\
  (forall data,
     feature_frame s lag_start lag_end test_size target_encoding = Ok data ->
     lag_start <= 0 < lag_end ->
     get_column (lag_name 0) data = map snd s).
Proof.
  intros Hs. split; [|split; [|split; [|split]]].
  - by eapply prepareData_st_ok.
  - intros E. apply prepareData_raises in E as [E|E]; discriminate.
  - intros t -> H0 H1 Hlen.
    destruct (prepareData_returns s lag_start lag_end t target_encoding
                Hlen H0 H1) as (ke & k & _ & _ & _ & Hd).
    by eexists.
  - intros d Hd Hle.
    apply prepareData_inv in Hd as (ke & k & _ & _ & ->).
    unfold dataset_at, split_at, features_at, calendar_frame, add_lags.
    rewrite py_range_empty by done. by destruct target_encoding.
  - intros data Hdata Hk.
    assert (exists ke, data = features_at s lag_start lag_end ke
                               target_encoding) as [ke ->].
    { unfold feature_frame in Hdata. destruct target_encoding.
      - destruct (encoding_index test_size (calendar_frame s lag_start lag_end))
          as [ke|e] eqn:E.
        + exists ke.
          rewrite (add_target_encoding_at _ _ ke) in Hdata by
            (try apply has_calendar_frame; auto).
          by injection Hdata as <-.
        + unfold add_target_encoding in Hdata. by rewrite E in Hdata.
      - exists 0. by injection Hdata as <-. }
    rewrite features_at_lag by done. apply shift_0.
Qed.

Lemma window_not_validated_witness :
  (exists h', prepareData_st 1%positive 3 1 (Num (1 # 5)) false sample_store
              = (prepareData seven_hours 3 1 (Num (1 # 5)) false, h')) /\
  exists d, prepareData seven_hours 3 1 (Num (1 # 5)) false = Ok d /\
            map fst (columns (X_train d)) = ["hour"; "weekday"; "is_weekend"].
Proof.
  assert (sample_store !! 1%positive = Some (one_column "count" seven_hours))
    as Hl by reflexivity.
  destruct (window_not_validated sample_store 1%positive "count" seven_hours
              3 1 (Num (1 # 5)) false Hl) as (Hret & _ & Hok & Hnames & _).
  split; [exact Hret|].
  destruct (Hok (1 # 5)%Q) as [d Hd];
    [reflexivity|discriminate|discriminate|vm_compute; discriminate|].
  exists d. split; [exact Hd|]. apply (Hnames d Hd). lia.
Defined.

(** C4, as stated, fails: with [test_size = 0] and with [test_size = 1] the
    call returns tables; it does not end with [InvalidFraction]. *)
Lemma fraction_0_and_1_return :
  ~ (0 < 0)%Q /\
  fst (prepareData_st 1%positive 1 3 (Num 0) false sample_store)
    <> Raise InvalidFraction /\
  (exists d, fst (prepareData_st 1%positive 1 3 (Num 0) false sample_store)
             = Ok d) /\
  ~ (1 < 1)%Q /\
  fst (prepareData_st 1%positive 1 3 (Num 1) false sample_store)
    <> Raise InvalidFraction /\
  (exists d, fst (prepareData_st 1%positive 1 3 (Num 1) false sample_store)
             = Ok d).
Proof.
  destruct (prepareData_st_ok sample_store 1%positive "count" seven_hours
              1 3 (Num 0) false sample_store_lookup) as [h1 ->].
  destruct (prepareData_st_ok sample_store 1%positive "count" seven_hours
              1 3 (Num 1) false sample_store_lookup) as [h2 ->].
  cbn [fst].
  split; [by intros [=]|]. split; [vm_compute; discriminate|].
  split; [eexists; vm_compute; reflexivity|].
  split; [by intros [=]|]. split; [vm_compute; discriminate|].
  eexists; vm_compute; reflexivity.
Qed.

(** C4, amended.  [prepareData] does not check the test fraction against
    (0,1), and no call ends with [InvalidFraction].  A call fails only
    where one of its two boundaries [int(len * (1 - test_size))] fails,
    with [ValueError] or with [OverflowError]: the fraction NaN gives
    [ValueError], an infinite fraction fails as well, and so does a
    fraction as large as 1e308, whose product overflows.  For every
    fraction in [0,1], 0 and 1 included, the call returns.  When it
    returns, the train part followed by the test part is the final rows in
    their order; with [test_size <= 0] every final row is in the train
    tables and the test tables are empty; with [test_size = 1] the train
    tables are empty and every final row is in the test tables.  (A series
    has at most [2^53] points, so that its length is a float.) *)
Theorem fraction_not_validated (h : gmap loc DataFrame) (series : loc)
    (name : string) (s : Series) (lag_start lag_end : Z) (test_size : ext)
    (target_encoding : bool) :
  h !! series = Some (one_column name s) ->
  Z.of_nat (length s) <= 2 ^ 53 ->
  (exists h', prepareData_st series lag_start lag_end test_size
                target_encoding h
              = (prepareData s lag_start lag_end test_size target_encoding,
                 h')) /\
  (forall e,
     prepareData s lag_start lag_end test_size target_encoding = Raise e ->
     (e = ValueError \/ e = OverflowError) /\
     exists n : nat, test_index_of n test_size = Raise e) /\
  (test_size = NaN ->
   prepareData s lag_start lag_end test_size target_encoding
   = Raise ValueError) /\
  (test_size = PosInf \/ test_size = NegInf ->
   exists e, prepareData s lag_start lag_end test_size target_encoding
             = Raise e) /\
  (forall t : Q,
     test_size = Num t -> (0 <= t)%Q -> (t <= 1)%Q ->
     exists d, prepareData s lag_start lag_end test_size target_encoding
               = Ok d) /\
  (forall d,
     prepareData s lag_start lag_end test_size target_encoding = Ok d ->
     exists data,
       feature_frame s lag_start lag_end test_size target_encoding = Ok data /\
       let final := dropna data in
       let X := drop_columns ["y"] final in
       let y := column_series "y" final in
       index (X_train d) ++ index (X_test d) = index final /\
       y_train d ++ y_test d = y /\
       (forall t : Q,
          test_size = Num t -> (t <= 0)%Q ->
          X_train d = X /\ y_train d = y /\
          index (X_test d) = [] /\ y_test d = []) /\
       (forall t : Q,
          test_size = Num t -> (t == 1)%Q ->
          index (X_train d) = [] /\ y_train d = [] /\
          X_test d = X /\ y_test d = y)).
Proof.
  intros Hs Hlen.
  assert (forall data, (nrows (dropna data) <= nrows data)%nat) as Hdrop
    by apply nrows_dropna_le.
  assert (Z.of_nat (nrows (dropna (calendar_frame s lag_start lag_end)))
          <= 2 ^ 53) as Hn1.
  { pose proof (Hdrop (calendar_frame s lag_start lag_end)) as H1.
    rewrite calendar_frame_nrows in H1. lia. }
  assert (forall ke,
            Z.of_nat (nrows (dropna (features_at s lag_start lag_end ke
                                       target_encoding))) <= 2 ^ 53) as Hn2.
  { intros ke.
    pose proof (Hdrop (features_at s lag_start lag_end ke target_encoding))
      as H1.
    rewrite features_at_nrows in H1. lia. }
  split; [by eapply prepareData_st_ok|].
  split.
  { intros e E. split; [by eapply prepareData_raises|].
    by eapply prepareData_raises_at. }
  split; [|split; [|split]].
  - intros ->. unfold prepareData, feature_frame. destruct target_encoding.
    + unfold add_target_encoding, encoding_index.
      by rewrite test_index_nan.
    + cbn [result_bind]. unfold timeseries_train_test_split.
      rewrite test_index_nan; [done|]. apply (Hn2 0).
  - intros Hinf.
    destruct (prepareData s lag_start lag_end test_size target_encoding)
      as [d|e] eqn:E; [|by exists e].
    exfalso. apply prepareData_inv in E as (ke & k & _ & Hk & _).
    unfold test_index_of in Hk.
    rewrite float_of_int_small in Hk by (specialize (Hn2 ke); lia).
    cbn [result_bind] in Hk.
    destruct Hinf as [-> | ->]; cbn [to_binary64 float_sub float_mul] in Hk;
      destruct (Qeq_bool _ _); try done; by destruct (Qle_bool _ _).
  - intros t -> H0 H1.
    destruct (prepareData_returns s lag_start lag_end t target_encoding
                Hlen H0 H1) as (ke & k & _ & _ & _ & Hd).
    by eexists.
  - intros d Hd.
    apply prepareData_inv in Hd as (ke & k & Hke & Hk & ->).
    exists (features_at s lag_start lag_end ke target_encoding).
    split; [by apply feature_frame_at|].
    intros final X y.
    pose proof (final_y_length s lag_start lag_end ke target_encoding) as Hy.
    fold final in Hy. fold y in Hy.
    split; [apply returned_index|]. split; [apply returned_y|]. split.
    + intros t -> Ht.
      pose proof (test_index_nonpos _ t k (Hn2 ke) Ht Hk) as Hge.
      fold final in Hge.
      destruct (frame_slice_all k X) as (Htr & Hte & _);
        [apply wf_cleaned|exact Hge|].
      assert (Z.of_nat (length y) <= k) as Hky by (rewrite Hy; exact Hge).
      rewrite returned_X_train, returned_X_test, returned_y_train,
        returned_y_test.
      fold final. fold X. fold y.
      repeat split; try done; by apply slice_to_all.
    + intros t -> Ht.
      rewrite (test_index_one _ t (Hn2 ke) Ht) in Hk. injection Hk as <-.
      rewrite returned_X_train, returned_X_test, returned_y_train,
        returned_y_test.
      fold final. fold X. fold y.
      repeat split; try done. apply frame_slice_from_zero.
Qed.

Lemma fraction_not_validated_witness :
  (exists h', prepareData_st 1%positive 1 3 (Num 0) false sample_store
              = (prepareData seven_hours 1 3 (Num 0) false, h')) /\
  (exists d, prepareData seven_hours 1 3 (Num 0) false = Ok d /\
             index (X_test d) = []) /\
  prepareData seven_hours 1 3 (Num (inject_Z (10 ^ 308))) false
    = Raise OverflowError.
Proof.
  assert (sample_store !! 1%positive = Some (one_column "count" seven_hours))
    as Hl by reflexivity.
  assert (Z.of_nat (length seven_hours) <= 2 ^ 53) as Hlen
    by (vm_compute; discriminate).
  destruct (fraction_not_validated sample_store 1%positive "count" seven_hours
              1 3 (Num 0) false Hl Hlen)
    as (Hret & _ & _ & _ & Hok & Hparts).
  split; [exact Hret|]. split; [|vm_compute; reflexivity].
  destruct (Hok 0%Q) as [d Hd]; [reflexivity|discriminate|discriminate|].
  exists d. split; [exact Hd|].
  destruct (Hparts d Hd) as (data & _ & _ & _ & Hzero & _).
  apply (Hzero 0%Q); [reflexivity|discriminate].
Defined.

(** C5. A series of 100 hourly points with values [v[i] = i], lags 1 and 2
    ([lag_start = 1], [lag_end = 3]), [test_size = 0.2] and no target
    encoding: 98 rows are lag-complete (positions 2..99), the train tables
    hold the 78 rows at positions 2..79 and the test tables the 20 rows at
    positions 80..99; the row of position 80, the first test row, has
    [lag_1 = 79] and [lag_2 = 78].  This holds whatever the time of the
    first point.  The boundary is [int(98 * (1 - 0.2))] in binary64, the
    truncation of 78.4. *)
Theorem end_to_end_100_points (t0 : Z) :
  let ts := regular_ts t0 ns_per_hour in
  exists (data : DataFrame) (d : Dataset),
    feature_frame (series100 t0) 1 3 (Num (1 # 5)) false = Ok data /\
    prepareData (series100 t0) 1 3 (Num (1 # 5)) false = Ok d /\
    test_index_of 98 (Num (1 # 5)) = Ok 78 /\
    index (dropna data) = map ts (seq 2 98) /\
    nrows (dropna data) = 98%nat /\
    index (X_train d) = map ts (seq 2 78) /\
    map fst (y_train d) = map ts (seq 2 78) /\
    nrows (X_train d) = 78%nat /\
    index (X_test d) = map ts (seq 80 20) /\
    map fst (y_test d) = map ts (seq 80 20) /\
    nrows (X_test d) = 20%nat /\
    index (X_test d) !! 0%nat = Some (ts 80%nat) /\
    get_column "lag_1" (X_test d) !! 0%nat = Some (Some 79%Q) /\
    get_column "lag_2" (X_test d) !! 0%nat = Some (Some 78%Q).
Proof.
  intros ts.
  assert (test_index_of 98 (Num (1 # 5)) = Ok 78) as Hk
    by (vm_compute; reflexivity).
  exists (features_at (series100 t0) 1 3 0 false),
         (dataset_at 78 (features_at (series100 t0) 1 3 0 false)).
  split; [by apply feature_frame_at|].
  split.
  { apply prepareData_at; [done|].
    assert (nrows (dropna (features_at (series100 t0) 1 3 0 false)) = 98%nat)
      as -> by (lazy -[regular_ts hour_of weekday_of]; reflexivity).
    exact Hk. }
  split; [exact Hk|].
  repeat split; lazy -[regular_ts hour_of weekday_of]; reflexivity.
Qed.

(** C6, as stated, fails: the boundary is not the floor of
    [len(final_rows) * (1 - test_fraction)].  With 90 final rows and
    [test_size = 0.3] that product is 63, for the fraction 3/10 and for the
    float 0.3 alike, but in binary64 [1 - 0.3] is a little less than 0.7
    and the product a little less than 63: the train tables hold 62 rows,
    the test tables 28. *)
Lemma boundary_62_not_63 :
  exists (data : DataFrame) (d : Dataset),
    feature_frame ninety_two_hours 1 3 (Num (3 # 10)) false = Ok data /\
    prepareData ninety_two_hours 1 3 (Num (3 # 10)) false = Ok d /\
    nrows (dropna data) = 90%nat /\
    Qfloor (inject_Z 90 * (1 - (3 # 10))) = 63 /\
    Qfloor (inject_Z 90 * (1 - round_binary64 (3 # 10))) = 63 /\
    test_index_of 90 (Num (3 # 10)) = Ok 62 /\
    nrows (X_train d) = 62%nat /\
    nrows (X_test d) = 28%nat.
Proof.
  eexists _, _. split; [vm_compute; reflexivity|].
  split; [vm_compute; reflexivity|].
  repeat split; vm_compute; reflexivity.
Qed.

(** C6, amended.  For a series with strictly increasing timestamps and a
    test fraction in (0,1), the call returns and the final split is by
    position at the boundary [int(len(final_rows) * (1 - test_fraction))]
    as binary64 arithmetic gives it, computed from the rows left after
    [dropna].  The boundary lies within the final rows; the train tables
    are the rows before it, the test tables the rows from it on, the counts
    add up to the number of final rows, no timestamp is in both parts, and
    every test timestamp is later than every train timestamp.  (A series
    has at most [2^53] points, so that its length is a float.) *)
Theorem final_split_by_position (series : Series) (lag_start lag_end : Z)
    (t : Q) (target_encoding : bool) :
  StronglySorted Z.lt (map fst series) ->
  (0 < t)%Q -> (t < 1)%Q ->
  Z.of_nat (length series) <= 2 ^ 53 ->
  exists (data : DataFrame) (d : Dataset) (b : nat),
    feature_frame series lag_start lag_end (Num t) target_encoding = Ok data /\
    prepareData series lag_start lag_end (Num t) target_encoding = Ok d /\
    let final := dropna data in
    let X := drop_columns ["y"] final in
    let y := column_series "y" final in
    test_index_of (nrows final) (Num t) = Ok (Z.of_nat b) /\
    (b <= nrows final)%nat /\
    index (X_train d) = take b (index final) /\
    index (X_test d) = drop b (index final) /\
    columns (X_train d) = map (fun c => (c.1, take b c.2)) (columns X) /\
    columns (X_test d) = map (fun c => (c.1, drop b c.2)) (columns X) /\
    y_train d = take b y /\
    y_test d = drop b y /\
    (nrows (X_train d) + nrows (X_test d) = nrows final)%nat /\
    (length (y_train d) + length (y_test d) = nrows final)%nat /\
    (forall t', t' ∈ index (X_train d) -> t' ∉ index (X_test d)) /\
    (forall t1 t2, t1 ∈ index (X_train d) -> t2 ∈ index (X_test d) -> t1 < t2).
Proof.
  intros Hsorted H0 H1 Hlen.
  destruct (prepareData_returns series lag_start lag_end t target_encoding
              Hlen) as (ke & k & Hke & Hk & Hrange & Hd); [lra|lra|].
  set (data := features_at series lag_start lag_end ke target_encoding) in *.
  exists data, (dataset_at k data), (Z.to_nat k).
  split; [by apply feature_frame_at|]. split; [exact Hd|].
  intros final X y. fold final in Hk, Hrange.
  set (b := Z.to_nat k). set (d := dataset_at k data).
  assert (forall A (l : list A),
            length l = nrows final ->
            slice_to k l = take b l /\ slice_from k l = drop b l) as Hslice.
  { intros A l Hl. unfold slice_to, slice_from.
    by rewrite slice_bound_nonneg by lia. }
  assert (forall A (l : list A),
            slice_to k l = take b l /\ slice_from k l = drop b l) as Hslice'.
  { intros A l. unfold slice_to, slice_from.
    by rewrite slice_bound_nonneg by lia. }
  assert (StronglySorted Z.lt (index (X_train d) ++ index (X_test d))) as Hs.
  { unfold d, data. rewrite returned_index.
    change (index (dropna ?f)) with (mask_filter (dropna_mask f) (index f)).
    apply mask_filter_sorted. by rewrite features_at_index. }
  assert (index (X_train d) = take b (index final)) as Htr by apply Hslice'.
  assert (index (X_test d) = drop b (index final)) as Hte by apply Hslice'.
  assert (b <= nrows final)%nat as Hb by (unfold b; lia).
  split; [unfold b; by rewrite Z2Nat.id by lia|].
  repeat split.
  - done.
  - done.
  - done.
  - unfold d, data. rewrite returned_X_train.
    unfold frame_slice_to. simpl columns.
    apply map_ext. intros c. f_equal. apply Hslice'.
  - unfold d, data. rewrite returned_X_test.
    unfold frame_slice_from. simpl columns.
    apply map_ext. intros c. f_equal. apply Hslice'.
  - apply Hslice'.
  - apply Hslice'.
  - unfold nrows at 1 2. rewrite Htr, Hte, length_take, length_drop.
    fold (nrows final). lia.
  - pose proof (final_y_length series lag_start lag_end ke target_encoding)
      as Hy.
    fold data in Hy. fold final in Hy. fold y in Hy.
    replace (y_train d) with (take b y) by (symmetry; apply Hslice').
    replace (y_test d) with (drop b y) by (symmetry; apply Hslice').
    rewrite length_take, length_drop. lia.
  - intros t' Ht1 Ht2. pose proof (sorted_app_lt _ _ _ _ Hs Ht1 Ht2). lia.
  - intros t1 t2 Ht1 Ht2. by apply (sorted_app_lt _ _ _ _ Hs).
Qed.

Lemma final_split_by_position_witness :
  exists (data : DataFrame) (d : Dataset) (b : nat),
    feature_frame seven_hours 1 2 (Num (2 # 5)) false = Ok data /\
    prepareData seven_hours 1 2 (Num (2 # 5)) false = Ok d /\
    test_index_of (nrows (dropna data)) (Num (2 # 5)) = Ok (Z.of_nat b) /\
    (b <= nrows (dropna data))%nat /\
    index (X_train d) = take b (index (dropna data)) /\
    index (X_test d) = drop b (index (dropna data)) /\
    (forall t1 t2,
       t1 ∈ index (X_train d) -> t2 ∈ index (X_test d) -> t1 < t2).
Proof.
  assert (StronglySorted Z.lt (map fst seven_hours)) as Hs.
  { vm_compute. repeat constructor. }
  destruct (final_split_by_position seven_hours 1 2 (2 # 5) false Hs)
    as (data & d & b & Hdata & Hd & Hk & Hb & Htr & Hte
        & _ & _ & _ & _ & _ & _ & _ & Hlt);
    [reflexivity | reflexivity | vm_compute; discriminate |].
  exists data, d, b.
  split; [exact Hdata|]. split; [exact Hd|]. split; [exact Hk|].
  split; [exact Hb|]. split; [exact Htr|]. split; [exact Hte|exact Hlt].
Defined.

(** C7. For every lag [k] in [[lag_start, lag_end)] and every row of a
    returned feature table, the [lag_k] feature is exactly the value of the
    original series [k] steps before that row: if the row carries the
    timestamp [t] of position [p] of the series, its [lag_k] cell is the
    value of the series point at position [p - k].  A step is a position in
    the series, since [shift] moves values by rows; when the points are
    regularly spaced, that point is the one at time [t - k * step]. *)
Theorem lag_feature_round_trip (series : Series) (lag_start lag_end : Z)
    (test_size : ext) (target_encoding : bool) (d : Dataset) (k : Z)
    (X : DataFrame) (j : nat) (t : Z) :
  NoDup (map fst series) ->
  lag_start <= k < lag_end ->
  prepareData series lag_start lag_end test_size target_encoding = Ok d ->
  X = X_train d \/ X = X_test d ->
  index X !! j = Some t ->
  exists (p : nat) (v : Q) (t' : Z),
    map fst series !! p = Some t /\
    (forall p' : nat, map fst series !! p' = Some t -> p' = p) /\
    0 <= Z.of_nat p - k /\
    series !! Z.to_nat (Z.of_nat p - k) = Some (t', Some v) /\
    get_column (lag_name k) X !! j = Some (Some v) /\
    (forall t0 step : Z,
       (forall (q : nat) (tq : Z),
          map fst series !! q = Some tq -> tq = t0 + Z.of_nat q * step) ->
       t' = t - k * step).
Proof.
  intros Hnd Hk Hd HX Hj.
  apply prepareData_inv in Hd as (ke & kb & _ & _ & ->).
  set (X0 := drop_columns ["y"]
               (dropna (features_at series lag_start lag_end ke
                          target_encoding))).
  assert (length (get_column (lag_name k) X0) = nrows X0) as Hlen.
  { apply wf_get_column; [apply wf_cleaned|].
    unfold X0. rewrite has_drop, has_column_dropna, has_feature_lag by done.
    by destruct (lag_name_lead k) as [s ->]. }
  assert (exists j', index X0 !! j' = Some t /\
            get_column (lag_name k) X !! j = get_column (lag_name k) X0 !! j')
    as (j' & Hj' & Hc).
  { destruct HX as [-> | ->].
    - by apply slice_to_row_of.
    - by apply slice_from_row_of. }
  destruct (cleaned_lag series lag_start lag_end ke target_encoding
              k j' t Hk Hj') as (p & v & Hp & Hge & Hv & Hcell).
  apply list_lookup_fmap_Some in Hv as ([t' c] & Heq & Hsrc).
  simpl in Heq. subst c.
  exists p, v, t'. repeat split; try done.
  - intros p' Hp'. by eapply NoDup_lookup.
  - by rewrite Hc.
  - intros t0 step Hreg.
    pose proof (Hreg _ _ Hp) as Ht.
    assert (map fst series !! Z.to_nat (Z.of_nat p - k) = Some t') as Hq
      by by rewrite list_lookup_fmap, Hsrc.
    apply Hreg in Hq. rewrite Z2Nat.id in Hq by done. lia.
Qed.

Lemma lag_feature_round_trip_witness :
  exists d : Dataset,
    prepareData seven_hours 1 3 (Num (1 # 2)) false = Ok d /\
    exists (p : nat) (v : Q) (t' : Z),
      map fst seven_hours !! p = Some (4 * ns_per_hour) /\
      (forall p' : nat,
         map fst seven_hours !! p' = Some (4 * ns_per_hour) -> p' = p) /\
      0 <= Z.of_nat p - 2 /\
      seven_hours !! Z.to_nat (Z.of_nat p - 2) = Some (t', Some v) /\
      get_column (lag_name 2) (X_test d) !! 0%nat = Some (Some v) /\
      (forall t0 step : Z,
         (forall (q : nat) (tq : Z),
            map fst seven_hours !! q = Some tq -> tq = t0 + Z.of_nat q * step) ->
         t' = 4 * ns_per_hour - 2 * step).
Proof.
  eexists. split; [vm_compute; reflexivity|].
  eapply (lag_feature_round_trip seven_hours 1 3 (Num (1 # 2)) false _ 2 _
            0%nat (4 * ns_per_hour)).
  - apply (bool_decide_unpack _). vm_compute. reflexivity.
  - lia.
  - vm_compute. reflexivity.
  - right. reflexivity.
  - reflexivity.
Defined.

(** C8. With target encoding, the lookup of a weekday or hour group that has
    no row on the training side of the encoding boundary does not raise:
    no call ends with [KeyError], a call with a test fraction in [0,1]
    returns, and in every call that returns the encoded feature of such a
    row is the missing value and the final [dropna] removes the row from
    the train and the test tables alike. *)
Theorem unseen_group_row_dropped (series : Series) (lag_start lag_end : Z)
    (test_size : ext) :
  let base := calendar_frame series lag_start lag_end in
  prepareData series lag_start lag_end test_size true <> Raise KeyError /\
  (forall t0 : Q,
     test_size = Num t0 -> (0 <= t0)%Q -> (t0 <= 1)%Q ->
     Z.of_nat (length series) <= 2 ^ 53 ->
     exists d, prepareData series lag_start lag_end test_size true = Ok d) /\
  (forall d : Dataset,
     prepareData series lag_start lag_end test_size true = Ok d ->
     exists (ke : Z) (data : DataFrame) (weekday_means hour_means : list (Q * cell)),
       let train_side := slice_to ke (map fst series) in
       encoding_index test_size base = Ok ke /\
       feature_frame series lag_start lag_end test_size true = Ok data /\
       code_mean (frame_slice_to ke base) "weekday" "y" = Ok weekday_means /\
       code_mean (frame_slice_to ke base) "hour" "y" = Ok hour_means /\
       (forall h l name, h !! l = Some (one_column name series) ->
          exists h', prepareData_st l lag_start lag_end test_size true h
                     = (Ok d, h')) /\
       (forall (p : nat) (t : Z),
          map fst series !! p = Some t ->
          weekday_of t ∉ map weekday_of train_side \/
          hour_of t ∉ map hour_of train_side ->
          (weekday_of t ∉ map weekday_of train_side ->
             dict_get weekday_means (int_cell (weekday_of t)) = None /\
             get_column "weekday_average" data !! p = Some None) /\
          (hour_of t ∉ map hour_of train_side ->
             dict_get hour_means (int_cell (hour_of t)) = None /\
             get_column "hour_average" data !! p = Some None) /\
          (t ∉ index (X_train d)) /\ (t ∉ index (X_test d)) /\
          (t ∉ map fst (y_train d)) /\ (t ∉ map fst (y_test d)))).
Proof.
  intros base. split; [|split].
  - intros E. apply prepareData_raises in E as [E|E]; discriminate.
  - intros t0 -> H0 H1 Hlen.
    destruct (prepareData_returns series lag_start lag_end t0 true Hlen H0 H1)
      as (ke & k & _ & _ & _ & Hd).
    by eexists.
  - intros d Hd.
    pose proof Hd as Hret.
    apply prepareData_inv in Hd as (ke & k & Hke & Hk & ->).
    specialize (Hke eq_refl).
    set (data := features_at series lag_start lag_end ke true).
    exists ke, data,
      (group_means (frame_slice_to ke base) "weekday" "y"),
      (group_means (frame_slice_to ke base) "hour" "y").
    intros train_side.
    split; [exact Hke|]. split; [by apply feature_frame_at|].
    split.
    { apply code_mean_ok; rewrite has_column_slice_to;
        apply has_calendar_frame; auto. }
    split.
    { apply code_mean_ok; rewrite has_column_slice_to;
        apply has_calendar_frame; auto. }
    split.
    { intros h l name Hl.
      destruct (prepareData_st_ok h l name series lag_start lag_end test_size
                  true Hl) as [h' Hrun].
      exists h'. by rewrite Hrun, Hret. }
    intros p t Hp Hun.
    assert (t ∉ index (dropna data)) as Hout
      by by apply unseen_not_cleaned.
    assert (index (X_train (dataset_at k data))
              ++ index (X_test (dataset_at k data)) = index (dropna data))
      as Hidx by apply returned_index.
    assert (map fst (y_train (dataset_at k data))
              ++ map fst (y_test (dataset_at k data)) = index (dropna data))
      as Hy.
    { rewrite <- map_app. unfold data. rewrite returned_y.
      apply final_y_index. }
    repeat split.
    + unfold group_means. rewrite !get_column_slice_to.
      unfold base. rewrite calendar_frame_weekday.
      by apply (calendar_key_unseen weekday_of).
    + by eapply weekday_average_unseen.
    + unfold group_means. rewrite !get_column_slice_to.
      unfold base. rewrite calendar_frame_hour.
      by apply (calendar_key_unseen hour_of).
    + by eapply hour_average_unseen.
    + intros Hin. apply Hout. rewrite <- Hidx. apply elem_of_app. by left.
    + intros Hin. apply Hout. rewrite <- Hidx. apply elem_of_app. by right.
    + intros Hin. apply Hout. rewrite <- Hy. apply elem_of_app. by left.
    + intros Hin. apply Hout. rewrite <- Hy. apply elem_of_app. by right.
Qed.

Lemma unseen_group_row_dropped_witness :
  exists (d : Dataset) (data : DataFrame),
    prepareData seven_hours 1 2 (Num (1 # 2)) true = Ok d /\
    feature_frame seven_hours 1 2 (Num (1 # 2)) true = Ok data /\
    (3 * ns_per_hour ∉ index (X_train d)) /\
    (3 * ns_per_hour ∉ index (X_test d)) /\
    get_column "hour_average" data !! 3%nat = Some None.
Proof.
  destruct (unseen_group_row_dropped seven_hours 1 2 (Num (1 # 2)))
    as (_ & Hok & Hrows).
  destruct (Hok (1 # 2)%Q) as [d Hd];
    [reflexivity|discriminate|discriminate|vm_compute; discriminate|].
  destruct (Hrows d Hd) as (ke & data & wm & hm & Hke & Hdata & _ & _ & _ & Hp).
  assert (ke = 3) as -> by (vm_compute in Hke; congruence).
  exists d, data. split; [exact Hd|]. split; [exact Hdata|].
  assert (hour_of (3 * ns_per_hour)
            ∉ map hour_of (slice_to 3 (map fst seven_hours))) as Hh.
  { apply (bool_decide_unpack _). vm_compute. reflexivity. }
  destruct (Hp 3%nat (3 * ns_per_hour) eq_refl (or_intror Hh))
    as (_ & Hhour & Htr & Hte & _).
  split; [exact Htr|]. split; [exact Hte|]. by apply Hhour.
Defined.

(** C9. [prepareData] is pure and deterministic.  Whatever the store and
    the arguments, and whether the call returns or raises, every object the
    caller had in the store, the series among them, is afterwards what it was
    before: the updates go to the copy.  On a series (a one-column frame) the
    way the call ends, with its tables or with its exception, depends on
    the points of the series and on the parameters only: a second call in
    the store the first one left, or a call in any other store on a series
    with the same points, ends the same way; and for a test fraction in
    [0,1] the call returns. *)
Theorem prepareData_pure (h : gmap loc DataFrame) (series : loc)
    (lag_start lag_end : Z) (test_size : ext) (target_encoding : bool) :
  (forall l df, h !! l = Some df ->
     (prepareData_st series lag_start lag_end test_size target_encoding h).2
       !! l = Some df) /\
  (forall name s, h !! series = Some (one_column name s) ->
     exists (r : result Dataset) (h' : gmap loc DataFrame),
       prepareData_st series lag_start lag_end test_size target_encoding h
         = (r, h') /\
       (exists h'', prepareData_st series lag_start lag_end test_size
                      target_encoding h' = (r, h'')) /\
       (forall h2 series2 name2,
          h2 !! series2 = Some (one_column name2 s) ->
          exists h2', prepareData_st series2 lag_start lag_end test_size
                        target_encoding h2 = (r, h2')) /\
       (forall t : Q,
          test_size = Num t -> (0 <= t)%Q -> (t <= 1)%Q ->
          Z.of_nat (length s) <= 2 ^ 53 ->
          exists d, r = Ok d)).
Proof.
  split.
  - intros l df Hl. by apply prepareData_st_frame.
  - intros name s Hs.
    pose proof (prepareData_st_frame h series lag_start lag_end test_size
                  target_encoding _ _ Hs) as Hkept.
    destruct (prepareData_st_ok h series name s lag_start lag_end test_size
                target_encoding Hs) as [h' Hrun].
    rewrite Hrun in Hkept. simpl in Hkept.
    exists (prepareData s lag_start lag_end test_size target_encoding), h'.
    split; [exact Hrun|]. split; [by eapply prepareData_st_ok|].
    split; [intros h2 series2 name2 H2; by eapply prepareData_st_ok|].
    intros t -> H0 H1 Hlen.
    destruct (prepareData_returns s lag_start lag_end t target_encoding
                Hlen H0 H1) as (ke & k & _ & _ & _ & Hd).
    by eexists.
Qed.

Lemma prepareData_pure_witness :
  (prepareData_st 1%positive 1 2 (Num (1 # 2)) true sample_store).2
    !! 1%positive
    = Some (one_column "count" seven_hours) /\
  exists (d : Dataset) (h' : gmap loc DataFrame),
    prepareData_st 1%positive 1 2 (Num (1 # 2)) true sample_store = (Ok d, h').
Proof.
  assert (sample_store !! 1%positive = Some (one_column "count" seven_hours))
    as Hl by reflexivity.
  destruct (prepareData_pure sample_store 1%positive 1 2 (Num (1 # 2)) true)
    as (Hkept & Hret).
  split; [by apply Hkept|].
  destruct (Hret "count" seven_hours Hl) as (r & h' & Hrun & _ & _ & Hok).
  destruct (Hok (1 # 2)%Q) as [d ->];
    [reflexivity|discriminate|discriminate|vm_compute; discriminate|].
  by exists d, h'.
Defined.

(** C10. For a non-empty series and a window [n] at least as long as the
    series, [moving_average] is the average of the whole series: the slice
    [series[-n:]] is clamped to the observations there are, and no window
    size fails. *)
Theorem moving_average_clamps (series : list cell) (n : Z) :
  series <> [] ->
  Z.of_nat (length series) <= n ->
  moving_average series n = np_average series /\
  forall vals : list Q, series = map Some vals ->
    moving_average series n = Some (Qmean vals).
Proof.
  intros Hne Hn.
  assert (slice_from (- n) series = series) as Hs.
  { unfold slice_from, slice_bound.
    destruct series as [|c l]; [done|]. simpl length in *.
    destruct (Z.ltb_spec (- n) 0); [|lia].
    replace (Z.to_nat _) with 0%nat by lia. done. }
  unfold moving_average. rewrite Hs. split; [done|].
  intros vals ->. destruct vals as [|v vals]; [done|].
  unfold np_average.
  assert (forall l : list Q, forallb notna (map Some l) = true) as Hall
    by (induction l; simpl; auto).
  assert (forall l : list Q, omap id (map Some l) = l) as Hid
    by (induction l as [|a l IH]; [done|]; cbn; f_equal; exact IH).
  change (Some v :: map Some vals) with (map Some (v :: vals)).
  by rewrite Hall, Hid.
Qed.

Lemma moving_average_clamps_witness :
  moving_average [Some 4%Q; Some 5%Q; Some 9%Q] 24
    = np_average [Some 4%Q; Some 5%Q; Some 9%Q] /\
  forall vals : list Q, [Some 4%Q; Some 5%Q; Some 9%Q] = map Some vals ->
    moving_average [Some 4%Q; Some 5%Q; Some 9%Q] 24 = Some (Qmean vals).
Proof.
  apply (moving_average_clamps [Some 4%Q; Some 5%Q; Some 9%Q] 24).
  - discriminate.
  - simpl. lia.
Defined.

(** * Further properties of the notebooks' functions *)

(** ** Averages *)

Lemma omap_id_Some (l : list Q) : omap id (map Some l) = l.
Proof. induction l as [|a l IH]; [done|]. cbn. f_equal. exact IH. Qed.

Lemma forallb_notna_Some (l : list Q) : forallb notna (map Some l) = true.
Proof. induction l; simpl; auto. Qed.

Lemma np_average_numbers (vals : list Q) :
  vals <> [] -> np_average (map Some vals) = Some (Qmean vals).
Proof.
  intros Hne. destruct vals as [|v vals]; [done|].
  unfold np_average.
  change (map Some (v :: vals)) with (Some v :: map Some vals) at 1.
  cbv iota. by rewrite forallb_notna_Some, omap_id_Some.
Qed.

Lemma np_average_nan (vals : list cell) : None ∈ vals -> np_average vals = None.
Proof.
  intros Hin. unfold np_average. destruct vals as [|c l]; [done|].
  destruct (forallb notna (c :: l)) eqn:E; [|done].
  rewrite forallb_forall in E. by apply list_elem_of_In, E in Hin.
Qed.

Lemma slice_from_neg {A} (n : Z) (l : list A) :
  0 < n ->
  slice_from (- n) l = drop (length l - Z.to_nat n) l.
Proof.
  intros Hn. unfold slice_from, slice_bound.
  destruct (Z.ltb_spec (- n) 0); [|lia]. f_equal. lia.
Qed.

Lemma slice_from_nonpos {A} (n : Z) (l : list A) :
  n <= 0 -> slice_from (- n) l = drop (Z.to_nat (- n)) l.
Proof.
  intros Hn. unfold slice_from, slice_bound.
  destruct (Z.ltb_spec (- n) 0); [lia|done].
Qed.

(** ** [moving_average] *)

(** X1. For a window [0 < n <= len(series)], [moving_average] is the average
    of exactly the last [n] observations. *)
Theorem moving_average_last_n (series : list cell) (n : Z) :
  0 < n <= Z.of_nat (length series) ->
  length (drop (length series - Z.to_nat n) series) = Z.to_nat n /\
  moving_average series n
    = np_average (drop (length series - Z.to_nat n) series) /\
  forall vals : list Q,
    drop (length series - Z.to_nat n) series = map Some vals ->
    moving_average series n = Some (Qmean vals).
Proof.
  intros Hn. unfold moving_average. rewrite slice_from_neg by lia.
  split; [rewrite length_drop; lia|]. split; [done|].
  intros vals Hv. rewrite Hv. apply np_average_numbers.
  intros ->. apply (f_equal length) in Hv.
  rewrite length_drop in Hv. simpl in Hv. lia.
Qed.

Lemma moving_average_last_n_witness :
  moving_average [Some 1%Q; Some 2%Q; Some 6%Q; Some 8%Q] 2
    = np_average [Some 6%Q; Some 8%Q].
Proof.
  destruct (moving_average_last_n [Some 1%Q; Some 2%Q; Some 6%Q; Some 8%Q] 2)
    as (_ & Havg & _); [simpl; lia|exact Havg].
Defined.

(** X2. A window of 0 does not average nothing: [series[-0:]] is the whole
    series, so the result is the average of all observations.  A negative
    [n] skips the first [-n] observations and averages the rest. *)
Theorem moving_average_nonpositive_window (series : list cell) (n : Z) :
  n <= 0 ->
  moving_average series n = np_average (drop (Z.to_nat (- n)) series) /\
  (n = 0 -> moving_average series n = np_average series).
Proof.
  intros Hn. unfold moving_average. rewrite slice_from_nonpos by done.
  split; [done|]. by intros ->.
Qed.

Lemma moving_average_nonpositive_window_witness :
  moving_average [Some 1%Q; Some 2%Q; Some 6%Q] 0
    = np_average [Some 1%Q; Some 2%Q; Some 6%Q].
Proof.
  destruct (moving_average_nonpositive_window [Some 1%Q; Some 2%Q; Some 6%Q] 0)
    as (_ & Hall); [lia|]. by apply Hall.
Defined.

(** X4. NaN is not skipped: one missing observation inside the window makes
    the moving average NaN; and on an empty series every window gives NaN. *)
Theorem moving_average_nan (series : list cell) (n : Z) :
  (None ∈ slice_from (- n) series -> moving_average series n = None) /\
  moving_average [] n = None.
Proof.
  split.
  - intros Hin. by apply np_average_nan.
  - unfold moving_average, slice_from. by rewrite drop_nil.
Qed.

Lemma moving_average_nan_witness :
  moving_average [Some 1%Q; None; Some 6%Q] 2 = None.
Proof.
  destruct (moving_average_nan [Some 1%Q; None; Some 6%Q] 2) as (Hnan & _).
  apply Hnan. change (None ∈ [@None Q; Some 6%Q]). constructor.
Defined.

(** ** [code_mean] *)

Lemma unique_keys_cover (c : Q) (keys : list cell) :
  Some c ∈ keys ->
  exists k, k ∈ unique_keys keys /\ Qeq_bool k c = true.
Proof.
  induction keys as [|[k0|] keys IH]; intros Hc.
  - by apply not_elem_of_nil in Hc.
  - apply elem_of_cons in Hc as [Hc|Hc].
    + injection Hc as ->. exists k0. split; [by left|apply Qeq_bool_refl].
    + destruct (IH Hc) as (k & Hk & Hkc). simpl.
      destruct (Qeq_bool k k0) eqn:E.
      * exists k0. split; [by left|].
        apply Qeq_bool_sym in E. by eapply Qeq_bool_trans.
      * exists k. split; [|done]. right.
        apply list_elem_of_In, filter_In. split; [by apply list_elem_of_In|].
        by rewrite E.
  - apply elem_of_cons in Hc as [Hc|Hc]; [done|]. by apply IH.
Qed.

Lemma find_map_key {B} (f : Q -> B) (q : Q) (ks : list Q) :
  List.find (fun e : Q * B => Qeq_bool e.1 q) (map (fun k => (k, f k)) ks)
  = option_map (fun k => (k, f k)) (List.find (fun k => Qeq_bool k q) ks).
Proof.
  induction ks as [|k ks IH]; simpl; [done|].
  by destruct (Qeq_bool k q).
Qed.

Lemma key_matches_Qeq (k q : Q) (c : cell) :
  Qeq_bool k q = true -> key_matches k c = key_matches q c.
Proof.
  intros E. destruct c as [x|]; simpl; [|done].
  destruct (Qeq_bool x q) eqn:Exq.
  - apply Qeq_bool_sym in E. by eapply Qeq_bool_trans.
  - destruct (Qeq_bool x k) eqn:Exk; [|done].
    by rewrite (Qeq_bool_trans _ _ _ Exk E) in Exq.
Qed.

Lemma mask_filter_all_false {A} (m : list bool) (l : list A) :
  Forall (fun b => b = false) m -> mask_filter m l = [].
Proof.
  intros Hm. revert l. induction Hm as [|b m -> Hm IH]; intros [|x l]; simpl; auto.
Qed.

(** What [code_mean(...).get(k)] is, for every frame and every number [k]:
    the mean, NaN skipped, of the [real_feature] values of the rows whose
    [cat_feature] is [k]; the missing value when no row has it. *)
Lemma dict_get_groupby_mean (keys vals : list cell) (q : Q) :
  dict_get (groupby_mean keys vals) (Some q)
  = nanmean (mask_filter (map (key_matches q) keys) vals).
Proof.
  unfold dict_get, groupby_mean. rewrite find_map_key.
  destruct (List.find (fun k => Qeq_bool k q) (unique_keys keys)) as [k|] eqn:E;
    simpl.
  - apply List.find_some in E as [_ E]. f_equal. f_equal.
    apply map_ext. intros c. by apply key_matches_Qeq.
  - rewrite mask_filter_all_false; [done|].
    apply Forall_fmap, Forall_forall. intros [c|] Hc; simpl; [|done].
    destruct (Qeq_bool c q) eqn:Ecq; [|done].
    destruct (unique_keys_cover c keys Hc) as (k & Hk & Hkc).
    apply list_elem_of_In in Hk.
    pose proof (List.find_none _ _ E k Hk) as Hkq. simpl in Hkq.
    by rewrite (Qeq_bool_trans _ _ _ Hkc Ecq) in Hkq.
Qed.

(** X5. [code_mean] raises [KeyError] when the frame lacks the category
    column or the value column, and only then.  On a frame that has both it
    returns a dictionary, and for every category [k] the lookup
    [code_mean(data, cat, real).get(k)] is the mean of [real] over exactly
    the rows of [data] whose [cat] equals [k], NaN values skipped; it is
    the missing value when no such row holds a number. *)
Theorem code_mean_get (data : DataFrame) (cat_feature real_feature : string) :
  match code_mean data cat_feature real_feature with
  | Ok d =>
      has_column cat_feature data = true /\
      has_column real_feature data = true /\
      forall k : Q,
        dict_get d (Some k)
        = nanmean (mask_filter
                     (map (key_matches k) (get_column cat_feature data))
                     (get_column real_feature data))
  | Raise e =>
      e = KeyError /\
      (has_column cat_feature data = false \/
       has_column real_feature data = false)
  end.
Proof.
  destruct (has_column cat_feature data) eqn:Hc;
    destruct (has_column real_feature data) eqn:Hr.
  - rewrite code_mean_ok by done. split; [done|]. split; [done|].
    intros k. apply dict_get_groupby_mean.
  - rewrite code_mean_absent by auto. auto.
  - rewrite code_mean_absent by auto. auto.
  - rewrite code_mean_absent by auto. auto.
Qed.

Lemma unique_keys_distinct (keys : list cell) :
  StronglySorted (fun a b : Q => ~ (a == b)%Q) (unique_keys keys).
Proof.
  induction keys as [|[k|] keys IH]; simpl; [constructor| |done].
  constructor.
  - clear -IH. induction IH as [|a l Hs IH' Ha]; simpl; [constructor|].
    destruct (negb (Qeq_bool a k)); [|done]. constructor; [done|].
    apply Forall_forall. intros x Hx.
    apply list_elem_of_In, filter_In in Hx as [Hx _].
    rewrite Forall_forall in Ha. by apply Ha, list_elem_of_In.
  - apply Forall_forall. intros x Hx.
    apply list_elem_of_In, filter_In in Hx as [_ Hx].
    apply negb_true_iff, Qeq_bool_neq in Hx. intros E. apply Hx. by symmetry.
Qed.

(** X6. The dictionary of [code_mean] has one entry per distinct category:
    its keys are pairwise different numbers, each key is the category of
    some row, and every category of a row is a key. *)
Theorem code_mean_keys (data : DataFrame) (cat_feature real_feature : string)
    (d : list (Q * cell)) :
  code_mean data cat_feature real_feature = Ok d ->
  StronglySorted (fun a b : Q => ~ (a == b)%Q) (map fst d) /\
  (forall k, k ∈ map fst d -> Some k ∈ get_column cat_feature data) /\
  (forall c, Some c ∈ get_column cat_feature data ->
     exists k, k ∈ map fst d /\ (k == c)%Q).
Proof.
  intros Hd.
  assert (d = group_means data cat_feature real_feature) as ->.
  { unfold code_mean, getitem in Hd.
    destruct (has_column cat_feature data); [|done].
    destruct (has_column real_feature data); [|done].
    by injection Hd as <-. }
  assert (map fst (group_means data cat_feature real_feature)
          = unique_keys (get_column cat_feature data)) as ->.
  { unfold group_means, groupby_mean. rewrite map_map. simpl. apply map_id. }
  split; [apply unique_keys_distinct|]. split.
  - intros k. apply unique_keys_elem.
  - intros c Hc. destruct (unique_keys_cover c _ Hc) as (k & Hk & E).
    exists k. split; [done|]. by apply Qeq_bool_eq.
Qed.

Lemma code_mean_keys_witness :
  exists d : list (Q * cell),
    code_mean (calendar_frame seven_hours 1 2) "hour" "y" = Ok d /\
    exists k, k ∈ map fst d /\ (k == 2)%Q.
Proof.
  eexists. split; [vm_compute; reflexivity|].
  eapply (code_mean_keys (calendar_frame seven_hours 1 2) "hour" "y").
  - vm_compute. reflexivity.
  - vm_compute. do 2 right. left.
Defined.

(** ** [timeseries_train_test_split] *)

(** X8. For a test fraction in [0,1] and a table of at most 2^53 rows the
    split returns.  The train part has [int(len(X) * (1 - test_size))] rows,
    the product taken in binary64, a count between 0 and [len(X)]; the test
    part has the remaining rows, and the parts of [y] have the same sizes
    when [y] has one entry per row of [X].  At fraction 1 the train part is
    empty and at fraction 0 the test part is empty. *)
Theorem split_sizes (X : DataFrame) (y : Series) (t : Q) :
  Z.of_nat (nrows X) <= 2 ^ 53 -> length y = nrows X ->
  (0 <= t)%Q -> (t <= 1)%Q ->
  exists (b : nat) (r : Dataset),
    test_index_of (nrows X) (Num t) = Ok (Z.of_nat b) /\
    timeseries_train_test_split X y (Num t) = Ok r /\
    (b <= nrows X)%nat /\
    nrows (X_train r) = b /\ length (y_train r) = b /\
    nrows (X_test r) = (nrows X - b)%nat /\
    length (y_test r) = (nrows X - b)%nat /\
    ((t == 1)%Q -> b = 0%nat) /\
    ((t == 0)%Q -> b = nrows X).
Proof.
  intros Hn Hy H0 H1.
  destruct (test_index_unit (nrows X) t Hn H0 H1) as (k & Hk & Hrange).
  exists (Z.to_nat k), (split_at k X y).
  rewrite Z2Nat.id by lia.
  split; [exact Hk|]. split; [by apply split_at_ok|].
  split; [lia|].
  assert (slice_bound (nrows X) k = Z.to_nat k) as Hb
    by (rewrite slice_bound_nonneg; lia).
  split; [|split; [|split; [|split; [|split]]]].
  - unfold split_at, X_train, nrows; simpl. unfold slice_to.
    fold (nrows X). rewrite Hb, length_take. fold (nrows X). lia.
  - unfold split_at, y_train; simpl. unfold slice_to.
    rewrite Hy, Hb, length_take. lia.
  - unfold split_at, X_test, nrows; simpl. unfold slice_from.
    fold (nrows X). rewrite Hb, length_drop. done.
  - unfold split_at, y_test; simpl. unfold slice_from.
    rewrite Hy, Hb, length_drop. lia.
  - intros E. pose proof (test_index_one (nrows X) t Hn E) as H.
    rewrite Hk in H. injection H as ->. done.
  - intros E.
    assert (t <= 0)%Q as Hle by (rewrite E; apply Qle_refl).
    pose proof (test_index_nonpos (nrows X) t k Hn Hle Hk). lia.
Qed.

(** The test part of a non-empty table can be empty for a fraction strictly
    between 0 and 1: with 7 rows and the fraction 1e-17 the boundary is 7,
    one more than [floor(7 * (1 - 1e-17))]. *)
Lemma split_sizes_witness :
  (exists (b : nat) (r : Dataset),
     test_index_of 7 (Num (1 # 10 ^ 17)) = Ok (Z.of_nat b) /\
     timeseries_train_test_split (one_column "y" seven_hours) seven_hours
       (Num (1 # 10 ^ 17)) = Ok r /\
     (b <= 7)%nat /\ nrows (X_train r) = b /\ length (y_train r) = b /\
     nrows (X_test r) = (7 - b)%nat /\ length (y_test r) = (7 - b)%nat /\
     (((1 # 10 ^ 17) == 1)%Q -> b = 0%nat) /\
     (((1 # 10 ^ 17) == 0)%Q -> b = 7%nat)) /\
  test_index_of 7 (Num (1 # 10 ^ 17)) = Ok 7 /\
  Qfloor (inject_Z 7 * (1 - (1 # 10 ^ 17))) = 6.
Proof.
  split; [|split; vm_compute; reflexivity].
  apply (split_sizes (one_column "y" seven_hours) seven_hours (1 # 10 ^ 17)).
  - vm_compute. by intros [=].
  - reflexivity.
  - vm_compute. by intros [=].
  - vm_compute. by intros [=].
Defined.

(** X9. Whatever the test fraction, a split that returns loses, repeats and
    reorders nothing: the train part followed by the test part gives back
    the index, every column of [X], and [y]. *)
Theorem split_concat (X : DataFrame) (y : Series) (test_size : ext)
    (name : string) (r : Dataset) :
  timeseries_train_test_split X y test_size = Ok r ->
  index (X_train r) ++ index (X_test r) = index X /\
  get_column name (X_train r) ++ get_column name (X_test r)
    = get_column name X /\
  map fst (columns (X_train r)) = map fst (columns X) /\
  map fst (columns (X_test r)) = map fst (columns X) /\
  y_train r ++ y_test r = y.
Proof.
  unfold timeseries_train_test_split.
  destruct (test_index_of (nrows X) test_size) as [k|e]; [|done].
  cbn [result_bind]. intros [= <-].
  unfold X_train, X_test, y_train, y_test; simpl.
  rewrite get_column_slice_to, get_column_slice_from, !slice_to_from.
  rewrite !map_map. simpl. done.
Qed.

Lemma split_concat_witness :
  exists r : Dataset,
    timeseries_train_test_split (one_column "y" seven_hours) seven_hours
      (Num (3 # 2)) = Ok r /\
    nrows (X_train r) = 4%nat /\
    y_train r ++ y_test r = seven_hours.
Proof.
  eexists. split; [vm_compute; reflexivity|]. split; [reflexivity|].
  eapply (split_concat (one_column "y" seven_hours) seven_hours
            (Num (3 # 2)) "y").
  vm_compute. reflexivity.
Defined.

(** ** The columns of the frame built by [prepareData] *)

Lemma assign_absent name col (cs : list (string * list cell)) :
  name ∉ map fst cs -> assign name col cs = cs ++ [(name, col)].
Proof.
  induction cs as [|c cs IH]; intros Hn; simpl; [done|].
  apply not_elem_of_cons in Hn as [Hc Hn].
  destruct (String.eqb c.1 name) eqn:E.
  - apply String.eqb_eq in E. by destruct Hc.
  - by rewrite IH.
Qed.

Lemma columns_set_column n col d :
  columns (set_column n col d) = assign n col (columns d).
Proof. done. Qed.

Lemma columns_drop_columns names d :
  columns (drop_columns names d)
  = List.filter (fun c => negb (existsb (String.eqb c.1) names)) (columns d).
Proof. done. Qed.

Lemma py_range_NoDup a b : NoDup (py_range a b).
Proof.
  unfold py_range. apply NoDup_fmap_2; [|apply NoDup_seq].
  intros i j Hij. lia.
Qed.

Lemma lag_columns_names ys lags :
  map fst (lag_columns ys lags) = map lag_name lags.
Proof. unfold lag_columns. rewrite map_map. done. Qed.

Lemma fold_lags_columns (lags : list Z) (d : DataFrame) :
  NoDup lags ->
  (forall k, k ∈ lags -> lag_name k ∉ map fst (columns d)) ->
  columns (fold_left lag_step lags d)
  = columns d ++ lag_columns (get_column "y" d) lags.
Proof.
  revert d. induction lags as [|x lags IH]; intros d Hnd Hfresh; simpl.
  - by rewrite app_nil_r.
  - apply NoDup_cons in Hnd as [Hx Hnd].
    rewrite IH; [|done|].
    + unfold lag_step at 1 2. simpl columns.
      rewrite assign_absent by (apply Hfresh; left).
      rewrite get_set_ne by apply (plain_name_not_l "y" I).
      by rewrite <- app_assoc.
    + intros k Hk. unfold lag_step. simpl columns.
      rewrite assign_absent by (apply Hfresh; left).
      rewrite map_app. simpl. intros Hin.
      apply elem_of_app in Hin as [Hin|Hin].
      * revert Hin. apply Hfresh. by right.
      * apply list_elem_of_singleton in Hin.
        apply lag_name_inj in Hin. by subst.
Qed.

Lemma lag_name_not_in (n : string) (lags : list Z) :
  plain_name n -> n ∉ map lag_name lags.
Proof.
  intros Hn Hin. apply list_elem_of_fmap in Hin as (k & -> & _).
  by apply (Hn k).
Qed.

Ltac not_in_names :=
  simpl; let H := fresh in
  intros H; repeat (apply elem_of_cons in H as [H|H]; [discriminate H|]);
  by apply not_elem_of_nil in H.

Section Columns.
Variables (series : Series) (lag_start lag_end : Z).

Let idx := map fst series.
Let ys := map snd series.
Let lags := py_range lag_start lag_end.
Let hours := map (fun t => int_cell (hour_of t)) idx.
Let weekdays := map (fun t => int_cell (weekday_of t)) idx.

Lemma add_lags_columns :
  columns (add_lags lag_start lag_end (frame_of_series series))
  = ("y", ys) :: lag_columns ys lags.
Proof.
  rewrite add_lags_fold, fold_lags_columns.
  - done.
  - apply py_range_NoDup.
  - intros k _. simpl. intros Hin. apply list_elem_of_singleton in Hin.
    by apply (plain_name_not_l "y" I k).
Qed.

Lemma absent_after_lags (n : string) (tl : list (string * list cell)) :
  plain_name n -> n <> "y" -> n ∉ map fst tl ->
  n ∉ map fst ((("y", ys) :: lag_columns ys lags) ++ tl).
Proof.
  intros Hn Hy Htl. simpl. rewrite map_app, lag_columns_names.
  rewrite not_elem_of_cons, not_elem_of_app.
  pose proof (lag_name_not_in n lags Hn). naive_solver.
Qed.

Lemma calendar_frame_columns :
  columns (calendar_frame series lag_start lag_end)
  = (("y", ys) :: lag_columns ys lags)
    ++ [("hour", hours); ("weekday", weekdays);
        ("is_weekend", map isin_5_6 weekdays)].
Proof.
  pose proof (calendar_frame_weekday series lag_start lag_end) as Hw.
  unfold calendar_frame, add_calendar in *.
  set (d0 := add_lags lag_start lag_end (frame_of_series series)) in *.
  assert (index d0 = idx) as Hidx
    by (unfold d0; by rewrite add_lags_fold, fold_lags_index).
  assert (columns d0 = ("y", ys) :: lag_columns ys lags) as H0
    by apply add_lags_columns.
  set (d1 := set_column "hour" (map (fun t => int_cell (hour_of t)) (index d0)) d0)
    in *.
  assert (columns d1 = (("y", ys) :: lag_columns ys lags) ++ [("hour", hours)])
    as H1.
  { unfold d1. rewrite columns_set_column, H0, Hidx.
    apply assign_absent. rewrite <- (app_nil_r (_ :: _)).
    apply absent_after_lags; [plain|done|apply not_elem_of_nil]. }
  set (d2 := set_column "weekday"
               (map (fun t => int_cell (weekday_of t)) (index d1)) d1) in *.
  assert (columns d2 = (("y", ys) :: lag_columns ys lags)
                       ++ [("hour", hours); ("weekday", weekdays)]) as H2.
  { unfold d2. rewrite columns_set_column, H1.
    change (index d1) with (index d0). rewrite Hidx.
    rewrite assign_absent; [by rewrite <- app_assoc|].
    apply absent_after_lags; [plain|done|not_in_names]. }
  rewrite columns_set_column, H2.
  unfold d2 at 1. rewrite get_set_eq.
  change (index d1) with (index d0). rewrite Hidx.
  rewrite assign_absent; [by rewrite <- app_assoc|].
  apply absent_after_lags; [plain|done|not_in_names].
Qed.

End Columns.

Lemma filter_lag_columns (f : string -> bool) ys lags :
  (forall k, f (lag_name k) = true) ->
  List.filter (fun c : string * list cell => f c.1) (lag_columns ys lags)
  = lag_columns ys lags.
Proof.
  intros Hf. unfold lag_columns. induction lags as [|k lags IH]; simpl; [done|].
  by rewrite Hf, IH.
Qed.

Lemma keep_lag (names : list string) (k : Z) :
  Forall plain_name names ->
  negb (existsb (String.eqb (lag_name k)) names) = true.
Proof.
  intros Hn. apply negb_true_iff.
  induction Hn as [|n names Hn _ IH]; cbn [existsb]; [done|].
  rewrite IH, orb_false_r. apply String.eqb_neq, Hn.
Qed.

Section FeatureColumns.
Variables (series : Series) (lag_start lag_end : Z) (ke : Z).

Let idx := map fst series.
Let ys := map snd series.
Let lags := py_range lag_start lag_end.
Let weekdays := map (fun t => int_cell (weekday_of t)) idx.
Let base := calendar_frame series lag_start lag_end.

Lemma encoded_frame_columns :
  columns (features_at series lag_start lag_end ke true)
  = (("y", ys) :: lag_columns ys lags)
    ++ [("is_weekend", map isin_5_6 weekdays);
        ("weekday_average",
         get_column "weekday_average"
           (features_at series lag_start lag_end ke true));
        ("hour_average",
         get_column "hour_average"
           (features_at series lag_start lag_end ke true))].
Proof.
  assert (forall n d, n = "weekday_average" \/ n = "hour_average" ->
            get_column n (drop_columns ["hour"; "weekday"] d) = get_column n d)
    as Hkeep.
  { intros n d [-> | ->]; by apply get_column_drop. }
  unfold features_at, encoded_at. cbv zeta. fold base.
  rewrite !Hkeep by auto.
  rewrite (get_set_ne "hour_average" "weekday_average") by done.
  rewrite !get_set_eq.
  set (wa := map _ (get_column "weekday" base)).
  set (d1 := set_column "weekday_average" wa base).
  set (ha := map _ (get_column "hour" d1)).
  rewrite columns_drop_columns.
  assert (columns d1 = (("y", ys) :: lag_columns ys lags)
            ++ [("hour", map (fun t => int_cell (hour_of t)) idx);
                ("weekday", weekdays);
                ("is_weekend", map isin_5_6 weekdays);
                ("weekday_average", wa)]) as H1.
  { unfold d1. rewrite columns_set_column. unfold base.
    rewrite calendar_frame_columns.
    rewrite assign_absent; [by rewrite <- app_assoc|].
    apply absent_after_lags; [plain|done|not_in_names]. }
  rewrite columns_set_column, H1.
  rewrite assign_absent.
  2:{ apply absent_after_lags; [plain|done|not_in_names]. }
  rewrite <- app_assoc. rewrite List.filter_app. simpl List.filter at 1.
  rewrite (filter_lag_columns
             (fun n => negb (existsb (String.eqb n) ["hour"; "weekday"]))).
  2:{ intros k. apply keep_lag. repeat constructor; plain. }
  done.
Qed.

End FeatureColumns.

Lemma names_filter (f : string -> bool) (cs : list (string * list cell)) :
  map fst (List.filter (fun c => f c.1) cs) = List.filter f (map fst cs).
Proof.
  induction cs as [|c cs IH]; simpl; [done|].
  destruct (f c.1); simpl; by rewrite IH.
Qed.

Lemma filter_lag_names (f : string -> bool) (lags : list Z) :
  (forall k, f (lag_name k) = true) ->
  List.filter f (map lag_name lags) = map lag_name lags.
Proof.
  intros Hf. induction lags as [|k lags IH]; simpl; [done|].
  by rewrite Hf, IH.
Qed.

Lemma dropna_names d : map fst (columns (dropna d)) = map fst (columns d).
Proof. unfold dropna. simpl columns. rewrite map_map. by apply map_ext. Qed.

Lemma features_at_names series lag_start lag_end ke target_encoding :
  map fst (columns (features_at series lag_start lag_end ke
                      target_encoding))
  = "y" :: map lag_name (py_range lag_start lag_end)
    ++ calendar_names target_encoding.
Proof.
  destruct target_encoding.
  - rewrite encoded_frame_columns, map_app. simpl.
    by rewrite lag_columns_names.
  - unfold features_at. rewrite calendar_frame_columns, map_app. simpl.
    by rewrite lag_columns_names.
Qed.

Lemma cleaned_names series lag_start lag_end ke target_encoding :
  map fst (columns (drop_columns ["y"]
                      (dropna (features_at series lag_start lag_end ke
                                 target_encoding))))
  = map lag_name (py_range lag_start lag_end)
    ++ calendar_names target_encoding.
Proof.
  rewrite columns_drop_columns.
  rewrite (names_filter (fun n => negb (existsb (String.eqb n) ["y"]))).
  rewrite dropna_names, features_at_names. simpl List.filter.
  rewrite List.filter_app, filter_lag_names.
  - by destruct target_encoding.
  - intros k. apply (keep_lag ["y"] k). repeat constructor. plain.
Qed.

(** X10. The columns of the returned feature tables, in order: one column
    [lag_k] for every [k] of [range(lag_start, lag_end)] in ascending order,
    then [hour], [weekday], [is_weekend] (with target encoding:
    [is_weekend], [weekday_average], [hour_average]).  The names are
    pairwise different and the target column [y] is not among them. *)
Theorem feature_columns (series : Series) (lag_start lag_end : Z)
    (test_size : ext) (target_encoding : bool) (d : Dataset) :
  prepareData series lag_start lag_end test_size target_encoding = Ok d ->
  let names := map lag_name (py_range lag_start lag_end)
               ++ (if target_encoding
                   then ["is_weekend"; "weekday_average"; "hour_average"]
                   else ["hour"; "weekday"; "is_weekend"]) in
  map fst (columns (X_train d)) = names /\
  map fst (columns (X_test d)) = names /\
  NoDup names /\ "y" ∉ names.
Proof.
  intros Hd names.
  destruct (prepareData_inv _ _ _ _ _ _ Hd) as (ke & k & _ & _ & ->).
  pose proof (cleaned_names series lag_start lag_end ke target_encoding)
    as Hn. fold names in Hn.
  repeat split.
  - rewrite returned_X_train. unfold frame_slice_to. simpl columns.
    by rewrite map_map.
  - rewrite returned_X_test. unfold frame_slice_from. simpl columns.
    by rewrite map_map.
  - unfold names. apply NoDup_app. split; [|split].
    + apply NoDup_fmap_2; [|apply py_range_NoDup].
      intros i j. apply lag_name_inj.
    + intros n Hn1 Hn2. revert Hn1. apply lag_name_not_in.
      destruct target_encoding;
        repeat (apply elem_of_cons in Hn2 as [->|Hn2]; [plain|]);
        by apply not_elem_of_nil in Hn2.
    + destruct target_encoding; by apply (bool_decide_unpack _).
  - unfold names. apply not_elem_of_app. split.
    + apply lag_name_not_in. plain.
    + destruct target_encoding; by apply (bool_decide_unpack _).
Qed.

Lemma feature_columns_witness :
  exists d : Dataset,
    prepareData seven_hours 1 3 (Num (1 # 2)) true = Ok d /\
    map fst (columns (X_train d))
    = ["lag_1"; "lag_2"; "is_weekend"; "weekday_average"; "hour_average"].
Proof.
  assert (exists d, prepareData seven_hours 1 3 (Num (1 # 2)) true = Ok d)
    as [d Hd] by (eexists; vm_compute; reflexivity).
  exists d. split; [exact Hd|].
  destruct (feature_columns seven_hours 1 3 (Num (1 # 2)) true d Hd)
    as (H1 & _). exact H1.
Defined.

(** ** Which rows survive, and what they carry *)

Lemma mask_filter_seq_ge {A} (m a : nat) (l : list A) :
  mask_filter (map (fun p => bool_decide (m <= p)%nat) (seq a (length l))) l
  = drop (m - a) l.
Proof.
  revert a. induction l as [|x l IH]; intros a; simpl.
  - by rewrite drop_nil.
  - rewrite IH. case_bool_decide as Hma.
    + replace (m - a)%nat with 0%nat by lia.
      replace (m - S a)%nat with 0%nat by lia. done.
    + replace (m - a)%nat with (S (m - S a)) by lia. done.
Qed.

Lemma forallb_app_andb {A} (f : A -> bool) (l1 l2 : list A) :
  forallb f (l1 ++ l2) = forallb f l1 && forallb f l2.
Proof. induction l1 as [|x l1 IH]; simpl; [done|]. by rewrite IH, andb_assoc. Qed.

Lemma forallb_fmap {A B} (f : B -> bool) (g : A -> B) (l : list A) :
  forallb f (map g l) = forallb (fun x => f (g x)) l.
Proof. induction l as [|x l IH]; simpl; [done|]. by rewrite IH. Qed.

Lemma isin_5_6_int (w : Z) :
  isin_5_6 (int_cell w)
  = int_cell (if decide (w = 5 \/ w = 6) then 1 else 0).
Proof.
  unfold isin_5_6, int_cell. f_equal. f_equal.
  assert (forall a b : Z, Qeq_bool (inject_Z a) (inject_Z b) = Z.eqb a b) as HQ.
  { intros a b. destruct (Z.eqb_spec a b) as [->|Hne].
    - apply Qeq_bool_refl.
    - by apply Qeq_bool_inject_ne. }
  change 5%Q with (inject_Z 5). change 6%Q with (inject_Z 6). rewrite !HQ.
  destruct (Z.eqb_spec w 5), (Z.eqb_spec w 6); case_decide; simpl; lia.
Qed.

Section CompleteRows.
Variables (series : Series) (lag_start lag_end : Z) (ke : Z).
Hypothesis Hdef : Forall (fun pt : Z * cell => is_Some pt.2) series.
Hypothesis Hwin : 0 <= lag_start < lag_end.

Let data := features_at series lag_start lag_end ke false.

Lemma lookup_defined (p : nat) :
  (p < length series)%nat -> exists v, map snd series !! p = Some (Some v).
Proof.
  intros Hp. destruct (lookup_lt_is_Some_2 series p Hp) as [[t c] Hpt].
  rewrite Forall_forall in Hdef.
  destruct (Hdef (t, c)) as [v Hv]; [by eapply list_elem_of_lookup_2|].
  simpl in Hv. subst c. exists v. by rewrite list_lookup_fmap, Hpt.
Qed.

Lemma row_notna_threshold (p : nat) :
  (p < length series)%nat ->
  row_notna data p = bool_decide (Z.to_nat (lag_end - 1) <= p)%nat.
Proof.
  intros Hp. unfold row_notna, data, features_at.
  rewrite calendar_frame_columns. rewrite forallb_app_andb.
  assert (forall cs : list cell,
            length cs = length series -> Forall (fun c => notna c = true) cs ->
            match cs !! p with Some v => notna v | None => false end = true)
    as Hcal.
  { intros cs Hlen Hall.
    destruct (lookup_lt_is_Some_2 cs p) as [c Hc]; [lia|]. rewrite Hc.
    rewrite Forall_forall in Hall. by eapply Hall, list_elem_of_lookup_2. }
  assert (forallb
            (fun c : string * list cell =>
               match c.2 !! p with Some v => notna v | None => false end)
            [("hour", map (fun t => int_cell (hour_of t)) (map fst series));
             ("weekday", map (fun t => int_cell (weekday_of t)) (map fst series));
             ("is_weekend",
              map isin_5_6
                (map (fun t => int_cell (weekday_of t)) (map fst series)))]
          = true) as ->.
  { cbn [forallb snd].
    rewrite (Hcal (map (fun t => int_cell (hour_of t)) (map fst series)));
      [|by rewrite !length_map|by apply Forall_fmap, Forall_true].
    rewrite (Hcal (map (fun t => int_cell (weekday_of t)) (map fst series)));
      [|by rewrite !length_map|by apply Forall_fmap, Forall_true].
    rewrite (Hcal (map isin_5_6
                     (map (fun t => int_cell (weekday_of t)) (map fst series))));
      [done|by rewrite !length_map|by apply Forall_fmap, Forall_true]. }
  rewrite andb_true_r. simpl forallb.
  destruct (lookup_defined p Hp) as [v Hv]. rewrite Hv. simpl notna.
  rewrite andb_true_l. unfold lag_columns. rewrite forallb_fmap.
  apply eq_true_iff_eq. rewrite forallb_forall, bool_decide_eq_true.
  assert (forall k, lag_start <= k < lag_end ->
            (match shift k (map snd series) !! p with
             | Some c => notna c | None => false end = true <-> k <= Z.of_nat p))
    as Hlag.
  { intros k Hk. rewrite shift_lookup by (by rewrite length_map).
    destruct (Z.leb_spec 0 (Z.of_nat p - k)) as [Hle|Hgt].
    - destruct (lookup_defined (Z.to_nat (Z.of_nat p - k))) as [w Hw]; [lia|].
      rewrite Hw. simpl. split; [lia|done].
    - simpl. split; [done|lia]. }
  split.
  - intros Hall. specialize (Hall (lag_end - 1)).
    apply Hlag in Hall; [lia|lia|].
    apply list_elem_of_In, py_range_elem_of. lia.
  - intros Hge k Hk. apply list_elem_of_In, py_range_elem_of in Hk.
    simpl. apply Hlag; lia.
Qed.

Lemma complete_rows_filter {A} (l : list A) :
  length l = length series ->
  mask_filter (dropna_mask data) l = drop (Z.to_nat (lag_end - 1)) l.
Proof.
  intros Hlen. unfold dropna_mask. unfold data at 2.
  rewrite features_at_nrows.
  rewrite <- (Nat.sub_0_r (Z.to_nat (lag_end - 1))).
  rewrite <- (mask_filter_seq_ge (Z.to_nat (lag_end - 1)) 0 l).
  rewrite Hlen. f_equal. apply map_ext_in. intros p Hp.
  apply in_seq in Hp. apply row_notna_threshold. lia.
Qed.

Lemma complete_rows_index :
  index (dropna data) = drop (Z.to_nat (lag_end - 1)) (map fst series).
Proof.
  change (index (dropna data))
    with (mask_filter (dropna_mask data) (index data)).
  unfold data at 2. rewrite features_at_index.
  apply complete_rows_filter. by rewrite length_map.
Qed.

End CompleteRows.

Lemma combine_fst_snd {A B} (l : list (A * B)) :
  combine (map fst l) (map snd l) = l.
Proof. induction l as [|[a b] l IH]; simpl; [done|]. by rewrite IH. Qed.

Lemma combine_drop {A B} (n : nat) (l1 : list A) (l2 : list B) :
  combine (drop n l1) (drop n l2) = drop n (combine l1 l2).
Proof.
  revert l1 l2. induction n as [|n IH]; intros [|a l1] [|b l2]; simpl; try done.
  by destruct (drop n l1).
Qed.

(** X11. On a series without missing values and a window
    [0 <= lag_start < lag_end], without target encoding, the rows removed by
    [dropna] are exactly the first [lag_end - 1] rows: the returned parts,
    train then test, are the rows of the series from position
    [lag_end - 1] on, so [len(series) - (lag_end - 1)] rows, and none when
    the series is that short. *)
Theorem lag_complete_rows (series : Series) (lag_start lag_end : Z)
    (test_size : ext) (d : Dataset) :
  Forall (fun pt : Z * cell => is_Some pt.2) series ->
  0 <= lag_start < lag_end ->
  prepareData series lag_start lag_end test_size false = Ok d ->
  index (X_train d) ++ index (X_test d)
    = drop (Z.to_nat (lag_end - 1)) (map fst series) /\
  y_train d ++ y_test d = drop (Z.to_nat (lag_end - 1)) series /\
  (nrows (X_train d) + nrows (X_test d)
   = length series - Z.to_nat (lag_end - 1))%nat.
Proof.
  intros Hdef Hwin Hd.
  destruct (prepareData_inv _ _ _ _ _ _ Hd) as (ke & k & _ & _ & ->).
  pose proof (complete_rows_index series lag_start lag_end ke Hdef Hwin)
    as Hidx.
  set (d := dataset_at k (features_at series lag_start lag_end ke false)).
  assert (index (X_train d) ++ index (X_test d)
          = drop (Z.to_nat (lag_end - 1)) (map fst series)) as Hparts.
  { unfold d. by rewrite returned_index. }
  split; [done|]. split.
  - unfold d. rewrite returned_y. unfold column_series.
    rewrite Hidx, get_column_dropna, features_at_y.
    rewrite (complete_rows_filter series lag_start lag_end ke Hdef Hwin)
      by (by rewrite length_map).
    rewrite <- (combine_fst_snd series) at 3.
    by rewrite combine_drop.
  - unfold nrows. rewrite <- length_app, Hparts, length_drop, length_map. done.
Qed.

Lemma lag_complete_rows_witness :
  exists d : Dataset,
    prepareData seven_hours 1 3 (Num (1 # 2)) false = Ok d /\
    index (X_train d) ++ index (X_test d) = drop 2 (map fst seven_hours) /\
    y_train d ++ y_test d = drop 2 seven_hours /\
    (nrows (X_train d) + nrows (X_test d) = 5)%nat.
Proof.
  assert (exists d, prepareData seven_hours 1 3 (Num (1 # 2)) false = Ok d)
    as [d Hd] by (eexists; vm_compute; reflexivity).
  exists d. split; [exact Hd|].
  apply (lag_complete_rows seven_hours 1 3 (Num (1 # 2)) d).
  - repeat constructor; by eexists.
  - lia.
  - exact Hd.
Defined.

(** ** The returned targets *)

Lemma mask_filter_combine {A B} (m : list bool) (l1 : list A) (l2 : list B) :
  combine (mask_filter m l1) (mask_filter m l2) = mask_filter m (combine l1 l2).
Proof.
  revert l1 l2. induction m as [|b m IH]; intros [|x l1] [|y l2]; simpl;
    try done.
  - destruct b; simpl; [done|]. by destruct (mask_filter m l1).
  - destruct b; simpl; by rewrite IH.
Qed.

Lemma mask_filter_sublist {A} (m : list bool) (l : list A) :
  sublist (mask_filter m l) l.
Proof.
  revert l. induction m as [|b m IH]; intros [|x l]; simpl;
    try apply sublist_nil_l.
  destruct b; [apply sublist_skip|apply sublist_cons]; apply IH.
Qed.

Lemma cleaned_targets (series : Series) (lag_start lag_end : Z)
    (ke : Z) (target_encoding : bool) :
  column_series "y"
    (dropna (features_at series lag_start lag_end ke target_encoding))
  = mask_filter
      (dropna_mask
         (features_at series lag_start lag_end ke target_encoding))
      series.
Proof.
  unfold column_series. rewrite get_column_dropna, features_at_y.
  change (index (dropna ?d)) with (mask_filter (dropna_mask d) (index d)).
  rewrite features_at_index, mask_filter_combine.
  by rewrite combine_fst_snd.
Qed.

(** X12. The targets handed back are points of the series itself, in the
    order of the series and none of them missing; each target table carries
    the timestamps of its feature table, row by row. *)
Theorem returned_targets (series : Series) (lag_start lag_end : Z)
    (test_size : ext) (target_encoding : bool) (d : Dataset) :
  prepareData series lag_start lag_end test_size target_encoding = Ok d ->
  sublist (y_train d ++ y_test d) series /\
  Forall (fun pt : Z * cell => is_Some pt.2) (y_train d ++ y_test d) /\
  map fst (y_train d) = index (X_train d) /\
  map fst (y_test d) = index (X_test d).
Proof.
  intros Hd.
  destruct (prepareData_inv _ _ _ _ _ _ Hd) as (ke & k & _ & _ & ->).
  rewrite returned_y, cleaned_targets.
  set (data := features_at _ _ _ _ _).
  split; [apply mask_filter_sublist|]. split.
  - apply Forall_forall. intros [t c] Hin.
    apply mask_filter_elem_of in Hin as (p & Hp & Hm).
    apply dropna_mask_lookup in Hm as [Hm _].
    assert (get_column "y" data !! p = Some c) as Hc.
    { unfold data. by rewrite features_at_y, list_lookup_fmap, Hp. }
    pose proof (row_notna_column data p "y" c (eq_sym Hm) Hc) as Hn.
    destruct c; [by eexists|done].
  - pose proof (final_y_index series lag_start lag_end ke
                  target_encoding) as Hidx.
    pose proof (final_y_length series lag_start lag_end ke
                  target_encoding) as Hlen.
    subst data.
    rewrite returned_y_train, returned_y_test, returned_X_train,
      returned_X_test.
    change (index (frame_slice_to ?k (drop_columns ?n ?X)))
      with (slice_to k (index X)).
    change (index (frame_slice_from ?k (drop_columns ?n ?X)))
      with (slice_from k (index X)).
    unfold slice_to, slice_from.
    rewrite <- (firstn_map fst), <- (skipn_map fst), Hidx, Hlen. done.
Qed.

Lemma returned_targets_witness :
  exists d : Dataset,
    prepareData seven_hours 1 3 (Num (1 # 2)) true = Ok d /\
    sublist (y_train d ++ y_test d) seven_hours /\
    map fst (y_test d) = index (X_test d).
Proof.
  assert (exists d, prepareData seven_hours 1 3 (Num (1 # 2)) true = Ok d)
    as [d Hd] by (eexists; vm_compute; reflexivity).
  exists d. split; [exact Hd|].
  destruct (returned_targets seven_hours 1 3 (Num (1 # 2)) true d Hd)
    as (H1 & _ & _ & H4).
  split; [exact H1|exact H4].
Defined.

(** ** The cells of a returned row *)

(** A row of a returned feature table is a row of [data] without NaN, and
    carries that row's cells. *)
Lemma returned_cell (series : Series) (lag_start lag_end : Z) (ke k : Z)
    (target_encoding : bool) (n : string) (X : DataFrame) (j : nat) (t : Z) :
  existsb (String.eqb n) ["y"] = false ->
  has_column n
    (features_at series lag_start lag_end ke target_encoding) = true ->
  X = X_train
        (dataset_at k
           (features_at series lag_start lag_end ke target_encoding)) \/
  X = X_test
        (dataset_at k
           (features_at series lag_start lag_end ke target_encoding)) ->
  index X !! j = Some t ->
  exists p : nat,
    map fst series !! p = Some t /\
    row_notna
      (features_at series lag_start lag_end ke target_encoding) p
      = true /\
    get_column n X !! j
    = get_column n
        (features_at series lag_start lag_end ke target_encoding) !! p.
Proof.
  intros Hn Hhas HX Hj.
  set (data := features_at series lag_start lag_end ke
                 target_encoding) in *.
  set (X0 := drop_columns ["y"] (dropna data)).
  assert (length (get_column n X0) = nrows X0) as Hlen.
  { apply wf_get_column; [apply wf_cleaned|].
    unfold X0. by rewrite has_drop, has_column_dropna, Hhas, Hn. }
  assert (exists j', index X0 !! j' = Some t /\
            get_column n X !! j = get_column n X0 !! j') as (j' & Hj' & Hc).
  { destruct HX as [-> | ->].
    - by apply slice_to_row_of.
    - by apply slice_from_row_of. }
  assert (length (get_column n data) = nrows data) as Hlen'
    by (apply wf_get_column; [apply wf_features_at|done]).
  destruct (dropna_row_of n data j' t Hlen' Hj') as (p & Hp & Hrow & Hc').
  exists p. unfold data in Hp. rewrite features_at_index in Hp.
  split; [done|]. split; [done|].
  rewrite Hc. unfold X0. by rewrite get_column_drop.
Qed.

Lemma calendar_frame_is_weekend (series : Series) (lag_start lag_end : Z) :
  get_column "is_weekend" (calendar_frame series lag_start lag_end)
  = map (fun t => int_cell (if decide (weekday_of t = 5 \/ weekday_of t = 6)
                            then 1 else 0))
        (map fst series).
Proof.
  unfold calendar_frame, add_calendar. rewrite get_set_eq, get_set_eq.
  change (index (set_column ?n ?c ?d)) with (index d).
  rewrite add_lags_fold, fold_lags_index. simpl index.
  rewrite map_map. apply map_ext. intros t. apply isin_5_6_int.
Qed.

Lemma features_at_is_weekend (series : Series) (lag_start lag_end : Z)
    (ke : Z) (target_encoding : bool) :
  get_column "is_weekend"
    (features_at series lag_start lag_end ke target_encoding)
  = map (fun t => int_cell (if decide (weekday_of t = 5 \/ weekday_of t = 6)
                            then 1 else 0))
        (map fst series).
Proof.
  unfold features_at.
  destruct target_encoding; [rewrite encoded_at_other by done|];
    apply calendar_frame_is_weekend.
Qed.

Lemma has_feature_is_weekend (series : Series) (lag_start lag_end : Z)
    (ke : Z) (target_encoding : bool) :
  has_column "is_weekend"
    (features_at series lag_start lag_end ke target_encoding) = true.
Proof.
  unfold features_at, calendar_frame. destruct target_encoding.
  - unfold encoded_at. by rewrite has_drop, !has_set, has_add_calendar.
  - by rewrite has_add_calendar.
Qed.

(** X13. The calendar features of a returned row are those of the row's own
    timestamp [t]: [is_weekend] is 1 when the weekday of [t] is 5 or 6 and 0
    otherwise; without target encoding [hour] is the hour of [t], between 0
    and 23, and [weekday] its weekday, between 0 and 6. *)
Theorem calendar_features (series : Series) (lag_start lag_end : Z)
    (test_size : ext) (target_encoding : bool) (d : Dataset) (X : DataFrame)
    (j : nat) (t : Z) :
  prepareData series lag_start lag_end test_size target_encoding = Ok d ->
  X = X_train d \/ X = X_test d ->
  index X !! j = Some t ->
  get_column "is_weekend" X !! j
  = Some (int_cell (if decide (weekday_of t = 5 \/ weekday_of t = 6)
                    then 1 else 0)) /\
  (target_encoding = false ->
   get_column "hour" X !! j = Some (int_cell (hour_of t)) /\
   get_column "weekday" X !! j = Some (int_cell (weekday_of t)) /\
   0 <= hour_of t < 24 /\ 0 <= weekday_of t < 7).
Proof.
  intros Hd HX Hj.
  destruct (prepareData_inv _ _ _ _ _ _ Hd) as (ke & k & _ & _ & ->).
  split.
  - destruct (returned_cell series lag_start lag_end ke k target_encoding
                "is_weekend" X j t) as (p & Hp & _ & ->);
      [done|apply has_feature_is_weekend|done|done|].
    rewrite features_at_is_weekend, list_lookup_fmap, Hp. done.
  - intros ->. split; [|split].
    + destruct (returned_cell series lag_start lag_end ke k false
                  "hour" X j t) as (p & Hp & _ & ->);
        [done|by apply has_calendar_frame; auto|done|done|].
      unfold features_at.
      rewrite calendar_frame_hour, list_lookup_fmap, Hp. done.
    + destruct (returned_cell series lag_start lag_end ke k false
                  "weekday" X j t) as (p & Hp & _ & ->);
        [done|by apply has_calendar_frame; auto|done|done|].
      unfold features_at.
      rewrite calendar_frame_weekday, list_lookup_fmap, Hp. done.
    + unfold hour_of, weekday_of. split; apply Z.mod_pos_bound; lia.
Qed.

Lemma calendar_features_witness :
  exists d : Dataset,
    prepareData seven_hours 1 3 (Num (1 # 2)) false = Ok d /\
    index (X_test d) !! 0%nat = Some (4 * ns_per_hour) /\
    get_column "is_weekend" (X_test d) !! 0%nat = Some (int_cell 0) /\
    get_column "hour" (X_test d) !! 0%nat = Some (int_cell 4) /\
    get_column "weekday" (X_test d) !! 0%nat = Some (int_cell 3).
Proof.
  destruct (prepareData seven_hours 1 3 (Num (1 # 2)) false) as [d|e] eqn:Hd;
    [|vm_compute in Hd; discriminate].
  assert (index (X_test d) !! 0%nat = Some (4 * ns_per_hour)) as Hi.
  { vm_compute in Hd. injection Hd as <-. reflexivity. }
  exists d. split; [reflexivity|]. split; [exact Hi|].
  destruct (calendar_features seven_hours 1 3 (Num (1 # 2)) false d
              (X_test d) 0%nat (4 * ns_per_hour) Hd) as (Hw & Hc);
    [by right|exact Hi|].
  destruct (Hc eq_refl) as (Hh & Hday & _).
  split; [exact Hw|]. split; [exact Hh|exact Hday].
Defined.

(** ** The encoded features of a returned row *)

Lemma key_matches_int (a b : Z) :
  key_matches (inject_Z a) (int_cell b) = (b =? a).
Proof.
  unfold key_matches, int_cell. destruct (Z.eqb_spec b a) as [->|Hne].
  - apply Qeq_bool_refl.
  - by apply Qeq_bool_inject_ne.
Qed.

Lemma group_filter (f : Z -> Z) (t : Z) (k : Z) (s : Series) :
  mask_filter
    (map (key_matches (inject_Z (f t)))
       (slice_to k (map (fun t => int_cell (f t)) (map fst s))))
    (slice_to k (map snd s))
  = group_targets f t (slice_to k s).
Proof.
  rewrite !slice_to_map. unfold group_targets.
  induction (slice_to k s) as [|[t' c] l IH]; [done|].
  cbn [map mask_filter List.filter fst snd].
  rewrite key_matches_int, IH. by destruct (f t' =? f t).
Qed.

Lemma has_feature_encoded (series : Series) (lag_start lag_end : Z)
    (ke : Z) (n : string) :
  n = "weekday_average" \/ n = "hour_average" ->
  has_column n (features_at series lag_start lag_end ke true) = true.
Proof.
  unfold features_at, encoded_at.
  intros [-> | ->]; by rewrite has_drop, !has_set.
Qed.

(** X14. With target encoding, the [weekday_average] of a returned row with
    timestamp [t] is the mean of the targets, NaN skipped, of the rows of
    the series before the encoding boundary that have the weekday of [t];
    [hour_average] is the same for the hour.  The encoding boundary is
    [int(len(data.dropna()) * (1 - test_size))], the product taken in
    binary64, counted on the frame before the encoded columns are added.
    Both features are numbers: a row whose group has no target before the
    boundary is not returned. *)
Theorem encoded_features (series : Series) (lag_start lag_end : Z)
    (test_size : ext) (d : Dataset) (X : DataFrame) (j : nat) (t : Z) :
  prepareData series lag_start lag_end test_size true = Ok d ->
  X = X_train d \/ X = X_test d ->
  index X !! j = Some t ->
  exists (ke : Z) (w h : Q),
    encoding_index test_size (calendar_frame series lag_start lag_end)
      = Ok ke /\
    get_column "weekday_average" X !! j = Some (Some w) /\
    nanmean (group_targets weekday_of t (slice_to ke series)) = Some w /\
    get_column "hour_average" X !! j = Some (Some h) /\
    nanmean (group_targets hour_of t (slice_to ke series)) = Some h.
Proof.
  intros Hd HX Hj.
  destruct (prepareData_inv _ _ _ _ _ _ Hd) as (ke & k & Hke & _ & ->).
  specialize (Hke eq_refl).
  destruct (returned_cell series lag_start lag_end ke k true
              "weekday_average" X j t) as (p & Hp & Hrow & Hw);
    [done|apply has_feature_encoded; auto|done|done|].
  destruct (returned_cell series lag_start lag_end ke k true
              "hour_average" X j t) as (p' & Hp' & Hrow' & Hh);
    [done|apply has_feature_encoded; auto|done|done|].
  assert (get_column "weekday_average"
            (features_at series lag_start lag_end ke true) !! p
          = Some (nanmean
                    (group_targets weekday_of t (slice_to ke series))))
    as Hwv.
  { unfold features_at. rewrite encoded_at_weekday.
    unfold group_means.
    rewrite !get_column_slice_to, calendar_frame_weekday, calendar_frame_y.
    do 2 rewrite list_lookup_fmap. rewrite Hp.
    cbn [fmap option_fmap option_map]. f_equal. unfold int_cell.
    rewrite dict_get_groupby_mean. by rewrite group_filter. }
  assert (get_column "hour_average"
            (features_at series lag_start lag_end ke true) !! p'
          = Some (nanmean (group_targets hour_of t (slice_to ke series))))
    as Hhv.
  { unfold features_at. rewrite encoded_at_hour.
    unfold group_means.
    rewrite !get_column_slice_to, calendar_frame_hour, calendar_frame_y.
    do 2 rewrite list_lookup_fmap. rewrite Hp'.
    cbn [fmap option_fmap option_map]. f_equal. unfold int_cell.
    rewrite dict_get_groupby_mean. by rewrite group_filter. }
  pose proof (row_notna_column _ _ _ _ Hrow Hwv) as Hnw.
  pose proof (row_notna_column _ _ _ _ Hrow' Hhv) as Hnh.
  destruct (nanmean (group_targets weekday_of t _)) as [w|] eqn:Ew; [|done].
  destruct (nanmean (group_targets hour_of t _)) as [h|] eqn:Eh; [|done].
  exists ke, w, h. by rewrite Hw, Hh.
Qed.

(** Ninety lag-complete hourly rows with fraction 0.3: the encoding boundary
    is 62, so the mean of hour 14 is taken over hours 14 and 38. *)
Lemma encoded_features_witness :
  exists d : Dataset,
    prepareData ninety_two_hours 1 3 (Num (3 # 10)) true = Ok d /\
    index (X_train d) !! 12%nat = Some (14 * ns_per_hour) /\
    get_column "hour_average" (X_train d) !! 12%nat = Some (Some 26%Q) /\
    encoding_index (Num (3 # 10)) (calendar_frame ninety_two_hours 1 3)
      = Ok 62 /\
    exists (ke : Z) (w h : Q),
      encoding_index (Num (3 # 10)) (calendar_frame ninety_two_hours 1 3)
        = Ok ke /\
      get_column "weekday_average" (X_train d) !! 12%nat = Some (Some w) /\
      nanmean (group_targets weekday_of (14 * ns_per_hour)
                 (slice_to ke ninety_two_hours)) = Some w /\
      get_column "hour_average" (X_train d) !! 12%nat = Some (Some h) /\
      nanmean (group_targets hour_of (14 * ns_per_hour)
                 (slice_to ke ninety_two_hours)) = Some h.
Proof.
  destruct (prepareData ninety_two_hours 1 3 (Num (3 # 10)) true)
    as [d|e] eqn:Hd; [|vm_compute in Hd; discriminate].
  assert (index (X_train d) !! 12%nat = Some (14 * ns_per_hour) /\
          get_column "hour_average" (X_train d) !! 12%nat = Some (Some 26%Q))
    as [Hi Hh].
  { vm_compute in Hd. injection Hd as <-. split; reflexivity. }
  exists d. split; [reflexivity|]. split; [exact Hi|]. split; [exact Hh|].
  split; [vm_compute; reflexivity|].
  apply (encoded_features ninety_two_hours 1 3 (Num (3 # 10)) d (X_train d)
           12%nat (14 * ns_per_hour) Hd).
  - by left.
  - exact Hi.
Defined.

(** ** A frame that does not have exactly one column *)

(** X15. [data.columns = ["y"]] needs a frame with exactly one column: on
    any other frame the call raises [ValueError] whatever the other
    arguments are, right after the copy was made; the store then holds the
    caller's frames as they were and the copy, and no feature is computed. *)
Theorem column_count_checked (h : gmap loc DataFrame) (series : loc)
    (lag_start lag_end : Z) (test_size : ext) (target_encoding : bool)
    (df : DataFrame) :
  h !! series = Some df ->
  length (columns df) <> 1%nat ->
  prepareData_st series lag_start lag_end test_size target_encoding h
  = (Raise ValueError, <[fresh (dom h) := df]> h).
Proof.
  intros Hs Hn. unfold prepareData_st.
  erewrite bind_ok; [|by unfold load; rewrite Hs].
  erewrite bind_ok; [|done].
  unfold bind at 1. unfold update. rewrite lookup_insert_eq.
  unfold set_names.
  destruct (Nat.eqb_spec (length ["y"]) (length (columns df))) as [E|_];
    [|done].
  simpl in E. congruence.
Qed.

Lemma column_count_checked_witness :
  prepareData_st 1%positive 1 3 (Num (1 # 2)) false two_column_store
  = (Raise ValueError,
     <[fresh (dom two_column_store) := two_columns]> two_column_store).
Proof.
  apply column_count_checked.
  - reflexivity.
  - simpl. lia.
Defined.

(** ** The metric *)

Lemma Qeq_bool_false (a b : Q) : ~ (a == b)%Q -> Qeq_bool a b = false.
Proof.
  intros Hne. destruct (Qeq_bool a b) eqn:E; [|done].
  by apply Qeq_bool_iff in E.
Qed.

Lemma ape_term (y p : Q) :
  ~ (y == 0)%Q ->
  exists q, ext_abs (ext_div (ext_sub (Num y) (Num p)) (Num y)) = Num q /\
            (q == ape y p)%Q.
Proof.
  intros Hy. unfold ext_sub, ext_neg, ext_add, ext_div, ext_abs, num.
  rewrite (Qeq_bool_false _ _ Hy). eexists. split; [done|].
  rewrite !Qred_correct. unfold ape, Qdiv.
  rewrite Qabs_Qmult, Qabs_Qinv. done.
Qed.

Lemma ape_terms (ys ps : list Q) :
  Forall (fun y => ~ (y == 0)%Q) ys ->
  Forall2 (fun x q => exists q', x = Num q' /\ (q' == q)%Q)
    (map ext_abs
       (zip_with ext_div (zip_with ext_sub (map Num ys) (map Num ps))
          (map Num ys)))
    (zip_with ape ys ps).
Proof.
  intros Hys. revert ps.
  induction Hys as [|y ys Hy Hys IH]; intros [|p ps]; try constructor.
  - by apply ape_term.
  - apply IH.
Qed.

Lemma ext_sum_numbers (xs : list ext) (qs : list Q) :
  Forall2 (fun x q => exists q', x = Num q' /\ (q' == q)%Q) xs qs ->
  exists s, fold_right ext_add (Num 0) xs = Num s /\ (s == Qsum qs)%Q.
Proof.
  induction 1 as [|x q xs qs (q' & -> & Hq) _ (s & Hs & Es)]; simpl.
  - by exists 0%Q.
  - rewrite Hs. simpl. eexists. split; [done|].
    unfold num. by rewrite Qred_correct, Hq, Es.
Qed.

Lemma np_mean_numbers (xs : list ext) (qs : list Q) :
  xs <> [] ->
  Forall2 (fun x q => exists q', x = Num q' /\ (q' == q)%Q) xs qs ->
  exists m, np_mean xs = Num m /\
            (m == Qsum qs / inject_Z (Z.of_nat (length qs)))%Q.
Proof.
  intros Hne HF. destruct (ext_sum_numbers xs qs HF) as (s & Hs & Es).
  pose proof (Forall2_length _ _ _ HF) as Hlen.
  destruct xs as [|x xs]; [done|]. unfold np_mean. rewrite Hs.
  unfold ext_div. rewrite Qeq_bool_false.
  - eexists. split; [done|]. unfold num. by rewrite Qred_correct, Es, Hlen.
  - unfold Qeq. simpl. lia.
Qed.

Lemma numbers_not_nan (xs : list ext) (qs : list Q) :
  Forall2 (fun x q => exists q', x = Num q' /\ (q' == q)%Q) xs qs ->
  List.filter (fun x => negb (is_nan x)) xs = xs.
Proof.
  induction 1 as [|x q xs qs (q' & -> & _) _ IH]; simpl; [done|].
  by rewrite IH.
Qed.

Lemma np_mean_of_numbers (c : container) (xs : list ext) (qs : list Q) :
  Forall2 (fun x q => exists q', x = Num q' /\ (q' == q)%Q) xs qs ->
  np_mean_of c xs = np_mean xs.
Proof.
  intros HF. destruct c; [done|]. unfold np_mean_of.
  by rewrite (numbers_not_nan xs qs HF).
Qed.

(** The value of the metric on numbers, none of the reference values
    zero: what holds the quotients makes no difference. *)
Lemma mape_numbers (c : container) (ys ps : list Q) :
  ys <> [] -> length ys = length ps ->
  Forall (fun y => ~ (y == 0)%Q) ys ->
  exists q,
    mean_absolute_percentage_error c (map Num ys) (map Num ps)
      = Num (Qred q) /\
    (q == Qsum (zip_with ape ys ps) / inject_Z (Z.of_nat (length ys)) * 100)%Q.
Proof.
  intros Hne Hlen Hys. unfold mean_absolute_percentage_error.
  assert (map ext_abs
            (zip_with ext_div (zip_with ext_sub (map Num ys) (map Num ps))
               (map Num ys)) <> []) as Hterms.
  { destruct ys as [|y ys]; [done|]. by destruct ps as [|p ps]. }
  rewrite (np_mean_of_numbers c _ _ (ape_terms ys ps Hys)).
  destruct (np_mean_numbers _ _ Hterms (ape_terms ys ps Hys))
    as (m & -> & Em).
  simpl. unfold num. eexists. split; [done|].
  rewrite Em. rewrite length_zip_with, <- Hlen, Nat.min_id. done.
Qed.

Lemma ape_nonneg (y p : Q) : (0 <= ape y p)%Q.
Proof.
  unfold ape, Qdiv. apply Qmult_le_0_compat; [apply Qabs_nonneg|].
  apply Qinv_le_0_compat, Qabs_nonneg.
Qed.

Lemma Qabs_zero (x : Q) : (Qabs x == 0)%Q -> (x == 0)%Q.
Proof.
  intros H. apply Qle_antisym.
  - rewrite <- H. apply Qle_Qabs.
  - rewrite <- (Qopp_involutive x). rewrite <- Qabs_opp in H.
    setoid_replace 0%Q with (- 0)%Q using relation Qeq by ring.
    apply Qopp_le_compat. rewrite <- H. apply Qle_Qabs.
Qed.

Lemma ape_zero (y p : Q) : ~ (y == 0)%Q -> (ape y p == 0)%Q <-> (y == p)%Q.
Proof.
  intros Hy. unfold ape.
  assert (~ (Qabs y == 0)%Q) as Hay by (intros E; by apply Hy, Qabs_zero).
  split.
  - intros E.
    assert (Qabs (y - p) == 0)%Q as E'.
    { rewrite <- (Qmult_div_r (Qabs (y - p)) (Qabs y)) by done.
      rewrite E. apply Qmult_0_r. }
    apply Qabs_zero in E'.
    setoid_replace y with ((y - p) + p)%Q using relation Qeq by ring.
    rewrite E'. ring.
  - intros E. rewrite E.
    setoid_replace (p - p)%Q with 0%Q using relation Qeq by ring.
    change (Qabs 0) with 0%Q. unfold Qdiv. apply Qmult_0_l.
Qed.

Lemma Qsum_nonneg (l : list Q) : Forall (fun q => 0 <= q)%Q l -> (0 <= Qsum l)%Q.
Proof.
  induction 1 as [|q l Hq _ IH]; [done|].
  change (Qsum (q :: l)) with (q + Qsum l)%Q.
  setoid_replace 0%Q with (0 + 0)%Q using relation Qeq by ring.
  by apply Qplus_le_compat.
Qed.

Lemma Qsum_zero (l : list Q) :
  Forall (fun q => 0 <= q)%Q l ->
  (Qsum l == 0)%Q <-> Forall (fun q => q == 0)%Q l.
Proof.
  induction 1 as [|q l Hq Hl IH]; [done|].
  change (Qsum (q :: l)) with (q + Qsum l)%Q.
  pose proof (Qsum_nonneg l Hl) as Hs. split.
  - intros E.
    assert (q == 0)%Q as Eq.
    { apply Qle_antisym; [|done]. rewrite <- E.
      setoid_replace q with (q + 0)%Q using relation Qeq at 1 by ring.
      by apply Qplus_le_compat; [apply Qle_refl|]. }
    constructor; [done|]. apply IH. rewrite Eq in E. rewrite <- E. ring.
  - intros HF. inversion HF as [|? ? Eq Hl']; subst.
    apply IH in Hl'. rewrite Eq, Hl'. ring.
Qed.

Lemma ape_all_zero (ys ps : list Q) :
  length ys = length ps ->
  Forall (fun y => ~ (y == 0)%Q) ys ->
  Forall (fun q => q == 0)%Q (zip_with ape ys ps) <-> Forall2 Qeq ys ps.
Proof.
  intros Hlen Hys. revert ps Hlen.
  induction Hys as [|y ys Hy Hys IH]; intros [|p ps] Hlen; try done.
  simpl in Hlen. injection Hlen as Hlen. simpl. split.
  - intros HF. inversion HF as [|? ? E HF']; subst.
    constructor; [by apply ape_zero|by apply IH].
  - intros HF. inversion HF as [|? ? ? ? E HF']; subst.
    constructor; [by apply ape_zero|by apply IH].
Qed.

Lemma inject_length_pos {A} (l : list A) :
  l <> [] -> (0 < inject_Z (Z.of_nat (length l)))%Q.
Proof. destruct l; [done|]. intros _. unfold Qlt. simpl. lia. Qed.

(** X17. On numbers, with as many predictions as reference values and no
    reference value zero, the metric is exactly 0 when every prediction
    equals its reference value, and only then; this holds on arrays and on
    pandas Series alike. *)
Theorem mape_zero_iff_exact (c : container) (y_true y_pred : list Q) :
  y_true <> [] -> length y_true = length y_pred ->
  Forall (fun y => ~ (y == 0)%Q) y_true ->
  mean_absolute_percentage_error c (map Num y_true) (map Num y_pred) = Num 0
  <-> Forall2 Qeq y_true y_pred.
Proof.
  intros Hne Hlen Hys.
  destruct (mape_numbers c y_true y_pred Hne Hlen Hys) as (q & -> & Eq).
  pose proof (inject_length_pos y_true Hne) as Hn.
  assert (Forall (fun q => 0 <= q)%Q (zip_with ape y_true y_pred)) as Hnn.
  { clear. revert y_pred.
    induction y_true as [|y ys IH]; intros [|p ps]; simpl; try constructor.
    - apply ape_nonneg.
    - apply IH. }
  rewrite <- (ape_all_zero y_true y_pred Hlen Hys), <- (Qsum_zero _ Hnn).
  split.
  - intros E. injection E as E.
    assert (q == 0)%Q as E0 by (rewrite <- (Qred_correct q); by rewrite E).
    rewrite Eq in E0.
    assert (Qsum (zip_with ape y_true y_pred)
              / inject_Z (Z.of_nat (length y_true)) == 0)%Q as E1.
    { rewrite <- (Qdiv_mult_l
                   (Qsum (zip_with ape y_true y_pred)
                      / inject_Z (Z.of_nat (length y_true))) 100)
        by done.
      rewrite E0. unfold Qdiv. ring. }
    rewrite <- (Qmult_div_r (Qsum (zip_with ape y_true y_pred))
                  (inject_Z (Z.of_nat (length y_true)))).
    + rewrite E1. ring.
    + intros E2. rewrite E2 in Hn. by apply Qlt_irrefl in Hn.
  - intros E. f_equal. change 0%Q with (Qred 0). apply Qred_complete.
    rewrite Eq, E. unfold Qdiv. ring.
Qed.

Lemma mape_zero_iff_exact_witness :
  mean_absolute_percentage_error Ndarray
    (map Num [100; 200]%Q) (map Num [100; 200]%Q) = Num 0
  <-> Forall2 Qeq [100; 200]%Q [100; 200]%Q.
Proof.
  apply (mape_zero_iff_exact Ndarray [100; 200]%Q [100; 200]%Q).
  - done.
  - reflexivity.
  - repeat constructor; unfold Qeq; simpl; lia.
Defined.

(** ** A reference value that is zero *)

Lemma ape_term_class (y p : Q) :
  ext_abs (ext_div (ext_sub (Num y) (Num p)) (Num y)) <> NegInf /\
  (is_num (ext_abs (ext_div (ext_sub (Num y) (Num p)) (Num y)))
   <-> ~ (y == 0)%Q).
Proof.
  destruct (Qeq_bool y 0) eqn:E.
  - apply Qeq_bool_iff in E.
    unfold ext_sub, ext_neg, ext_add, ext_div, num.
    rewrite (proj2 (Qeq_bool_iff y 0) E).
    destruct (Z.sgn _); simpl; (split; [done|]); split; try done;
      intros Hn; by destruct Hn.
  - assert (~ (y == 0)%Q) as Hy.
    { intros Hy. apply Qeq_bool_iff in Hy. congruence. }
    destruct (ape_term y p Hy) as (q & -> & _). done.
Qed.

Lemma ext_sum_class (xs : list ext) :
  Forall (fun x => x <> NegInf) xs ->
  fold_right ext_add (Num 0) xs <> NegInf /\
  (is_num (fold_right ext_add (Num 0) xs) <-> Forall is_num xs).
Proof.
  induction 1 as [|x xs Hx _ [IHn IH]]; simpl.
  - split; [done|]. split; [constructor|done].
  - rewrite Forall_cons, <- IH.
    destruct x, (fold_right ext_add (Num 0) xs); simpl; try done;
      (split; [done|]); split; try done; by intros [? ?].
Qed.

Lemma ape_terms_class (ys ps : list Q) :
  length ys = length ps ->
  Forall (fun x => x <> NegInf)
    (map ext_abs
       (zip_with ext_div (zip_with ext_sub (map Num ys) (map Num ps))
          (map Num ys))) /\
  (Forall is_num
     (map ext_abs
        (zip_with ext_div (zip_with ext_sub (map Num ys) (map Num ps))
           (map Num ys)))
   <-> Forall (fun y => ~ (y == 0)%Q) ys).
Proof.
  revert ps. induction ys as [|y ys IH]; intros [|p ps] Hlen; try done.
  simpl in Hlen. injection Hlen as Hlen.
  destruct (IH ps Hlen) as [IHn IHi].
  destruct (ape_term_class y p) as [Hn Hi].
  cbn [map zip_with]. split; [by constructor|].
  by rewrite !Forall_cons, IHi, Hi.
Qed.

Lemma scaled_class (s : ext) (n : Q) :
  (0 < n)%Q -> s <> NegInf ->
  ext_mul (ext_div s (Num n)) (Num 100) <> NegInf /\
  (is_num (ext_mul (ext_div s (Num n)) (Num 100)) <-> is_num s).
Proof.
  intros Hn Hs.
  assert (Qeq_bool n 0 = false) as E.
  { apply Qeq_bool_false. intros E. rewrite E in Hn. by apply Qlt_irrefl in Hn. }
  assert (Z.sgn (Qnum n) = 1) as Hsgn.
  { unfold Qlt in Hn. simpl in Hn. lia. }
  destruct s; try done; simpl; rewrite E, ?Hsgn; done.
Qed.

Lemma ape_term_zero (y p : Q) :
  (y == 0)%Q -> ~ (p == 0)%Q ->
  ext_abs (ext_div (ext_sub (Num y) (Num p)) (Num y)) = PosInf.
Proof.
  intros Hy Hp. unfold ext_sub, ext_neg, ext_add, ext_div, num.
  rewrite (proj2 (Qeq_bool_iff y 0) Hy).
  assert (Z.sgn (Qnum (Qred (y + Qred (- p)))) <> 0) as Hs.
  { intros E. apply -> Z.sgn_null_iff in E. apply Hp.
    assert (Qred (y + Qred (- p)) == 0)%Q as E0
      by (unfold Qeq; rewrite E; simpl; lia).
    rewrite !Qred_correct, Hy in E0.
    setoid_replace p with (- (0 + - p))%Q using relation Qeq by ring.
    rewrite E0. ring. }
  destruct (Z.sgn _); simpl; done.
Qed.

Lemma ext_sum_inf (xs : list ext) :
  Forall (fun x => x <> NegInf /\ x <> NaN) xs ->
  ((exists q, fold_right ext_add (Num 0) xs = Num q) \/
   fold_right ext_add (Num 0) xs = PosInf) /\
  (PosInf ∈ xs -> fold_right ext_add (Num 0) xs = PosInf).
Proof.
  induction 1 as [|x xs [Hx1 Hx2] _ [IHc IHi]]; simpl.
  - split; [left; by eexists|]. intros H. by apply not_elem_of_nil in H.
  - split.
    + destruct x; try done; destruct IHc as [[s ->] | ->]; simpl; eauto.
    + intros Hin. apply elem_of_cons in Hin as [<- | Hin].
      * destruct IHc as [[s ->] | ->]; done.
      * rewrite (IHi Hin). by destruct x.
Qed.

Lemma filter_not_nan_class (xs : list ext) :
  Forall (fun x => x <> NegInf) xs ->
  Forall (fun x => x <> NegInf /\ x <> NaN)
    (List.filter (fun x => negb (is_nan x)) xs).
Proof.
  induction 1 as [|x xs Hx _ IH]; simpl; [constructor|].
  destruct x; simpl; try done; by constructor.
Qed.

Lemma filter_not_nan_inf (xs : list ext) :
  PosInf ∈ xs -> PosInf ∈ List.filter (fun x => negb (is_nan x)) xs.
Proof.
  intros Hin. apply list_elem_of_In, filter_In.
  split; [by apply list_elem_of_In|done].
Qed.

(** X18. Division by zero is not guarded.  On numbers, with as many
    predictions as reference values: when a reference value is zero, the
    metric of arrays is plus infinity or NaN, however good the other
    predictions are.  On a pandas Series, where the mean skips NaN, a zero
    reference value whose prediction is not zero makes the metric plus
    infinity. *)
Theorem mape_zero_reference (y_true y_pred : list Q) :
  length y_true = length y_pred ->
  (Exists (fun y => (y == 0)%Q) y_true ->
   mean_absolute_percentage_error Ndarray (map Num y_true) (map Num y_pred)
     = PosInf \/
   mean_absolute_percentage_error Ndarray (map Num y_true) (map Num y_pred)
     = NaN) /\
  (forall (i : nat) (y p : Q),
     y_true !! i = Some y -> y_pred !! i = Some p ->
     (y == 0)%Q -> ~ (p == 0)%Q ->
     mean_absolute_percentage_error PdSeries
       (map Num y_true) (map Num y_pred) = PosInf).
Proof.
  intros Hlen.
  destruct (ape_terms_class y_true y_pred Hlen) as [Hn Hi].
  unfold mean_absolute_percentage_error.
  set (terms := map ext_abs _) in *.
  split.
  - intros Hz.
    assert (terms <> []) as Hterms.
    { unfold terms. destruct y_true as [|y ys]; [by inversion Hz|].
      by destruct y_pred as [|p ps]. }
    destruct (ext_sum_class _ Hn) as [Hsn Hsi].
    assert (np_mean_of Ndarray terms
            = ext_div (fold_right ext_add (Num 0) terms)
                (Num (inject_Z (Z.of_nat (length terms))))) as ->
      by (by destruct terms).
    destruct (scaled_class (fold_right ext_add (Num 0) terms)
                (inject_Z (Z.of_nat (length terms))))
      as [Hfn Hfi]; [by apply inject_length_pos|done|].
    destruct (ext_mul _ _) as [q| | |] eqn:E; auto; [|done].
    exfalso.
    assert (Forall (fun y => ~ (y == 0)%Q) y_true) as Hall
      by (by apply Hi, Hsi, Hfi).
    apply Exists_exists in Hz as (y & Hy & Hy0).
    rewrite Forall_forall in Hall. by apply (Hall y).
  - intros i y p Hy Hp Hy0 Hp0.
    assert (PosInf ∈ terms) as Hin.
    { apply (list_elem_of_lookup_2 _ i). unfold terms.
      rewrite list_lookup_fmap, !lookup_zip_with, !list_lookup_fmap, Hy, Hp.
      simpl. f_equal. by apply ape_term_zero. }
    set (kept := List.filter (fun x => negb (is_nan x)) terms).
    assert (PosInf ∈ kept) as Hin' by by apply filter_not_nan_inf.
    destruct (ext_sum_inf kept (filter_not_nan_class terms Hn)) as [_ Hsum].
    unfold np_mean_of. fold kept.
    assert (kept <> []) as Hne.
    { intros E. rewrite E in Hin'. by apply not_elem_of_nil in Hin'. }
    assert (np_mean kept
            = ext_div (fold_right ext_add (Num 0) kept)
                (Num (inject_Z (Z.of_nat (length kept))))) as ->
      by (by destruct kept).
    rewrite (Hsum Hin').
    pose proof (inject_length_pos kept Hne) as Hpos.
    assert (Qeq_bool (inject_Z (Z.of_nat (length kept))) 0 = false) as E.
    { apply Qeq_bool_false. intros E. rewrite E in Hpos.
      by apply Qlt_irrefl in Hpos. }
    assert (Z.sgn (Qnum (inject_Z (Z.of_nat (length kept)))) = 1) as Hsgn.
    { unfold Qlt in Hpos. simpl in *. lia. }
    simpl. rewrite E. simpl in Hsgn. rewrite Hsgn. done.
Qed.

(** A zero reference value next to a perfect row.  With the prediction 10
    the metric is infinite.  With the exact prediction 0 it is NaN on
    arrays, while the mean of a Series skips the NaN term and gives 0. *)
Lemma mape_zero_reference_witness :
  (mean_absolute_percentage_error Ndarray
     (map Num [0; 200]%Q) (map Num [10; 200]%Q) = PosInf \/
   mean_absolute_percentage_error Ndarray
     (map Num [0; 200]%Q) (map Num [10; 200]%Q) = NaN) /\
  mean_absolute_percentage_error PdSeries
    (map Num [0; 200]%Q) (map Num [10; 200]%Q) = PosInf /\
  mean_absolute_percentage_error Ndarray
    (map Num [0; 200]%Q) (map Num [0; 200]%Q) = NaN /\
  mean_absolute_percentage_error PdSeries
    (map Num [0; 200]%Q) (map Num [0; 200]%Q) = Num 0.
Proof.
  destruct (mape_zero_reference [0; 200]%Q [10; 200]%Q) as [Ha Hs];
    [reflexivity|].
  split; [apply Ha; by constructor|].
  split; [|split; vm_compute; reflexivity].
  apply (Hs 0%nat 0%Q 10%Q); [reflexivity|reflexivity|reflexivity|].
  intros [=].
Defined.

(** ** The plot helpers *)









#[global] Instance abs_ge_total : Total abs_ge.
Proof.
  intros a b. unfold abs_ge. destruct a.2 as [x|], b.2 as [y|]; auto.
  destruct (Qlt_le_dec (Qabs x) (Qabs y)) as [Hlt|Hle]; [|by left].
  right. by apply Qlt_le_weak.
Qed.

#[global] Instance abs_ge_trans : Transitive abs_ge.
Proof.
  intros a b c. unfold abs_ge.
  destruct a.2 as [x|], b.2 as [y|], c.2 as [z|]; try done.
  intros Hxy Hyz. by apply (Qle_trans _ (Qabs y)).
Qed.

(** X21. [plotCoefficients] draws one bar per column, each column with its
    own coefficient, in an order where no bar is followed, anywhere to its
    right, by one of larger absolute value, and NaN coefficients come last.
    It raises [ValueError] exactly when the model has another number of
    coefficients than the table has columns. *)
Theorem coefficients_sorted (coef_ : list cell) (X_columns : list string) :
  match plotCoefficients coef_ X_columns with
  | Ok bars =>
      length coef_ = length X_columns /\
      bars ≡ₚ combine X_columns coef_ /\
      StronglySorted abs_ge bars
  | Raise e => e = ValueError /\ length coef_ <> length X_columns
  end.
Proof.
  unfold plotCoefficients.
  destruct (Nat.eqb_spec (length coef_) (length X_columns)) as [E|E].
  - split; [done|]. split.
    + apply merge_sort_Permutation.
    + apply StronglySorted_merge_sort; apply _.
  - done.
Qed.

